(* ===== verification/_CoqProject ===== *)
-Q . S2P
Prelude.v
JsString.v
JsNumber.v
Money.v
PdfKit.v
InvoiceLayout.v
EmailVerifier.v
EmailService.v
InvoiceEmail.v
ApiWorker.v
LegacyPdf.v
DevServer.v
InvoiceRecord.v
DesignRef.v
