(* ===== verification/Prelude.v ===== *)
(** * NK2IT secure cart: a verification development

    This library models the invoice, e-mail and server code of the NK2IT
    cart (the sources under [src/]) as Rocq definitions, one file per
    component, and proves what that code does.

    ** The program and how its parts interact
    - [src/server/services/pdfService.ts]: [generateInvoicePDF] draws a
      one-page invoice with PDFKit: logo, title, issuer block, the
      invoice number in a 220pt column with its shrinking font and line
      cutting, date, bill-to, one table row, licence key, totals with 10%
      GST, terms and footer.  Amounts are JavaScript numbers:
      [Math.round(amountCents * 0.1)] and [(cents / 100).toFixed(2)] run
      in binary64.  [saveInvoiceRecord] hands a row to Prisma.
    - [src/server/newpdfinvoice.ts]: the legacy [generateInvoicePdf]
      delegates to the service above, or falls back to its own writer.
    - [src/server/services/email-verifier.js]: [EmailVerifier] checks
      [EMAIL_RE], lower-cases, looks up MX records, sorts them stably by
      priority and classifies the risk; [verifyBatch] maps it.
    - [src/server/services/emailService.js]: [EmailService] builds the
      transport from the environment and offers [verifyAndSend] and
      [verifyAndSendBulk], both written against the verifier.
    - [src/server/services/emailService.ts]: [sendInvoiceEmail] sends the
      invoice mail with its transport fallback.
    - [src/my-api/src/index.ts], [cors.ts], [src/functions:api:hello.ts]:
      the edge worker's [fetch] handler and the Pages function.
    - [src/server.js]: the demo server, with its demo router and the
      [/api] proxy branch; [src/next.config.js] configures the Next.js
      application it hands other requests to.
    - [src/.local/.../pdfinvoice.ts]: an HTML mock-up of the invoice
      header, the design reference of [generateInvoicePDF]'s header.

    ** The library, in dependency order
    - [Prelude] (this file): the free monad [prog] of code that awaits
      events, its interpreters [run] and [runT] (with the trace an
      [Observe] instance records), the predicates [always] (every result
      satisfies [P], whatever the events answer) and [bounded] (returns
      after at most [n] events), their laws, the tactics and hint
      databases [nk] and [nk_rw].
    - [JsString]: the string built-ins ([toLowerCase], [split],
      [substring], [startsWith], [trim]) on Latin-1 code units.
    - [JsNumber]: binary64 numbers [m * 2^e] with correct rounding
      ([round_q]), [Math.round], [Math.floor], [Math.max], [toFixed],
      [ToString] of integers and [parseInt].
    - [Money]: GST, totals and the currency strings.
    - [PdfKit]: the part of PDFKit the code drives.  A [Doc] records
      font, size, colour, page, cursor and the drawn operations.  [text]
      breaks the page when its first line passes the bottom margin.
      Font metrics form a class, [PdfMetrics], with the Helvetica
      instance [helvetica_metrics].
    - [InvoiceLayout]: [generateInvoicePDF], split into Sections per
      part of the page (IdBlock, Page, Shrink, DateBlock, Amounts,
      Pages).
    - [EmailVerifier]: [verifyEmail] and [verifyBatch] as programs over
      DNS events.  Its contract is a Class, [EmailVerification], with
      the instance [verifyEmail_contract].
    - [EmailService]: the service's Section Service, proved against
      that contract.
    - [InvoiceEmail]: [createEmailTransporter] and [sendInvoiceEmail] in
      Section Mailer.  [validateEmailEnvironment] is a section variable.
    - [ApiWorker]: [worker_fetch], [route], [api_route], [static_route]
      and the CORS headers.  The URL parser is a section variable.
    - [LegacyPdf]: [generateInvoicePdf] of the legacy wrapper, with
      [delegate], [fallback] and the fallback's document ([legacy_doc]).
    - [DevServer]: [server_port], [demo_mode], [demo_route] and
      [server_handler] of [server.js].
    - [InvoiceRecord]: [saveInvoiceRecord], with the clock and
      [prisma.invoice.create] as events.
    - [DesignRef]: the mock-up as an HTML element tree ([Html],
      [design_reference]), its text nodes in document order, and the
      texts a PDF document draws ([texts_of]).  [DevServer] also holds
      [nextConfig].

    ** What the theorems show
    - Numbers: every JavaScript operation used is the exact result
      rounded to nearest-even.  Below 2^52 cents, [Math.round(x * 0.1)]
      is the half-up tenth and [toFixed(2)] prints the exact cents; near
      2^53 both are off by a cent (counterexamples in [Money]).
    - Invoice layout: the printed amounts, the date below the number
      block, the font-shrinking loop's result, the cutting of the number
      into lines, and the contact line forced onto a second page.
    - E-mail: each send follows a successful MX lookup of a well-formed
      address.  The verifier's result invariant holds and its sort is
      stable.  The bulk send keeps one entry per recipient.
      [sendInvoiceEmail] never rejects.  Transport configuration
      theorems exist for both services.
    - Worker: every answer carries the CORS headers (except passed-on
      assets); every answer is a 200 or a 404 except the 500 of an
      unparsable URL; the API table; at most two awaited events per
      request.
    - Legacy wrapper: what it settles with, the net total its fallback
      prints, and the date below the number.
    - Demo server: the port is a non-zero integer.  The [/api] proxy
      branch always throws.  The demo router's table holds.  Each
      request settles after at most one event.
    - Invoice record: the row sent to [create], field by field, and its
      answer as the result.
    - Design reference: every generated invoice draws the mock-up's
      issuer block line for line, between the title and the number's
      label.  Where the two headers differ is shown by an Example.

    ** Bounds and fuel
    Binary64 is modelled for finite values without the overflow and
    subnormal ranges.  Every quantity of the program is an amount of
    cents or a page coordinate, far inside [2^-1000, 2^1000].  The
    theorems state the bounds they need: amounts below 2^52 cents,
    heights below 2^51 points.  The font-shrinking [while] loop takes
    [shrink_fuel = 4] rounds, exactly the steps from size 10 down to 6
    where its guard stops it.  The [for] loop that cuts the invoice
    number takes [String.length id + 1] rounds, one more than its
    iterations.  Both are proved enough: the loops end before the fuel
    does.

    ** Not modelled
    - PDFKit's glyph-level internals and the byte encoding of documents:
      a library the code only calls, abstracted by [PdfMetrics].
    - Nodemailer's wire protocol and the DNS resolver: they are the
      events' answerers.
    - The Prisma client and schema (not in the repository): [create]
      is an event whose answer is arbitrary.
    - [src/server/lib/environment]: it is not in the repository.
    - The Next.js application behind [server.js]: a library.  Its
      configuration ([next.config.js]) is modelled as data only: no
      code of the repository reads it.
    - The header comment of [src/my-api/src/index.ts] (lines 1-29) and
      the module imports: no behaviour.
    - Browser layout and CSS of the mock-up: only its element tree and
      text are compared with the PDF. *)

From Stdlib Require Import ZArith List String Ascii Bool Lia.
Import ListNotations.

Declare Scope nk_scope.
Delimit Scope nk_scope with nk.

Create HintDb nk discriminated.

(** Linear arithmetic with [/] and [mod] by constants. *)
Ltac zlia := Z.div_mod_to_equations; lia.
Create Rewrite HintDb nk_rw.

(** ** Effects: a free monad over an event signature

    Code that awaits an external service is a [prog E A]: it either
    returns, or issues one event [e : E X] and continues with the
    answer of type [X].  An interpreter [run] answers the events with a
    handler that may keep state (a DNS cache, a mail outbox, a log). *)

Inductive prog (E : Type -> Type) (A : Type) : Type :=
| Ret (a : A)
| Vis {X : Type} (e : E X) (k : X -> prog E A).
Arguments Ret {E A} a.
Arguments Vis {E A X} e k.

Fixpoint bind {E A B} (p : prog E A) (f : A -> prog E B) : prog E B :=
  match p with
  | Ret a => f a
  | Vis e k => Vis e (fun x => bind (k x) f)
  end.

Definition trigger {E X} (e : E X) : prog E X := Vis e Ret.

Notation "x <- c ;; k" := (bind c (fun x => k))
  (at level 61, c at next level, right associativity) : nk_scope.
Notation "' p <- c ;; k" := (bind c (fun x => match x with p => k end))
  (at level 61, p pattern, c at next level, right associativity) : nk_scope.
Notation "c ;; k" := (bind c (fun _ => k))
  (at level 61, right associativity) : nk_scope.

(** Two signatures side by side. *)
Inductive sumE (E1 E2 : Type -> Type) (X : Type) : Type :=
| inl1 (e : E1 X)
| inr1 (e : E2 X).
Arguments inl1 {E1 E2 X} e.
Arguments inr1 {E1 E2 X} e.
(** Method chaining on a value threaded through calls: [d |> f |> g]
    is [g (f d)], the shape of [doc.font(..).fontSize(..).text(..)]. *)
Notation "x |> f" := (f x) (at level 65, left associativity, only parsing) : nk_scope.

Notation "E1 +' E2" := (sumE E1 E2) (at level 60, right associativity) : type_scope.

(** A handler answers an event and updates its state. *)
Definition handler (E : Type -> Type) (S : Type) : Type :=
  forall X, E X -> S -> X * S.

Fixpoint run {E S A} (h : handler E S) (p : prog E A) (s : S) : A * S :=
  match p with
  | Ret a => (a, s)
  | Vis e k => let '(x, s') := h _ e s in run h (k x) s'
  end.

(** Lifting a program into a larger signature. *)
Fixpoint embed {E F A} (f : forall X, E X -> F X) (p : prog E A) : prog F A :=
  match p with
  | Ret a => Ret a
  | Vis e k => Vis (f _ e) (fun x => embed f (k x))
  end.

(** [Promise.all] over a list: the calls run in order and the answers
    come back in input order. *)
Fixpoint mapM {E A B} (f : A -> prog E B) (l : list A) : prog E (list B) :=
  match l with
  | [] => Ret []
  | a :: l' => (b <- f a ;; bs <- mapM f l' ;; Ret (b :: bs))%nk
  end.

(** Number of events a program issues before returning under [h]. *)
Fixpoint events {E St A} (h : handler E St) (p : prog E A) (s : St) : nat :=
  match p with
  | Ret _ => 0
  | Vis e k => let '(x, s') := h _ e s in S (events h (k x) s')
  end.

(** What an observer records of one answered event: a signature with
    an [observe] function turns runs into plain traces. *)
Class Observe (E : Type -> Type) (O : Type) := observe : forall X, E X -> X -> O.

(** [run] that also returns the trace of observed events, in order. *)
Fixpoint runT {E St A O} `{Observe E O} (h : handler E St) (p : prog E A) (s : St)
  : A * St * list O :=
  match p with
  | Ret a => (a, s, [])
  | Vis e k =>
      let '(x, s') := h _ e s in
      let '(a, s'', tr) := runT h (k x) s' in
      (a, s'', observe _ e x :: tr)
  end.

(** [always P p]: every result [p] can return, whatever its events are
    answered with, satisfies [P]. *)
Fixpoint always {E A} (P : A -> Prop) (p : prog E A) : Prop :=
  match p with
  | Ret a => P a
  | Vis e k => forall x, always P (k x)
  end.

(** [bounded n p]: whatever its events are answered with, [p] returns
    after at most [n] of them. *)
Fixpoint bounded {E A} (n : nat) (p : prog E A) {struct p} : Prop :=
  match p with
  | Ret _ => True
  | Vis e k => match n with O => False | S n' => forall x, bounded n' (k x) end
  end.

Section RunLaws.
Context {E : Type -> Type} {St : Type} (h : handler E St).

Lemma run_bind {A B} (p : prog E A) (f : A -> prog E B) s :
  run h (bind p f) s = let '(a, s') := run h p s in run h (f a) s'.
Proof.
  revert s; induction p as [a | X e k IH]; intros s; simpl; [reflexivity |].
  destruct (h X e s) as [x s']. apply IH.
Qed.

Lemma run_mapM_length {A B} (f : A -> prog E B) l s :
  List.length (fst (run h (mapM f l) s)) = List.length l.
Proof.
  revert s; induction l as [| a l IH]; intros s; simpl; [reflexivity |].
  rewrite run_bind. destruct (run h (f a) s) as [b s1].
  rewrite run_bind. specialize (IH s1).
  destruct (run h (mapM f l) s1) as [bs s2]. simpl in *. now rewrite IH.
Qed.
Lemma runT_run {A O} `{Observe E O} (p : prog E A) s :
  fst (runT h p s) = run h p s.
Proof.
  revert s; induction p as [a | X e k IH]; intros s; simpl; [reflexivity |].
  destruct (h X e s) as [x s']. rewrite <- IH.
  destruct (runT h (k x) s') as [[a s''] tr]. reflexivity.
Qed.

Lemma runT_bind {A B O} `{Observe E O} (p : prog E A) (f : A -> prog E B) s :
  runT h (bind p f) s =
  let '(a, s', tr1) := runT h p s in
  let '(b, s'', tr2) := runT h (f a) s' in (b, s'', tr1 ++ tr2).
Proof.
  revert s; induction p as [a | X e k IH]; intros s; simpl.
  - destruct (runT h (f a) s) as [[b s''] tr]. reflexivity.
  - destruct (h X e s) as [x s']. rewrite IH.
    destruct (runT h (k x) s') as [[a s1] tr1].
    destruct (runT h (f a) s1) as [[b s2] tr2]. reflexivity.
Qed.

(** A run of [bind p f] is a run of [p] followed by a run of [f]. *)
Lemma runT_bind_inv {A B O} `{Observe E O} (p : prog E A) (f : A -> prog E B) s b s'' tr :
  runT h (bind p f) s = (b, s'', tr) ->
  exists a s' tr1 tr2, runT h p s = (a, s', tr1) /\ runT h (f a) s' = (b, s'', tr2) /\
                       tr = (tr1 ++ tr2)%list.
Proof.
  rewrite runT_bind. destruct (runT h p s) as [[a s'] tr1] eqn:E1.
  destruct (runT h (f a) s') as [[b' s2] tr2] eqn:E2. intros [= <- <- <-].
  exists a, s', tr1, tr2. auto.
Qed.

(** A run of a program that first issues [e] answers [e] once. *)
Lemma runT_vis_inv {A O X} `{Observe E O} (e : E X) (k : X -> prog E A) s a s'' tr :
  runT h (Vis e k) s = (a, s'', tr) ->
  exists x s' tr', h X e s = (x, s') /\ runT h (k x) s' = (a, s'', tr') /\
                   tr = observe X e x :: tr'.
Proof.
  cbn [runT]. destruct (h X e s) as [x s'] eqn:Eh. destruct (runT h (k x) s') as [[a' s2] tr'] eqn:Er.
  intros [= <- <- <-]. exists x, s', tr'. auto.
Qed.

(** A property of traces closed under concatenation that holds of every
    run of [f] holds of every run of [mapM f]. *)
Lemma runT_mapM_trace {A B O} `{Observe E O} (Q : list O -> Prop) (f : A -> prog E B) :
  Q [] -> (forall a b, Q a -> Q b -> Q (a ++ b)%list) ->
  (forall x s, Q (snd (runT h (f x) s))) ->
  forall l s, Q (snd (runT h (mapM f l) s)).
Proof.
  intros Hnil Happ Hf l. induction l as [| x l IH]; intros s; [exact Hnil |].
  simpl mapM. rewrite runT_bind. specialize (Hf x s).
  destruct (runT h (f x) s) as [[b s1] tr1]. rewrite runT_bind. specialize (IH s1).
  destruct (runT h (mapM f l) s1) as [[bs s2] tr2]. simpl in *.
  rewrite app_nil_r. auto.
Qed.
(** The [i]-th result of [mapM f l] is a run of [f] on the [i]-th input,
    from the state the earlier runs left. *)
Lemma runT_mapM_nth {A B O} `{Observe E O} (f : A -> prog E B) l s bs s' tr :
  runT h (mapM f l) s = (bs, s', tr) ->
  List.length bs = List.length l /\
  forall i x, nth_error l i = Some x ->
  exists si b, nth_error bs i = Some b /\ fst (fst (runT h (f x) si)) = b.
Proof.
  revert s bs s' tr; induction l as [| x l IH]; intros s bs s' tr Hr.
  - injection Hr as <- _ _. split; [reflexivity |]. intros [|i] y Hy; discriminate.
  - apply runT_bind_inv in Hr as (b & s1 & tr1 & tr2 & E1 & E2 & _).
    apply runT_bind_inv in E2 as (bs' & s2 & tr3 & tr4 & E3 & E4 & _).
    injection E4 as <- _ _. destruct (IH _ _ _ _ E3) as [Hlen Hnth].
    split; [simpl; congruence |].
    intros [| i] y Hy; simpl in Hy.
    + injection Hy as <-. exists s, b. rewrite E1. auto.
    + exact (Hnth i y Hy).
Qed.
Lemma always_bind {A B} (P : B -> Prop) (p : prog E A) (f : A -> prog E B) :
  always (fun a => always P (f a)) p -> always P (bind p f).
Proof. induction p as [a | X e k IH]; cbn [always bind]; auto. Qed.

Lemma always_mono {A} (P Q : A -> Prop) (p : prog E A) :
  (forall a, P a -> Q a) -> always P p -> always Q p.
Proof. intros HPQ. induction p as [a | X e k IH]; cbn [always]; auto. Qed.

(** What holds of every possible result holds of the result of a run. *)
Lemma always_runT {A O} `{Observe E O} (P : A -> Prop) (p : prog E A) s a s' tr :
  always P p -> runT h p s = (a, s', tr) -> P a.
Proof.
  revert s a s' tr. induction p as [a0 | X e k IH]; intros s a s' tr Hp; cbn [runT].
  - intros [= <- _ _]. exact Hp.
  - destruct (h X e s) as [x s1]. destruct (runT h (k x) s1) as [[a1 s2] tr1] eqn:E1.
    intros [= <- _ _]. exact (IH x s1 a1 s2 tr1 (Hp x) E1).
Qed.

Lemma bounded_mono {A} n n' (p : prog E A) : (n <= n')%nat -> bounded n p -> bounded n' p.
Proof.
  revert n n'. induction p as [a | X e k IH]; intros n n' Hle; cbn [bounded]; [auto |].
  destruct n as [| n]; [intros [] |]. destruct n' as [| n']; [exfalso; lia |].
  intros Hk x. apply (IH x n); [lia | exact (Hk x)].
Qed.

Lemma bounded_bind {A B} n m (p : prog E A) (f : A -> prog E B) :
  bounded n p -> always (fun a => bounded m (f a)) p -> bounded (n + m) (bind p f).
Proof.
  revert n. induction p as [a | X e k IH]; intros n Hb Ha; cbn [bind bounded always] in *.
  - apply (bounded_mono m); [lia | exact Ha].
  - destruct n as [| n]; [contradiction |]. intros x. exact (IH x n (Hb x) (Ha x)).
Qed.

(** A run of a program bounded by [n] records at most [n] events. *)
Lemma bounded_runT {A O} `{Observe E O} n (p : prog E A) s a s' tr :
  bounded n p -> runT h p s = (a, s', tr) -> (List.length tr <= n)%nat.
Proof.
  revert n s a s' tr. induction p as [a0 | X e k IH]; intros n s a s' tr Hb; cbn [runT bounded] in *.
  - intros [= _ _ <-]. cbn. lia.
  - destruct n as [| n]; [contradiction |]. destruct (h X e s) as [x s1].
    destruct (runT h (k x) s1) as [[a1 s2] tr1] eqn:E1. intros [= _ _ <-].
    cbn [List.length]. pose proof (IH x n s1 a1 s2 tr1 (Hb x) E1). lia.
Qed.

End RunLaws.

(** Running an embedded program is running it against the restricted
    handler, with its observations translated. *)
Lemma runT_embed {E F St A O1 O2} `{Observe E O1} `{Observe F O2}
  (f : forall X, E X -> F X) (g : O1 -> O2) (h : handler F St) (p : prog E A) s :
  (forall X (e : E X) x, observe X (f X e) x = g (observe X e x)) ->
  runT h (embed f p) s =
  let '(a, s', tr) := runT (fun X e => h X (f X e)) p s in (a, s', map g tr).
Proof.
  intros Hobs. revert s; induction p as [a | X e k IH]; intros s; simpl; [reflexivity |].
  destruct (h X (f X e) s) as [x s']. rewrite IH, Hobs.
  destruct (runT (fun X e => h X (f X e)) (k x) s') as [[a s''] tr]. reflexivity.
Qed.

#[export] Hint Rewrite @run_bind : nk_rw.
