(* ===== verification/JsString.v ===== *)
(** JavaScript string built-ins used by the program.

    A JavaScript string is a sequence of UTF-16 code units; the model
    keeps the code units U+0000 to U+00FF, one [ascii] (8-bit) each,
    read as Latin-1.  On that range [toLowerCase] is a per-character map,
    [\s] is the set of ECMAScript white-space and line terminators, and
    [split], [substring], [startsWith] are the functions below. *)

From Stdlib Require Import ZArith List String Ascii Bool Lia.
From S2P Require Import Prelude.
Import ListNotations.
Open Scope string_scope.

(** ECMAScript [WhiteSpace] and [LineTerminator] code units below
    U+0100: TAB, LF, VT, FF, CR, SPACE and NO-BREAK SPACE.  This is
    both the [\s] class of regular expressions and what [parseInt] and
    [trim] skip. *)
Definition js_space (c : ascii) : bool :=
  let n := nat_of_ascii c in
  ((9 <=? n) && (n <=? 13))%nat || (n =? 32)%nat || (n =? 160)%nat.

(** [String.prototype.toLowerCase] on one Latin-1 code unit: A-Z and
    U+00C0-U+00DE except U+00D7 map to the code unit 32 above. *)
Definition lower_char (c : ascii) : ascii :=
  let n := nat_of_ascii c in
  if ((65 <=? n) && (n <=? 90))%nat
     || ((192 <=? n) && (n <=? 222) && negb (n =? 215))%nat
  then ascii_of_nat (n + 32) else c.

Fixpoint toLowerCase (s : string) : string :=
  match s with
  | EmptyString => EmptyString
  | String c r => String (lower_char c) (toLowerCase r)
  end.

(** [s.split(c)] for a one-character separator: the pieces between
    separators, in order, and the one empty piece for the empty string. *)
Fixpoint split_char (c : ascii) (s : string) : list string :=
  match s with
  | EmptyString => [EmptyString]
  | String x r =>
      let parts := split_char c r in
      if Ascii.eqb x c then EmptyString :: parts
      else match parts with
           | p :: ps => String x p :: ps
           | [] => [String x EmptyString]
           end
  end.

(** [s.substring(a, b)] for non-negative indices: both are clamped to
    the length and swapped when [b < a]. *)
Definition js_substring (s : string) (a b : nat) : string :=
  let a' := Nat.min a (String.length s) in
  let b' := Nat.min b (String.length s) in
  substring (Nat.min a' b') (Nat.max a' b' - Nat.min a' b') s.

(** [s.startsWith(p)]. *)
Definition startsWith (s p : string) : bool := String.prefix p s.

(** [arr.join(sep)]. *)
Definition join (sep : string) (l : list string) : string := String.concat sep l.

(** Whether a character occurs in a string. *)
Fixpoint has_char (c : ascii) (s : string) : bool :=
  match s with
  | EmptyString => false
  | String x r => Ascii.eqb x c || has_char c r
  end.

(** [s.includes(t)], as a proposition. *)
Definition contains (s t : string) : Prop := exists a b, s = (a ++ t ++ b)%string.

(** ** Lemmas *)

Lemma split_char_nonempty c s : split_char c s <> [].
Proof.
  induction s as [| x r IH]; simpl; [discriminate |].
  destruct (Ascii.eqb x c); [discriminate |].
  destruct (split_char c r); discriminate.
Qed.

(** Joining the pieces with the separator gives the string back. *)
Lemma join_split_char c s : join (String c EmptyString) (split_char c s) = s.
Proof.
  unfold join. induction s as [| x r IH]; simpl; [reflexivity |].
  destruct (Ascii.eqb x c) eqn:Hx.
  - apply Ascii.eqb_eq in Hx. subst x.
    pose proof (split_char_nonempty c r) as Hne.
    destruct (split_char c r) as [| p ps]; [congruence |].
    simpl in *. destruct ps; simpl in *; now rewrite IH.
  - pose proof (split_char_nonempty c r) as Hne.
    destruct (split_char c r) as [| p ps]; [congruence |].
    destruct ps; simpl in *; now rewrite IH.
Qed.

(** A string without the separator is one piece. *)
Lemma split_char_no_sep c s : has_char c s = false -> split_char c s = [s].
Proof.
  induction s as [| x r IH]; simpl; [reflexivity |].
  intros H. apply orb_false_iff in H as [Hx Hr].
  rewrite Hx, (IH Hr). reflexivity.
Qed.

(** Splitting [l ++ c :: r] where [l] has no separator. *)
Lemma split_char_app c l r :
  has_char c l = false ->
  split_char c (l ++ String c r) = l :: split_char c r.
Proof.
  induction l as [| x l IH]; simpl; intros H.
  - now rewrite Ascii.eqb_refl.
  - apply orb_false_iff in H as [Hx Hl]. rewrite Hx, (IH Hl). reflexivity.
Qed.

Lemma length_toLowerCase s : String.length (toLowerCase s) = String.length s.
Proof. induction s; simpl; auto. Qed.

Lemma toLowerCase_app a b : toLowerCase (a ++ b) = toLowerCase a ++ toLowerCase b.
Proof. induction a; simpl; congruence. Qed.

#[export] Hint Rewrite toLowerCase_app length_toLowerCase : nk_rw.

Lemma length_append a b : String.length (a ++ b) = (String.length a + String.length b)%nat.
Proof. induction a; simpl; auto. Qed.

Lemma substring_app_l a b : substring 0 (String.length a) (a ++ b) = a.
Proof. induction a; simpl; [destruct b; reflexivity | congruence]. Qed.

Lemma substring_app_r a b : substring (String.length a) (String.length b) (a ++ b) = b.
Proof.
  induction a; simpl; [| assumption].
  induction b; simpl; congruence.
Qed.

#[export] Hint Rewrite length_append substring_app_l substring_app_r : nk_rw.

Lemma string_app_assoc a b c : ((a ++ b) ++ c)%string = (a ++ (b ++ c))%string.
Proof. induction a; simpl; congruence. Qed.

(** ** Substrings *)

Lemma substring_split i n m s :
  (substring i n s ++ substring (i + n) m s)%string = substring i (n + m) s.
Proof.
  revert i n. induction s as [| c s IH]; intros i n.
  - destruct i, n, m; reflexivity.
  - destruct i as [| i].
    + destruct n as [| n]; simpl.
      * destruct m; reflexivity.
      * f_equal. apply (IH 0 n).
    + simpl. apply IH.
Qed.

Lemma length_substring i n s :
  String.length (substring i n s) = Nat.min n (String.length s - i).
Proof.
  revert i n. induction s as [| c s IH]; intros i n.
  - destruct i, n; reflexivity.
  - destruct i as [| i]; simpl.
    + destruct n as [| n]; simpl; [reflexivity |]. rewrite IH. simpl. lia.
    + apply IH.
Qed.

Lemma substring_past i n s : (String.length s <= i)%nat -> substring i n s = EmptyString.
Proof.
  revert i. induction s as [| c s IH]; intros i Hi.
  - destruct i, n; reflexivity.
  - destruct i as [| i]; simpl in *; [lia | apply IH; lia].
Qed.

Lemma substring_whole s : substring 0 (String.length s) s = s.
Proof. induction s as [| c s IH]; simpl; [reflexivity | now rewrite IH]. Qed.

Lemma substring_trunc i n s : substring i n s = substring i (Nat.min n (String.length s - i)) s.
Proof.
  revert i n. induction s as [| c s IH]; intros i n.
  - destruct i, n; reflexivity.
  - destruct i as [| i]; simpl.
    + destruct n as [| n]; simpl; [reflexivity |]. f_equal. rewrite (IH 0 n). f_equal. lia.
    + apply IH.
Qed.

(** [s.substring(i, i + n)] from an index inside the string. *)
Lemma js_substring_forward s i n :
  (i <= String.length s)%nat -> js_substring s i (i + n) = substring i n s.
Proof.
  intros Hi. unfold js_substring. rewrite (substring_trunc i n s).
  replace (Nat.min i (String.length s)) with i by lia.
  replace (Nat.min i (Nat.min (i + n) (String.length s))) with i by lia.
  f_equal. lia.
Qed.

Lemma append_empty_r s : (s ++ EmptyString)%string = s.
Proof. induction s as [| c s IH]; simpl; [reflexivity | now rewrite IH]. Qed.

Lemma join_empty_cons x l : join EmptyString (x :: l) = (x ++ join EmptyString l)%string.
Proof. unfold join. destruct l; simpl; [symmetry; apply append_empty_r | reflexivity]. Qed.

Lemma contains_join sep l x : In x l -> contains (join sep l) x.
Proof.
  unfold join. induction l as [| a l IH]; intros Hin; [destruct Hin |].
  destruct Hin as [<- | Hin].
  - exists EmptyString. destruct l as [| b l]; cbn [String.concat].
    + exists EmptyString. simpl. symmetry; apply append_empty_r.
    + eexists. reflexivity.
  - destruct (IH Hin) as (A & B & E). destruct l as [| b l]; [destruct Hin |].
    exists (a ++ sep ++ A)%string, B. change (String.concat sep (a :: b :: l))
      with (a ++ sep ++ String.concat sep (b :: l))%string.
    rewrite E, !string_app_assoc. reflexivity.
Qed.

Lemma contains_trans s t u : contains s t -> contains t u -> contains s u.
Proof.
  intros (a & b & ->) (c & d & ->). exists (a ++ c)%string, (d ++ b)%string.
  rewrite !string_app_assoc. reflexivity.
Qed.

Lemma contains_mid a t b : contains (a ++ t ++ b) t.
Proof. exists a, b. reflexivity. Qed.
