(* ===== verification/JsNumber.v ===== *)
(** JavaScript numbers as IEEE-754 binary64 values.

    A finite number is [Num m e], the value [m * 2^e]; [Inf] and [NaN]
    are the non-finite values (signed zero is not distinguished: the
    program never observes the sign of a zero).  Every arithmetic
    operation is the exact rational result rounded to nearest, ties to
    even ([round_q]), with overflow to infinity and gradual underflow,
    which is what ECMAScript's Number operations are.  On top of it:
    [Math.round], [Math.floor], [Math.max], [Number.prototype.toFixed],
    [parseInt] and the decimal [ToString] of integral numbers. *)

From Stdlib Require Import ZArith List String Ascii Bool Lia.
From Stdlib Require Import SpecFloat.
From S2P Require Import Prelude JsString.
Import ListNotations.
Open Scope Z_scope.

Inductive jsnum : Type :=
| Num (m e : Z)
| Inf (neg : bool)
| NaN.

(** ** Rounding a rational [n / d] ([d > 0]) to binary64 *)

Definition emin : Z := -1074.   (** exponent of the least subnormal *)
Definition emax_m : Z := 971.   (** largest exponent of a 53-bit mantissa *)

(** [n / d / 2^e] as a fraction of integers. *)
Definition scale (n d e : Z) : Z * Z :=
  if 0 <=? e then (n, d * 2 ^ e) else (n * 2 ^ (- e), d).

(** [N / D] rounded to the nearest integer, ties to even. *)
Definition rne (N D : Z) : Z :=
  let q := N / D in
  let r := N mod D in
  if 2 * r <? D then q
  else if D <? 2 * r then q + 1
  else if Z.even q then q else q + 1.

(** The exponent [e] with [2^52 <= n / d / 2^e < 2^53], from the
    binary logarithms, corrected by one. *)
Definition exponent_of (n d : Z) : Z :=
  let e0 := Z.log2 n - Z.log2 d - 52 in
  let '(N, D) := scale n d e0 in
  if N / D <? 2 ^ 52 then e0 - 1 else e0.

Definition round_pos (n d : Z) : jsnum :=
  let e := Z.max emin (exponent_of n d) in
  let '(N, D) := scale n d e in
  let m := rne N D in
  if m =? 2 ^ 53 then
    (if emax_m <? e + 1 then Inf false else Num (2 ^ 52) (e + 1))
  else if m =? 0 then Num 0 0
  else if emax_m <? e then Inf false
  else Num m e.

Definition neg (x : jsnum) : jsnum :=
  match x with
  | Num m e => if m =? 0 then Num 0 0 else Num (- m) e
  | Inf b => Inf (negb b)
  | NaN => NaN
  end.

Definition round_q (n d : Z) : jsnum :=
  if n =? 0 then Num 0 0
  else if 0 <? n then round_pos n d
  else neg (round_pos (- n) d).

(** The rational value of a finite number: [qn x / qd x]. *)
Definition qn (m e : Z) : Z := if 0 <=? e then m * 2 ^ e else m.
Definition qd (e : Z) : Z := if 0 <=? e then 1 else 2 ^ (- e).

(** ** Arithmetic *)

Definition of_Z (z : Z) : jsnum := round_q z 1.

Definition add (x y : jsnum) : jsnum :=
  match x, y with
  | Num m1 e1, Num m2 e2 =>
      round_q (qn m1 e1 * qd e2 + qn m2 e2 * qd e1) (qd e1 * qd e2)
  | NaN, _ | _, NaN => NaN
  | Inf b1, Inf b2 => if Bool.eqb b1 b2 then Inf b1 else NaN
  | Inf b, _ | _, Inf b => Inf b
  end.

(** [x - y] is [x + (-y)] in IEEE-754. *)
Definition sub (x y : jsnum) : jsnum := add x (neg y).

Definition sign_of (m : Z) : bool := m <? 0.

Definition mul (x y : jsnum) : jsnum :=
  match x, y with
  | Num m1 e1, Num m2 e2 => round_q (qn m1 e1 * qn m2 e2) (qd e1 * qd e2)
  | NaN, _ | _, NaN => NaN
  | Inf b1, Inf b2 => Inf (xorb b1 b2)
  | Inf b, Num m _ | Num m _, Inf b =>
      if m =? 0 then NaN else Inf (xorb b (sign_of m))
  end.

Definition div (x y : jsnum) : jsnum :=
  match x, y with
  | Num m1 e1, Num m2 e2 =>
      if m2 =? 0 then (if m1 =? 0 then NaN else Inf (sign_of m1))
      else if 0 <? m2 then round_q (qn m1 e1 * qd e2) (qd e1 * qn m2 e2)
      else round_q (- (qn m1 e1 * qd e2)) (qd e1 * (- qn m2 e2))
  | NaN, _ | _, NaN => NaN
  | Inf _, Inf _ => NaN
  | Inf b, Num m _ => Inf (xorb b (sign_of m))
  | Num _ _, Inf _ => Num 0 0
  end.

(** [x < y] on numbers; every comparison with [NaN] is false. *)
Definition lt (x y : jsnum) : bool :=
  match x, y with
  | Num m1 e1, Num m2 e2 => qn m1 e1 * qd e2 <? qn m2 e2 * qd e1
  | Inf true, Inf false => true
  | Inf true, Num _ _ | Num _ _, Inf false => true
  | _, _ => false
  end.

(** [Math.max(x, y)]. *)
Definition max (x y : jsnum) : jsnum :=
  match x, y with
  | NaN, _ | _, NaN => NaN
  | _, _ => if lt x y then y else x
  end.

(** [Math.floor]. *)
Definition floor (x : jsnum) : jsnum :=
  match x with
  | Num m e => if 0 <=? e then x else of_Z (m / 2 ^ (- e))
  | _ => x
  end.

(** [Math.round]: the closest integer, halves rounded up. *)
Definition round (x : jsnum) : jsnum :=
  match x with
  | Num m e => if 0 <=? e then x else of_Z ((2 * m + 2 ^ (- e)) / 2 ^ (1 - e))
  | _ => x
  end.

(** JavaScript truthiness of a number. *)
Definition truthy (x : jsnum) : bool :=
  match x with
  | Num m _ => negb (m =? 0)
  | Inf _ => true
  | NaN => false
  end.

(** ** Decimal digits *)

Definition digit_char (d : Z) : ascii := ascii_of_nat (48 + Z.to_nat d).

(** The decimal digits of [n >= 0], most significant first; [fuel]
    bounds the number of digits. *)
Fixpoint decimal_fuel (fuel : nat) (n : Z) : string :=
  match fuel with
  | O => EmptyString
  | S f =>
      if n <? 10 then String (digit_char n) EmptyString
      else (decimal_fuel f (n / 10) ++ String (digit_char (n mod 10)) EmptyString)%string
  end.

(** [n] has at most [log2 n + 1] digits, which is the fuel given. *)
Definition decimal (n : Z) : string := decimal_fuel (S (Z.to_nat (Z.log2 n))) n.

Fixpoint zeros (k : nat) : string :=
  match k with
  | O => EmptyString
  | S k' => String "0"%char (zeros k')
  end.

(** ** [Number.prototype.toFixed(f)]

    For a finite [x] below [10^21]: [n] is the integer nearest to
    [x * 10^f], the larger one on a tie; its digits, padded with zeros
    to [f + 1] digits, get a point before the last [f].  From [10^21] on
    the result is [ToString(x)] in exponent form, which is not modelled
    ([None]). *)
Definition fixed_of_int (f : nat) (n : Z) : string :=
  let ds := if n =? 0 then "0"%string else decimal n in
  let k := String.length ds in
  let ds' := if (k <=? f)%nat then (zeros (f + 1 - k) ++ ds)%string else ds in
  let k' := String.length ds' in
  if (f =? 0)%nat then ds'
  else (substring 0 (k' - f) ds' ++ "." ++ substring (k' - f) f ds')%string.

Definition toFixed (f : nat) (x : jsnum) : option string :=
  match x with
  | NaN => Some "NaN"%string
  | Inf false => Some "Infinity"%string
  | Inf true => Some "-Infinity"%string
  | Num m e =>
      let sgn := if m <? 0 then "-"%string else EmptyString in
      let a := Z.abs m in
      if 10 ^ 21 * qd e <=? qn a e then None
      else
        let n := (2 * qn a e * 10 ^ Z.of_nat f + qd e) / (2 * qd e) in
        Some (sgn ++ fixed_of_int f n)%string
  end.

(** ** [ToString] of an integral number below [10^21]

    Other finite numbers print in shortest round-trip form, which is not
    modelled ([None]). *)
Definition to_string (x : jsnum) : option string :=
  match x with
  | NaN => Some "NaN"%string
  | Inf false => Some "Infinity"%string
  | Inf true => Some "-Infinity"%string
  | Num m e =>
      if negb (qn m e mod qd e =? 0) then None
      else
        let v := qn m e / qd e in
        if 10 ^ 21 <=? Z.abs v then None
        else Some ((if (v <? 0)%Z then "-" else EmptyString) ++ decimal (Z.abs v))%string
  end.

(** ** [parseInt(s, 10)] *)

Definition digit_value (c : ascii) : option Z :=
  let n := nat_of_ascii c in
  if ((48 <=? n) && (n <=? 57))%nat then Some (Z.of_nat n - 48) else None.

(** The value of the longest prefix of decimal digits, if non-empty. *)
Fixpoint digits_prefix (s : string) (acc : option Z) : option Z :=
  match s with
  | EmptyString => acc
  | String c r =>
      match digit_value c with
      | Some v => digits_prefix r (Some (10 * match acc with Some a => a | None => 0 end + v))
      | None => acc
      end
  end.

Fixpoint trim_start (s : string) : string :=
  match s with
  | String c r => if js_space c then trim_start r else s
  | EmptyString => EmptyString
  end.

Definition parseInt10 (s : string) : jsnum :=
  let s1 := trim_start s in
  let '(sign, s2) :=
    match s1 with
    | String c r =>
        if Ascii.eqb c "-"%char then (-1, r)
        else if Ascii.eqb c "+"%char then (1, r)
        else (1, s1)
    | EmptyString => (1, s1)
    end in
  match digits_prefix s2 None with
  | None => NaN
  | Some v => of_Z (sign * v)
  end.

(** The number an accumulator of [digits_prefix] holds. *)
Definition acc_value (acc : option Z) : Z := match acc with Some a => a | None => 0 end.

(** [ToString(undefined)], the argument [parseInt] sees for a missing
    environment variable. *)
Definition undefined_string : string := "undefined".

(** [x] is a multiple of [2^e] in [[2^52, 2^53) * 2^e]: the binade of
    the rational [n / d]. *)
Definition in_binade (n d e : Z) : Prop :=
  let '(N, D) := scale n d e in 2 ^ 52 * D <= N < 2 ^ 53 * D.

(** The result of [rne] before normalisation: a mantissa that reached
    [2^53] moves to the next binade. *)
Definition canon (m e : Z) : jsnum :=
  if m =? 2 ^ 53 then Num (2 ^ 52) (e + 1) else Num m e.

(** The binary64 value of the literal [0.1]. *)
Definition tenth : jsnum := round_q 1 10.

(** The same number in the Standard Library's IEEE-754 specification
    ([SpecFloat], from Flocq), for cross-checking the model. *)
Definition to_spec (x : jsnum) : spec_float :=
  match x with
  | Num m e =>
      match m with
      | Z0 => S754_zero false
      | Zpos p => S754_finite false p e
      | Zneg p => S754_finite true p e
      end
  | Inf b => S754_infinity b
  | NaN => S754_nan
  end.

(** ** Rounding lemmas *)

Lemma pow2_pos e : 0 <= e -> 0 < 2 ^ e.
Proof. intros; apply Z.pow_pos_nonneg; lia. Qed.
#[export] Hint Resolve pow2_pos : nk.

Ltac pow2_facts :=
  repeat match goal with
  | |- context [2 ^ ?e] =>
      lazymatch goal with
      | _ : 0 < 2 ^ e |- _ => fail
      | _ => assert (0 < 2 ^ e) by (apply pow2_pos; lia)
      end
  end.

Lemma scale_pos n d e :
  0 < n -> 0 < d -> 0 < fst (scale n d e) /\ 0 < snd (scale n d e).
Proof.
  intros Hn Hd. unfold scale. destruct (Z.leb_spec 0 e); simpl; pow2_facts; nia.
Qed.

Lemma scale_succ n d e :
  fst (scale n d e) * snd (scale n d (e + 1))
  = 2 * fst (scale n d (e + 1)) * snd (scale n d e).
Proof.
  unfold scale. destruct (Z.leb_spec 0 e), (Z.leb_spec 0 (e + 1)); cbn [fst snd]; try lia.
  - rewrite Z.pow_add_r by lia. ring.
  - assert (e = -1) by lia. subst e.
    change (- -1) with 1. change (-1 + 1) with 0. rewrite Z.pow_1_r, Z.pow_0_r. ring.
  - replace (- e) with (- (e + 1) + 1) by lia. rewrite Z.pow_add_r by lia. ring.
Qed.

Lemma scale_gap n d e j :
  0 < n -> 0 < d -> 0 <= j ->
  fst (scale n d e) * snd (scale n d (e + j))
  = 2 ^ j * fst (scale n d (e + j)) * snd (scale n d e).
Proof.
  intros Hn Hd Hj. pattern j. apply natlike_ind; [| | exact Hj].
  - rewrite Z.add_0_r. cbn [Z.pow Z.pow_pos]. ring.
  - intros i Hi IH.
    pose proof (scale_succ n d (e + i)) as Hs.
    replace (e + Z.succ i) with (e + i + 1) by lia.
    destruct (scale_pos n d (e + i) Hn Hd) as [_ Hpos].
    rewrite Z.pow_succ_r by lia.
    set (N0 := fst (scale n d e)) in *. set (D0 := snd (scale n d e)) in *.
    set (Ni := fst (scale n d (e + i))) in *. set (Di := snd (scale n d (e + i))) in *.
    set (Nj := fst (scale n d (e + i + 1))) in *. set (Dj := snd (scale n d (e + i + 1))) in *.
    apply (Z.mul_reg_r _ _ Di); [lia |].
    transitivity ((N0 * Di) * Dj); [ring |]. rewrite IH.
    transitivity (2 ^ i * D0 * (Ni * Dj)); [ring |]. rewrite Hs. ring.
Qed.

(** The binade exponent of a positive rational is unique. *)
Lemma in_binade_unique n d e1 e2 :
  0 < n -> 0 < d -> in_binade n d e1 -> in_binade n d e2 -> e1 = e2.
Proof.
  intros Hn Hd. unfold in_binade.
  assert (Hgap : forall a b, a < b -> in_binade n d a -> in_binade n d b -> False).
  { intros a b Hab. unfold in_binade.
    pose proof (scale_gap n d a (b - a) Hn Hd ltac:(lia)) as G.
    replace (a + (b - a)) with b in G by lia.
    destruct (scale_pos n d a Hn Hd), (scale_pos n d b Hn Hd).
    destruct (scale n d a) as [Na Da], (scale n d b) as [Nb Db]; cbn [fst snd] in *.
    assert (2 <= 2 ^ (b - a)).
    { replace (b - a) with (1 + (b - a - 1)) by lia.
      rewrite Z.pow_add_r, Z.pow_1_r by lia. pow2_facts. lia. }
    intros [Ha1 Ha2] [Hb1 Hb2].
    assert (Na * Db < 2 ^ 53 * Da * Db) by nia.
    assert (2 * (Nb * Da) <= 2 ^ (b - a) * (Nb * Da)) by nia.
    assert (2 ^ 53 * Da * Db <= 2 * (Nb * Da)) by nia.
    lia. }
  intros H1 H2. destruct (Z.lt_trichotomy e1 e2) as [Hl | [He | Hl]]; auto.
  - exfalso; eauto.
  - exfalso; eauto.
Qed.

(** [exponent_of] finds the binade from the binary logarithms. *)
Lemma exponent_of_spec n d : 0 < n -> 0 < d -> in_binade n d (exponent_of n d).
Proof.
  intros Hn Hd. unfold exponent_of. cbv zeta.
  set (a := Z.log2 n). set (b := Z.log2 d). set (e0 := a - b - 52).
  destruct (Z.log2_spec n Hn) as [Ha1 Ha2]. destruct (Z.log2_spec d Hd) as [Hb1 Hb2].
  fold a in Ha1, Ha2. fold b in Hb1, Hb2.
  assert (Ha0 : 0 <= a) by apply Z.log2_nonneg. assert (Hb0 : 0 <= b) by apply Z.log2_nonneg.
  rewrite Z.pow_succ_r in Ha2, Hb2 by lia.
  assert (H0 : 2 ^ 51 * snd (scale n d e0) <= fst (scale n d e0) < 2 ^ 53 * snd (scale n d e0)).
  { unfold scale. destruct (Z.leb_spec 0 e0); cbn [fst snd].
    - assert (E : 2 ^ a = 2 ^ 51 * 2 ^ b * 2 ^ e0 * 2 ^ 1).
      { replace a with (51 + b + e0 + 1) at 1 by lia. rewrite !Z.pow_add_r by lia. ring. }
      pow2_facts. nia.
    - assert (E : 2 ^ a * 2 ^ (- e0) = 2 ^ 51 * 2 ^ b * 2 ^ 1).
      { rewrite <- !Z.pow_add_r by lia. f_equal. lia. }
      pow2_facts. nia. }
  pose proof (scale_succ n d (e0 - 1)) as Hs. replace (e0 - 1 + 1) with e0 in Hs by lia.
  destruct (scale_pos n d e0 Hn Hd), (scale_pos n d (e0 - 1) Hn Hd).
  unfold in_binade.
  destruct (scale n d e0) as [N0 D0] eqn:E0, (scale n d (e0 - 1)) as [N1 D1] eqn:E1.
  cbn [fst snd] in *.
  destruct (Z.ltb_spec (N0 / D0) (2 ^ 52)) as [Hq | Hq].
  - rewrite E1.
    assert (N0 < 2 ^ 52 * D0).
    { destruct (Z.lt_ge_cases N0 (2 ^ 52 * D0)) as [| Hge]; [assumption |].
      exfalso. pose proof (Z.div_le_lower_bound N0 D0 (2 ^ 52) ltac:(lia) ltac:(lia)). lia. }
    split; nia.
  - rewrite E0. pose proof (Z.mul_div_le N0 D0 ltac:(lia)). split; nia.
Qed.

Lemma scale_mul n d e c :
  scale (n * c) (d * c) e = (fst (scale n d e) * c, snd (scale n d e) * c).
Proof. unfold scale. destruct (0 <=? e); cbn [fst snd]; f_equal; ring. Qed.

Lemma in_binade_mul n d e c : 0 < c -> in_binade (n * c) (d * c) e <-> in_binade n d e.
Proof.
  intros Hc. unfold in_binade. rewrite scale_mul.
  destruct (scale n d e) as [N D]; cbn [fst snd]. split; intros [H1 H2]; split; nia.
Qed.

Lemma exponent_of_mul n d c :
  0 < n -> 0 < d -> 0 < c -> exponent_of (n * c) (d * c) = exponent_of n d.
Proof.
  intros Hn Hd Hc. apply (in_binade_unique n d); auto.
  - apply (in_binade_mul _ _ _ c Hc). apply exponent_of_spec; nia.
  - apply exponent_of_spec; auto.
Qed.

Lemma rne_mul N D c : 0 < D -> 0 < c -> rne (N * c) (D * c) = rne N D.
Proof.
  intros HD Hc. unfold rne.
  rewrite Z.div_mul_cancel_r, Z.mul_mod_distr_r by lia.
  pose proof (Z.mod_pos_bound N D HD).
  destruct (Z.ltb_spec (2 * (N mod D)) D), (Z.ltb_spec (2 * (N mod D * c)) (D * c));
    try nia;
  destruct (Z.ltb_spec D (2 * (N mod D))), (Z.ltb_spec (D * c) (2 * (N mod D * c)));
    try nia; reflexivity.
Qed.

(** Rounding depends only on the rational [n / d]. *)
Lemma round_pos_mul n d c :
  0 < n -> 0 < d -> 0 < c -> round_pos (n * c) (d * c) = round_pos n d.
Proof.
  intros Hn Hd Hc. unfold round_pos. rewrite exponent_of_mul, scale_mul by auto.
  destruct (scale_pos n d (Z.max emin (exponent_of n d)) Hn Hd).
  destruct (scale n d (Z.max emin (exponent_of n d))) as [N D]; cbn [fst snd] in *.
  rewrite rne_mul by auto. reflexivity.
Qed.

Lemma round_q_mul n d c : 0 < d -> 0 < c -> round_q (n * c) (d * c) = round_q n d.
Proof.
  intros Hd Hc. unfold round_q.
  destruct (Z.eqb_spec n 0) as [-> | Hn0]; [reflexivity |].
  destruct (Z.eqb_spec (n * c) 0); [nia |].
  destruct (Z.ltb_spec 0 n), (Z.ltb_spec 0 (n * c)); try nia.
  - now apply round_pos_mul.
  - replace (- (n * c)) with (- n * c) by ring. rewrite round_pos_mul by lia. reflexivity.
Qed.

(** Round-to-nearest is within half a unit of the quotient and never
    below its floor. *)
Lemma rne_bounds N D :
  0 < D ->
  N / D <= rne N D <= N / D + 1 /\
  2 * (rne N D * D - N) <= D /\ 2 * (N - rne N D * D) <= D.
Proof.
  intros HD. unfold rne.
  pose proof (Z.div_mod N D ltac:(lia)) as Hdm. pose proof (Z.mod_pos_bound N D HD).
  destruct (Z.ltb_spec (2 * (N mod D)) D);
    [| destruct (Z.ltb_spec D (2 * (N mod D)));
       [| destruct (Z.even (N / D))]]; nia.
Qed.

Lemma rne_ge N D T : 0 < D -> D * T <= N -> T <= rne N D.
Proof.
  intros HD H. pose proof (rne_bounds N D HD).
  pose proof (Z.div_le_lower_bound N D T HD H). lia.
Qed.

(** In the normal range, [round_pos] is [rne] at the binade exponent. *)
Lemma round_pos_normal n d :
  0 < n -> 0 < d -> emin <= exponent_of n d < emax_m ->
  round_pos n d
  = canon (rne (fst (scale n d (exponent_of n d))) (snd (scale n d (exponent_of n d))))
          (exponent_of n d).
Proof.
  intros Hn Hd He. pose proof (exponent_of_spec n d Hn Hd) as Hb.
  unfold round_pos, canon, in_binade in *. rewrite Z.max_r by lia.
  destruct (scale_pos n d (exponent_of n d) Hn Hd).
  destruct (scale n d (exponent_of n d)) as [N D]; cbn [fst snd] in *.
  destruct (rne_bounds N D ltac:(lia)) as [[Hl Hu] _].
  assert (2 ^ 52 <= N / D) by (apply Z.div_le_lower_bound; lia).
  assert (N / D < 2 ^ 53) by (apply Z.div_lt_upper_bound; lia).
  destruct (Z.eqb_spec (rne N D) (2 ^ 53)).
  - destruct (Z.ltb_spec emax_m (exponent_of n d + 1)); [unfold emax_m in *; lia | reflexivity].
  - destruct (Z.eqb_spec (rne N D) 0); [lia |].
    destruct (Z.ltb_spec emax_m (exponent_of n d)); [lia | reflexivity].
Qed.

(** Integers below [2^53] are numbers exactly. *)
Lemma of_Z_exact z :
  0 < z < 2 ^ 53 -> exists e, e <= 0 /\ of_Z z = Num (z * 2 ^ (- e)) e.
Proof.
  intros Hz. pose proof (exponent_of_spec z 1 ltac:(lia) ltac:(lia)) as Hb.
  set (e := exponent_of z 1) in *.
  assert (Hneg : e <= 0).
  { unfold in_binade, scale in Hb. destruct (Z.leb_spec 0 e); cbn [fst snd] in Hb; [| lia].
    destruct (Z.eq_dec e 0) as [| Hne]; [lia |].
    assert (2 <= 2 ^ e).
    { replace e with (1 + (e - 1)) by lia. rewrite Z.pow_add_r, Z.pow_1_r by lia.
      pow2_facts. lia. }
    nia. }
  assert (Hlow : -52 <= e).
  { unfold in_binade, scale in Hb. destruct (Z.leb_spec 0 e); cbn [fst snd] in Hb; [lia |].
    destruct (Z.lt_ge_cases e (-52)) as [Hlt | ]; [| lia]. exfalso.
    assert (2 ^ (- e) = 2 ^ 53 * 2 ^ (- e - 53)) by (rewrite <- Z.pow_add_r by lia; f_equal; lia).
    pow2_facts. nia. }
  exists e. split; [assumption |].
  unfold of_Z, round_q. destruct (Z.eqb_spec z 0); [lia |]. destruct (Z.ltb_spec 0 z); [| lia].
  rewrite round_pos_normal by (unfold emin, emax_m; lia). fold e.
  unfold in_binade, canon, scale in *. destruct (Z.leb_spec 0 e).
  - assert (He0 : e = 0) by lia. unfold e in *. rewrite He0 in *. cbn [fst snd] in *.
    rewrite Z.opp_0, Z.pow_0_r, !Z.mul_1_r in *. unfold rne.
    rewrite Z.div_1_r, Z.mod_1_r. replace (2 * 0 <? 1) with true by reflexivity.
    destruct (Z.eqb_spec z (2 ^ 53)); [lia |]. reflexivity.
  - cbn [fst snd] in *. unfold rne. rewrite Z.div_1_r, Z.mod_1_r.
    replace (2 * 0 <? 1) with true by reflexivity.
    destruct (Z.eqb_spec (z * 2 ^ (- e)) (2 ^ 53)); [lia |]. reflexivity.
Qed.

(** [Math.round] sees only the value, not the normalisation. *)
Lemma round_canon m e : e < 0 -> round (canon m e) = round (Num m e).
Proof.
  intros He. unfold canon. destruct (Z.eqb_spec m (2 ^ 53)) as [-> |]; [| reflexivity].
  destruct (Z.eq_dec e (-1)) as [-> | Hne]; [vm_compute; reflexivity |].
  unfold round. destruct (Z.leb_spec 0 (e + 1)); [lia |]. destruct (Z.leb_spec 0 e); [lia |].
  f_equal.
  replace (2 * 2 ^ 53 + 2 ^ (- e)) with ((2 * 2 ^ 52 + 2 ^ (- (e + 1))) * 2).
  2:{ replace (- e) with (- (e + 1) + 1) by lia. rewrite Z.pow_add_r by lia.
      replace (2 ^ 53) with (2 ^ 52 * 2) by reflexivity. change (2 ^ 1) with 2. ring. }
  replace (2 ^ (1 - e)) with (2 ^ (1 - (e + 1)) * 2).
  2:{ replace (1 - e) with (1 - (e + 1) + 1) by lia. rewrite Z.pow_add_r by lia. reflexivity. }
  rewrite Z.div_mul_cancel_r by (pow2_facts; lia). reflexivity.
Qed.

Lemma qd_pos e : 0 < qd e.
Proof. unfold qd. destruct (Z.leb_spec 0 e); [lia | apply pow2_pos; lia]. Qed.
#[export] Hint Resolve qd_pos : nk.

Lemma qn_qd_exact z e : e <= 0 -> qn (z * 2 ^ (- e)) e = z * qd e.
Proof.
  intros He. unfold qn, qd. destruct (Z.leb_spec 0 e); [| ring].
  assert (e = 0) as -> by lia. simpl. ring.
Qed.

(** Multiplying an exact integer is rounding the exact product. *)
Lemma mul_of_Z x m e :
  0 <= x < 2 ^ 53 -> mul (of_Z x) (Num m e) = round_q (x * qn m e) (qd e).
Proof.
  intros Hx. destruct (Z.eq_dec x 0) as [-> | Hx0].
  - reflexivity.
  - destruct (of_Z_exact x ltac:(lia)) as (e1 & He1 & ->). unfold mul.
    rewrite qn_qd_exact by assumption.
    pose proof (qd_pos e1).
    pose proof (qd_pos e).
    rewrite <- (round_q_mul (x * qn m e) (qd e) (qd e1)) by assumption.
    f_equal; ring.
Qed.

(** Dividing two exact integers is rounding the exact quotient. *)
Lemma div_of_Z x y :
  0 <= x < 2 ^ 53 -> 0 < y < 2 ^ 53 -> div (of_Z x) (of_Z y) = round_q x y.
Proof.
  intros Hx Hy.
  destruct (of_Z_exact y Hy) as (e2 & He2 & Ey). rewrite Ey.
  pose proof (qd_pos e2).
  assert (0 < 2 ^ (- e2)) by (pow2_facts; lia).
  destruct (Z.eq_dec x 0) as [-> | Hx0].
  - unfold of_Z, round_q, div. simpl.
    destruct (Z.eqb_spec (y * 2 ^ (- e2)) 0); [nia |].
    destruct (Z.ltb_spec 0 (y * 2 ^ (- e2))); [| nia]. reflexivity.
  - destruct (of_Z_exact x ltac:(lia)) as (e1 & He1 & ->). unfold div.
    pose proof (qd_pos e1).
    destruct (Z.eqb_spec (y * 2 ^ (- e2)) 0); [nia |].
    destruct (Z.ltb_spec 0 (y * 2 ^ (- e2))); [| nia].
    rewrite !qn_qd_exact by assumption.
    rewrite <- (round_q_mul x y (qd e1 * qd e2)) by nia. f_equal; ring.
Qed.

Lemma tenth_value : tenth = Num 7205759403792794 (-56).
Proof. vm_compute. reflexivity. Qed.

(** ** Decimal digits *)

Lemma log2_div10 n : 10 <= n -> Z.log2 (n / 10) < Z.log2 n.
Proof.
  intros Hn.
  assert (Z.log2 (n / 10) <= Z.log2 (n / 2 ^ 1)).
  { apply Z.log2_le_mono. apply Z.div_le_compat_l; lia. }
  rewrite <- Z.shiftr_div_pow2, Z.log2_shiftr in H by lia.
  assert (0 < Z.log2 n) by (apply Z.log2_pos; lia). lia.
Qed.

Lemma decimal_fuel_enough f1 f2 n :
  0 <= n -> Z.log2 n < Z.of_nat f1 -> Z.log2 n < Z.of_nat f2 ->
  decimal_fuel f1 n = decimal_fuel f2 n.
Proof.
  revert f2 n. induction f1 as [| f1 IH]; intros f2 n Hn H1 H2.
  - pose proof (Z.log2_nonneg n). lia.
  - destruct f2 as [| f2]; [pose proof (Z.log2_nonneg n); lia |]. simpl.
    destruct (Z.ltb_spec n 10); [reflexivity |].
    pose proof (log2_div10 n ltac:(lia)).
    rewrite (IH f2) by (try apply Z.div_pos; lia). reflexivity.
Qed.

Lemma decimal_small n : 0 <= n < 10 -> decimal n = String (digit_char n) EmptyString.
Proof.
  intros Hn. unfold decimal. simpl. destruct (Z.ltb_spec n 10); [reflexivity | lia].
Qed.

Lemma decimal_step n :
  10 <= n -> decimal n = (decimal (n / 10) ++ String (digit_char (n mod 10)) EmptyString)%string.
Proof.
  intros Hn. unfold decimal at 1. simpl. destruct (Z.ltb_spec n 10); [lia |].
  pose proof (log2_div10 n Hn). unfold decimal.
  rewrite (decimal_fuel_enough _ (S (Z.to_nat (Z.log2 (n / 10)))) (n / 10));
    try (apply Z.div_pos; lia); try lia; reflexivity.
Qed.

Lemma length_decimal_pos n : (1 <= String.length (decimal n))%nat.
Proof.
  unfold decimal. simpl. destruct (n <? 10); simpl; [lia |].
  rewrite length_append. simpl. lia.
Qed.

(** A number's [toFixed] depends only on its value: scaling the
    fraction [qn / qd] by [t] changes nothing. *)
Lemma toFixed_scaled f m1 e1 m2 e2 t :
  0 < t -> (m1 <? 0) = (m2 <? 0) ->
  qn (Z.abs m2) e2 = t * qn (Z.abs m1) e1 -> qd e2 = t * qd e1 ->
  toFixed f (Num m1 e1) = toFixed f (Num m2 e2).
Proof.
  intros Ht Hs Hn Hd. unfold toFixed. rewrite Hs, Hn, Hd.
  pose proof (qd_pos e1).
  replace (10 ^ 21 * (t * qd e1) <=? t * qn (Z.abs m1) e1)
    with (10 ^ 21 * qd e1 <=? qn (Z.abs m1) e1).
  2:{ destruct (Z.leb_spec (10 ^ 21 * qd e1) (qn (Z.abs m1) e1)),
        (Z.leb_spec (10 ^ 21 * (t * qd e1)) (t * qn (Z.abs m1) e1)); nia. }
  replace (2 * (t * qn (Z.abs m1) e1) * 10 ^ Z.of_nat f + t * qd e1)
    with ((2 * qn (Z.abs m1) e1 * 10 ^ Z.of_nat f + qd e1) * t) by ring.
  replace (2 * (t * qd e1)) with (2 * qd e1 * t) by ring.
  rewrite Z.div_mul_cancel_r by lia. reflexivity.
Qed.

Lemma toFixed_canon f m e :
  e < 0 -> 0 <= m -> toFixed f (canon m e) = toFixed f (Num m e).
Proof.
  intros He Hm. unfold canon. destruct (Z.eqb_spec m (2 ^ 53)) as [-> |]; [| reflexivity].
  apply (toFixed_scaled f _ _ _ _ 2); [lia | reflexivity | |];
    unfold qn, qd; destruct (Z.leb_spec 0 (e + 1)), (Z.leb_spec 0 e); try lia.
  - assert (e = -1) as -> by lia. reflexivity.
  - assert (e = -1) as -> by lia. reflexivity.
  - replace (- e) with (- (e + 1) + 1) by lia. rewrite Z.pow_add_r by lia. ring.
Qed.

(** Below [2^52] the binade exponent is negative: the rational is
    scaled up by [2^(-e)]. *)
Lemma exponent_of_neg n d :
  0 < n -> 0 < d -> n < 2 ^ 52 * d ->
  exponent_of n d < 0 /\
  scale n d (exponent_of n d) = (n * 2 ^ (- exponent_of n d), d) /\
  2 ^ 52 * d <= n * 2 ^ (- exponent_of n d) < 2 ^ 53 * d.
Proof.
  intros Hn Hd Hlt. pose proof (exponent_of_spec n d Hn Hd) as Hb.
  unfold in_binade, scale in *. destruct (Z.leb_spec 0 (exponent_of n d)) as [He | He];
    cbn [fst snd] in Hb.
  - exfalso. pose proof (pow2_pos _ He). nia.
  - auto.
Qed.

Lemma of_Z_value z :
  0 <= z < 2 ^ 53 -> exists m e, of_Z z = Num m e /\ qn m e = z * qd e.
Proof.
  intros Hz. destruct (Z.eq_dec z 0) as [-> | Hz0].
  - exists 0, 0. split; reflexivity.
  - destruct (of_Z_exact z ltac:(lia)) as (e & He & E). exists (z * 2 ^ (- e)), e.
    split; [exact E | apply qn_qd_exact; exact He].
Qed.

(** Adding exact integers is rounding the exact sum. *)
Lemma add_of_Z a b :
  0 <= a < 2 ^ 53 -> 0 <= b < 2 ^ 53 -> add (of_Z a) (of_Z b) = of_Z (a + b).
Proof.
  intros Ha Hb.
  destruct (of_Z_value a Ha) as (m1 & e1 & -> & H1).
  destruct (of_Z_value b Hb) as (m2 & e2 & -> & H2).
  unfold add, of_Z. rewrite H1, H2. pose proof (qd_pos e1). pose proof (qd_pos e2).
  rewrite <- (round_q_mul (a + b) 1 (qd e1 * qd e2)) by lia. f_equal; ring.
Qed.

(** ** Relative error of rounding

    In the normal range a rounded positive quotient [n / d] is within a
    factor [2^-53] of it: [2^53 |x - n/d| <= n/d], cross-multiplied. *)

Definition rel_close (m e n d : Z) : Prop :=
  2 ^ 53 * (qn m e * d - n * qd e) <= n * qd e /\ 2 ^ 53 * (n * qd e - qn m e * d) <= n * qd e.

(** Normalising a mantissa keeps the value. *)
Lemma canon_value m e :
  exists m' e', canon m e = Num m' e' /\ qn m' e' * qd e = qn m e * qd e' /\ (0 < m -> 0 < m').
Proof.
  unfold canon. destruct (Z.eqb_spec m (2 ^ 53)) as [-> |]; [| exists m, e; auto].
  exists (2 ^ 52), (e + 1). split; [reflexivity |]. split; [| intros; lia].
  unfold qn, qd. destruct (Z.leb_spec 0 (e + 1)), (Z.leb_spec 0 e); try lia.
  - rewrite Z.pow_add_r, Z.pow_1_r by lia. ring.
  - assert (e = -1) as -> by lia. reflexivity.
  - replace (- e) with (- (e + 1) + 1) by lia. rewrite Z.pow_add_r, Z.pow_1_r by lia. ring.
Qed.

Lemma rel_close_value m e m' e' n d :
  0 < n -> 0 < d -> qn m' e' * qd e = qn m e * qd e' -> rel_close m e n d -> rel_close m' e' n d.
Proof.
  unfold rel_close. intros Hn Hd Hv [H1 H2]. pose proof (qd_pos e). pose proof (qd_pos e').
  split; apply (Z.mul_le_mono_pos_r _ _ (qd e)); auto;
    [ transitivity (qd e' * (2 ^ 53 * (qn m e * d - n * qd e))) | transitivity (qd e' * (2 ^ 53 * (n * qd e - qn m e * d))) ];
    try (apply Z.eq_le_incl; rewrite <- Hv; ring); try nia.
Qed.

Lemma round_pos_rel n d :
  0 < n -> 0 < d -> emin <= exponent_of n d < emax_m ->
  exists m e, round_pos n d = Num m e /\ 0 < m /\ rel_close m e n d.
Proof.
  intros Hn Hd He. rewrite round_pos_normal by assumption.
  pose proof (exponent_of_spec n d Hn Hd) as Hb. unfold in_binade in Hb.
  set (E := exponent_of n d) in *.
  assert (Hr : 0 < rne (fst (scale n d E)) (snd (scale n d E)) /\
               rel_close (rne (fst (scale n d E)) (snd (scale n d E))) E n d).
  { unfold rel_close, scale in *. destruct (Z.leb_spec 0 E); cbn [fst snd] in *; unfold qn, qd;
      destruct (Z.leb_spec 0 E); try lia; pow2_facts.
    - destruct (rne_bounds n (d * 2 ^ E) ltac:(nia)) as (_ & R1 & R2).
      pose proof (rne_ge n (d * 2 ^ E) (2 ^ 52) ltac:(nia) ltac:(nia)).
      split; [lia |]. change (2 ^ 53) with (2 * 2 ^ 52). split; nia.
    - destruct (rne_bounds (n * 2 ^ (- E)) d Hd) as (_ & R1 & R2).
      pose proof (rne_ge (n * 2 ^ (- E)) d (2 ^ 52) Hd ltac:(nia)).
      split; [lia |]. change (2 ^ 53) with (2 * 2 ^ 52). split; nia. }
  destruct Hr as [Hpos Hclose].
  destruct (canon_value (rne (fst (scale n d E)) (snd (scale n d E))) E) as (m' & e' & -> & Hv & Hp).
  exists m', e'. split; [reflexivity | split; [auto |]].
  exact (rel_close_value _ _ _ _ n d Hn Hd Hv Hclose).
Qed.

(** The binade exponent of a quotient between [1] and [2^500]. *)
Lemma exponent_of_range n d :
  0 < d -> d <= n -> n < 2 ^ 500 * d -> emin <= exponent_of n d < emax_m.
Proof.
  intros Hd Hn Hup. assert (Hn0 : 0 < n) by lia.
  pose proof (exponent_of_spec n d Hn0 Hd) as Hb. unfold in_binade, scale in Hb.
  set (E := exponent_of n d) in *. unfold emin, emax_m.
  destruct (Z.leb_spec 0 E); cbn [fst snd] in Hb.
  - split; [lia |]. destruct (Z.lt_ge_cases E 971) as [| Hge]; [lia | exfalso].
    assert (2 ^ 500 * 2 ^ 52 <= 2 ^ E) by (rewrite <- Z.pow_add_r by lia; apply Z.pow_le_mono_r; lia).
    pow2_facts. nia.
  - split; [| lia]. destruct (Z.le_gt_cases (-1074) E) as [| Hlt]; [lia | exfalso].
    assert (2 ^ 53 <= 2 ^ (- E)) by (apply Z.pow_le_mono_r; lia).
    pow2_facts. nia.
Qed.

(** Rounding a positive quotient between [1] and [2^500]. *)
Lemma round_q_rel n d :
  0 < d -> d <= n -> n < 2 ^ 500 * d ->
  exists m e, round_q n d = Num m e /\ 0 < m /\ rel_close m e n d.
Proof.
  intros Hd Hn Hup. unfold round_q.
  destruct (Z.eqb_spec n 0); [lia |]. destruct (Z.ltb_spec 0 n); [| lia].
  apply round_pos_rel; [lia | lia | apply exponent_of_range; assumption].
Qed.

(** Adding a number [y >= 1] to a non-negative number [x] gives a
    number strictly above [x], as long as [x + y < 2^53 y] (the sum is
    not so large that [y] vanishes in the rounding) and below [2^500]. *)
Lemma lt_add_pos mx ex my ey :
  0 <= mx -> qd ey <= qn my ey ->
  qn mx ex * qd ey + qn my ey * qd ex < 2 ^ 53 * (qn my ey * qd ex) ->
  qn mx ex * qd ey + qn my ey * qd ex < 2 ^ 500 * (qd ex * qd ey) ->
  lt (Num mx ex) (add (Num mx ex) (Num my ey)) = true.
Proof.
  intros Hx Hy Hsmall Hbig. pose proof (qd_pos ex) as Ha. pose proof (qd_pos ey) as Hb.
  assert (HA : 0 <= qn mx ex) by (unfold qn; destruct (0 <=? ex); pow2_facts; nia).
  unfold add.
  destruct (round_q_rel (qn mx ex * qd ey + qn my ey * qd ex) (qd ex * qd ey)) as (m & e & -> & Hm & [_ H2]);
    [nia | nia | exact Hbig |].
  unfold lt. apply Z.ltb_lt. pose proof (qd_pos e) as Hc.
  set (A := qn mx ex) in *. set (B := qn my ey) in *. set (a := qd ex) in *. set (b := qd ey) in *.
  set (C := qn m e) in *. set (c := qd e) in *.
  assert (Hkey : A * b * c * 2 ^ 53 < C * a * b * 2 ^ 53).
  { assert (B * a * c * 2 ^ 53 > (A * b + B * a) * c) by nia. nia. }
  apply (Z.mul_lt_mono_pos_r (b * 2 ^ 53)); [pow2_facts; nia |]. nia.
Qed.

(** ** Positive numbers and their values

    [pos_val x a b] : [x] is a finite positive number whose value lies
    in [[a, b]]; bounds are integers, which is all the layout needs. *)

Definition pos_val (x : jsnum) (a b : Z) : Prop :=
  exists m e, x = Num m e /\ 0 <= m /\ a * qd e <= qn m e /\ qn m e <= b * qd e.

Lemma qn_nonneg m e : 0 <= m -> 0 <= qn m e.
Proof. intros. unfold qn. destruct (0 <=? e); pow2_facts; nia. Qed.

Lemma pos_val_of_Z z : 0 <= z < 2 ^ 53 -> pos_val (of_Z z) z z.
Proof.
  intros Hz. destruct (of_Z_value z Hz) as (m & e & -> & Hv). exists m, e.
  split; [reflexivity |]. pose proof (qd_pos e).
  split; [| lia].
  destruct (Z.lt_ge_cases m 0) as [Hm | ]; [| assumption].
  exfalso. unfold qn in Hv. destruct (Z.leb_spec 0 e); [| nia].
  assert (0 < 2 ^ e) by (apply pow2_pos; lia). nia.
Qed.

(** The sum of two non-negative numbers, the first at least [1], stays
    within the sum of the bounds, widened by one unit for the rounding. *)
Lemma pos_val_add x y a1 b1 a2 b2 :
  1 <= a1 -> 0 <= a2 -> b1 + b2 < 2 ^ 52 ->
  pos_val x a1 b1 -> pos_val y a2 b2 -> pos_val (add x y) (a1 + a2 - 1) (b1 + b2 + 1).
Proof.
  intros Ha1 Ha2 Hb (m1 & e1 & -> & Hm1 & L1 & U1) (m2 & e2 & -> & Hm2 & L2 & U2).
  pose proof (qd_pos e1) as Hd1. pose proof (qd_pos e2) as Hd2.
  pose proof (qn_nonneg m2 e2 Hm2).
  unfold add.
  destruct (round_q_rel (qn m1 e1 * qd e2 + qn m2 e2 * qd e1) (qd e1 * qd e2)) as (m & e & -> & Hm & [H1 H2]);
    [nia | nia | pow2_facts; nia |].
  exists m, e. pose proof (qd_pos e) as Hd. split; [reflexivity | split; [lia |]].
  set (S := qn m1 e1 * qd e2 + qn m2 e2 * qd e1) in *. set (T := qd e1 * qd e2) in *.
  assert (HS1 : (a1 + a2) * T <= S) by (unfold S, T; nia).
  assert (HS2 : S <= (b1 + b2) * T) by (unfold S, T; nia).
  assert (0 < T) by (unfold T; nia).
  split.
  - apply (Z.mul_le_mono_pos_r _ _ (T * 2 ^ 53)); [pow2_facts; nia |]. pow2_facts. nia.
  - apply (Z.mul_le_mono_pos_r _ _ (T * 2 ^ 53)); [pow2_facts; nia |]. pow2_facts. nia.
Qed.

(** Two bounds on a product of two roundings, in integers: [u] stands
    for [2^53]. *)
Lemma scaled_lower_bound u k q r Q R : 2 ^ 20 <= u -> 2 <= k <= 1000 -> 0 < r -> 0 <= q -> 0 < R -> 0 <= Q ->
  (u - 1) * r <= u * q -> (u - 1) * k * q * R <= u * r * Q -> (k - 1) * R <= Q.
Proof.
  intros Hu Hk Hr Hq HR HQ H1 H2.
  assert (E1 : (u - 1) * k * R * ((u - 1) * r) <= (u - 1) * k * R * (u * q)) by (apply Z.mul_le_mono_nonneg_l; nia).
  assert (E3 : u * ((u - 1) * k * q * R) <= u * (u * r * Q)) by (apply Z.mul_le_mono_nonneg_l; lia).
  assert (E5 : (u - 1) * (u - 1) * k * R * r <= u * u * Q * r) by lia.
  apply Z.mul_le_mono_pos_r in E5; [| exact Hr].
  assert (E0 : 0 <= u * u - 2 * u * k + k) by nia.
  assert (E6 : u * u * ((k - 1) * R) <= (u - 1) * (u - 1) * k * R).
  { assert (0 <= (u * u - 2 * u * k + k) * R) by (apply Z.mul_nonneg_nonneg; lia). lia. }
  assert (E7 : u * u * ((k - 1) * R) <= u * u * Q) by lia.
  apply Z.mul_le_mono_pos_l in E7; [exact E7 | nia].
Qed.
Lemma scaled_upper_bound u k q r Q R : 2 ^ 20 <= u -> 2 <= k <= 1000 -> 0 < r -> 0 <= q -> 0 < R -> 0 <= Q ->
  u * q <= 2 * (u + 1) * r -> u * r * Q <= (u + 1) * k * q * R -> Q <= (2 * k + 1) * R.
Proof.
  intros Hu Hk Hr Hq HR HQ H1 H2.
  assert (E1 : u * (u * r * Q) <= u * ((u + 1) * k * q * R)) by (apply Z.mul_le_mono_nonneg_l; lia).
  assert (E3 : (u + 1) * k * R * (u * q) <= (u + 1) * k * R * (2 * (u + 1) * r)) by (apply Z.mul_le_mono_nonneg_l; nia).
  assert (E5 : u * u * Q * r <= 2 * (u + 1) * (u + 1) * k * R * r) by lia.
  apply Z.mul_le_mono_pos_r in E5; [| exact Hr].
  assert (E0 : 0 <= u * u - 4 * u * k - 2 * k) by nia.
  assert (E6 : 2 * (u + 1) * (u + 1) * k * R <= u * u * ((2 * k + 1) * R)).
  { assert (0 <= (u * u - 4 * u * k - 2 * k) * R) by (apply Z.mul_nonneg_nonneg; lia). lia. }
  assert (E7 : u * u * Q <= u * u * ((2 * k + 1) * R)) by lia.
  apply Z.mul_le_mono_pos_l in E7; [exact E7 | nia].
Qed.

(** [x] is a finite number in [[a/c, b/c]]. *)
Definition in_range (x : jsnum) (a b c : Z) : Prop :=
  exists m e, x = Num m e /\ 0 <= m /\ a * qd e <= c * qn m e /\ c * qn m e <= b * qd e.

(** A rounded quotient lies within a factor [1 +- 2^-53] of it. *)
Lemma round_q_range n d :
  0 < d -> d <= n -> n < 2 ^ 500 * d ->
  in_range (round_q n d) ((2 ^ 53 - 1) * n) ((2 ^ 53 + 1) * n) (2 ^ 53 * d).
Proof.
  intros Hd Hn Hup. destruct (round_q_rel n d Hd Hn Hup) as (m & e & -> & Hm & [H1 H2]).
  exists m, e. split; [reflexivity | split; [lia | split; lia]].
Qed.

Lemma mul_comm_num m1 e1 m2 e2 : mul (Num m1 e1) (Num m2 e2) = mul (Num m2 e2) (Num m1 e1).
Proof. unfold mul. f_equal; ring. Qed.

Lemma mul_of_Z_r x m e :
  0 <= x < 2 ^ 53 -> mul (Num m e) (of_Z x) = round_q (x * qn m e) (qd e).
Proof.
  intros Hx. destruct (of_Z_value x Hx) as (m2 & e2 & E & Hv). rewrite E, mul_comm_num, <- E.
  apply mul_of_Z. exact Hx.
Qed.

(** [L / 1000 * k], the line height of a font of height [L]/1000 em at
    size [k], is between [k - 1] and [2k + 1] for [1000 <= L <= 2000]. *)
Lemma pos_val_line_height L k :
  1000 <= L <= 2000 -> 2 <= k <= 1000 ->
  pos_val (mul (div (of_Z L) (of_Z 1000)) (of_Z k)) (k - 1) (2 * k + 1).
Proof.
  intros HL Hk. rewrite div_of_Z by lia.
  destruct (round_q_range L 1000) as (m1 & e1 & -> & Hm1 & A1 & A2); [lia | lia | pow2_facts; lia |].
  rewrite mul_of_Z_r by lia.
  pose proof (qd_pos e1) as Hd1. pose proof (qn_nonneg m1 e1 Hm1) as Hq1.
  set (q := qn m1 e1) in *. set (r := qd e1) in *.
  assert (Hu : 2 ^ 20 <= 2 ^ 53) by lia. set (u := 2 ^ 53) in *.
  assert (Hlo : (u - 1) * r <= u * q) by nia.
  assert (Hhi : u * q <= 2 * (u + 1) * r) by nia.
  destruct (round_q_range (k * q) r) as (m & e & -> & Hm & B1 & B2); [lia | nia | |].
  { assert (q <= 3 * r) by nia. assert (k * q <= 1000 * q) by nia.
    assert (3000 * r < 2 ^ 500 * r) by (apply Z.mul_lt_mono_pos_r; lia). lia. }
  exists m, e. pose proof (qd_pos e) as Hd. pose proof (qn_nonneg m e Hm).
  split; [reflexivity | split; [lia |]].
  split.
  - apply (scaled_lower_bound u k q r); auto; lia.
  - apply (scaled_upper_bound u k q r); auto; lia.
Qed.

(** [x < x + y] for non-negative [x] and [y >= 2] of moderate size. *)
Lemma lt_add_pos_val x y a1 b1 a2 b2 :
  0 <= a1 -> 2 <= a2 -> 0 <= b1 -> b1 + b2 < 2 ^ 52 ->
  pos_val x a1 b1 -> pos_val y a2 b2 -> lt x (add x y) = true.
Proof.
  intros Ha1 Ha2 Hb1 Hb (m1 & e1 & -> & Hm1 & L1 & U1) (m2 & e2 & -> & Hm2 & L2 & U2).
  pose proof (qd_pos e1) as D1. pose proof (qd_pos e2) as D2.
  set (A := qn m1 e1) in *. set (B := qn m2 e2) in *. set (a := qd e1) in *. set (b := qd e2) in *.
  assert (HP : 0 < a * b) by nia.
  pose proof (Z.mul_le_mono_nonneg_r _ _ _ (Z.lt_le_incl _ _ D2) U1) as HA.
  pose proof (Z.mul_le_mono_nonneg_r _ _ _ (Z.lt_le_incl _ _ D1) L2) as HB1.
  pose proof (Z.mul_le_mono_nonneg_r _ _ _ (Z.lt_le_incl _ _ HP) Ha2) as HB1'.
  pose proof (Z.mul_le_mono_nonneg_r _ _ _ (Z.lt_le_incl _ _ D1) U2) as HB2.
  assert (Hab2 : a2 <= b2) by (apply (Z.mul_le_mono_pos_r _ _ b D2); lia).
  apply lt_add_pos; [lia | nia | |].
  - assert (b1 * (a * b) < 2 ^ 52 * (a * b)) by (apply Z.mul_lt_mono_pos_r; lia).
    assert (2 ^ 52 * (2 * (a * b)) <= 2 ^ 52 * (B * a)) by (apply Z.mul_le_mono_nonneg_l; lia).
    lia.
  - assert ((b1 + b2) * (a * b) < 2 ^ 500 * (a * b)) by (apply Z.mul_lt_mono_pos_r; lia).
    lia.
Qed.

(** [Math.max(c, b)] is above whatever [b] is above. *)
Lemma lt_max_r ma ea mb eb mc ec :
  lt (Num ma ea) (Num mb eb) = true -> lt (Num ma ea) (max (Num mc ec) (Num mb eb)) = true.
Proof.
  intros H. unfold max. destruct (lt (Num mc ec) (Num mb eb)) eqn:Hcb; [exact H |].
  unfold lt in *. apply Z.ltb_lt in H. apply Z.ltb_ge in Hcb. apply Z.ltb_lt.
  pose proof (qd_pos ea). pose proof (qd_pos eb). pose proof (qd_pos ec).
  apply (Z.mul_lt_mono_pos_r (qd eb)); [lia |].
  assert (qn ma ea * qd eb * qd ec < qn mb eb * qd ea * qd ec) by (apply Z.mul_lt_mono_pos_r; lia).
  assert (qn mb eb * qd ec * qd ea <= qn mc ec * qd eb * qd ea) by (apply Z.mul_le_mono_nonneg_r; lia).
  nia.
Qed.

(** A number at least [1] is truthy. *)
Lemma pos_val_truthy x a b : pos_val x a b -> 1 <= a -> truthy x = true.
Proof.
  intros (m & e & -> & Hm & Ha & _) H1. pose proof (qd_pos e). unfold truthy.
  destruct (Z.eqb_spec m 0) as [-> | Hne]; [| reflexivity].
  unfold qn in Ha. destruct (0 <=? e); nia.
Qed.

(** ** [parseInt] reads back the digits [ToString] prints *)

Lemma digit_cases d :
  0 <= d < 10 ->
  d = 0 \/ d = 1 \/ d = 2 \/ d = 3 \/ d = 4 \/ d = 5 \/ d = 6 \/ d = 7 \/ d = 8 \/ d = 9.
Proof. lia. Qed.

(** Splits a goal on the ten values of a digit. *)
Ltac digit_split Hd :=
  destruct (digit_cases _ Hd) as [ -> | [ -> | [ -> | [ -> | [ -> | [ -> | [ -> | [ -> | [ -> | -> ] ] ] ] ] ] ] ] ].

Lemma digit_value_char d : 0 <= d < 10 -> digit_value (digit_char d) = Some d.
Proof. intros Hd. digit_split Hd; reflexivity. Qed.

(** A digit is neither white space nor a sign. *)
Lemma digit_char_plain d :
  0 <= d < 10 ->
  js_space (digit_char d) = false /\ Ascii.eqb (digit_char d) "-"%char = false /\
  Ascii.eqb (digit_char d) "+"%char = false.
Proof.
  intros Hd. digit_split Hd; repeat split.
Qed.

(** Reading the digits of [n] shifts the accumulator by their number. *)
Lemma digits_prefix_decimal n s acc :
  0 <= n ->
  digits_prefix (decimal n ++ s) acc
  = digits_prefix s (Some (acc_value acc * 10 ^ Z.of_nat (String.length (decimal n)) + n)).
Proof.
  intros H0. revert s acc. generalize H0. pattern n. apply Z_lt_induction; [| exact H0].
  clear n H0. intros n IH Hn s acc. destruct (Z.lt_ge_cases n 10) as [Hs | Hs].
  - rewrite decimal_small by lia. cbn [append digits_prefix String.length].
    rewrite digit_value_char by lia. destruct acc; cbn [acc_value]; f_equal; f_equal; lia.
  - rewrite decimal_step by lia. rewrite string_app_assoc, IH by zlia.
    cbn [append digits_prefix]. rewrite digit_value_char by zlia.
    rewrite length_append, Nat2Z.inj_add, Z.pow_add_r by lia. cbn [acc_value String.length].
    do 2 f_equal. pose proof (Z.div_mod n 10 ltac:(lia)). lia.
Qed.

Lemma decimal_head n :
  0 <= n -> exists d r, 0 <= d < 10 /\ decimal n = String (digit_char d) r.
Proof.
  intros H0. generalize H0. pattern n. apply Z_lt_induction; [| exact H0].
  clear n H0. intros n IH Hn.
  destruct (Z.lt_ge_cases n 10) as [Hs | Hs].
  - exists n, EmptyString. split; [lia | apply decimal_small; lia].
  - destruct (IH (n / 10) ltac:(zlia) ltac:(zlia)) as (d & r & Hd & E).
    exists d, (r ++ String (digit_char (n mod 10)) EmptyString)%string.
    split; [exact Hd |]. rewrite decimal_step, E by lia. reflexivity.
Qed.

(** [parseInt(String(n), 10) = n] for a non-negative integer [n]. *)
Lemma parseInt10_decimal n : 0 <= n -> parseInt10 (decimal n) = of_Z n.
Proof.
  intros Hn. destruct (decimal_head n Hn) as (d & r & Hd & E).
  destruct (digit_char_plain d Hd) as (H1 & H2 & H3).
  unfold parseInt10. rewrite E. cbn [trim_start]. rewrite H1, H2, H3. rewrite <- E.
  rewrite <- (append_empty_r (decimal n)), digits_prefix_decimal by lia.
  cbn [digits_prefix acc_value]. f_equal. lia.
Qed.

(** The digits of [n] determine [n]. *)
Lemma decimal_inj a b : 0 <= a -> 0 <= b -> decimal a = decimal b -> a = b.
Proof.
  intros Ha Hb E.
  pose proof (digits_prefix_decimal a EmptyString None Ha) as Pa.
  pose proof (digits_prefix_decimal b EmptyString None Hb) as Pb.
  rewrite E, Pb in Pa. cbn [digits_prefix acc_value] in Pa. injection Pa. lia.
Qed.

(** [String(n)] of an exact non-negative integer is its digits. *)
Lemma to_string_of_Z n : 0 <= n < 2 ^ 53 -> to_string (of_Z n) = Some (decimal n).
Proof.
  intros Hn. destruct (of_Z_value n Hn) as (m & e & E & Hq). rewrite E. unfold to_string.
  pose proof (qd_pos e). rewrite Hq, Z.mod_mul, Z.div_mul by lia. cbn [Z.eqb negb].
  destruct (Z.leb_spec (10 ^ 21) (Z.abs n)); [pow2_facts; lia |].
  destruct (Z.ltb_spec n 0); [lia |]. rewrite Z.abs_eq by lia. reflexivity.
Qed.

(** [parseInt] gives [NaN] or an integer. *)
Lemma parseInt10_cases s : parseInt10 s = NaN \/ exists z, parseInt10 s = of_Z z.
Proof.
  unfold parseInt10. destruct (match trim_start s with
                               | String c r => _ | EmptyString => _ end) as [sign s2].
  destruct (digits_prefix s2 None) as [v |]; [right; eexists; reflexivity | left; reflexivity].
Qed.

(** A truthy integer is not [0]. *)
Lemma truthy_of_Z z : truthy (of_Z z) = true -> z <> 0.
Proof. intros H ->. discriminate H. Qed.

(** ** Agreement with [SpecFloat] on the operations the program runs *)

Example spec_tenth : to_spec tenth = SFdiv 53 1024 (to_spec (of_Z 1)) (to_spec (of_Z 10)).
Proof. vm_compute. reflexivity. Qed.

Example spec_mul_tenth :
  to_spec (mul (of_Z 1995) tenth) = SFmul 53 1024 (to_spec (of_Z 1995)) (to_spec tenth).
Proof. vm_compute. reflexivity. Qed.

Example spec_div_100 :
  to_spec (div (of_Z 1999) (of_Z 100)) = SFdiv 53 1024 (to_spec (of_Z 1999)) (to_spec (of_Z 100)).
Proof. vm_compute. reflexivity. Qed.

Example spec_add :
  to_spec (add (of_Z 1999) (mul (of_Z 3) tenth))
  = SFadd 53 1024 (to_spec (of_Z 1999)) (SFmul 53 1024 (to_spec (of_Z 3)) (to_spec tenth)).
Proof. vm_compute. reflexivity. Qed.

