(* ===== verification/Money.v ===== *)
(** GST, totals and currency strings of the invoice.

    [src/server/services/pdfService.ts] computes
    [gstCents = Math.round(data.amountCents * 0.1)] and
    [totalCents = data.amountCents + gstCents] (lines 30-31) and prints
    every amount as [`$${(cents / 100).toFixed(2)}`] (lines 164-165 and
    176-182); [src/server/services/emailService.ts] prints
    [(data.amountCents / 100).toFixed(2)] (line 101).  All of it runs in
    binary64 ([JsNumber]).  The theorems relate it to exact integer
    arithmetic on cents: half-up rounding of a tenth, and the decimal
    string of the cents with a point before the last two digits. *)

From Stdlib Require Import ZArith List String Ascii Bool Lia.
From S2P Require Import Prelude JsString JsNumber.
Import ListNotations.
Open Scope Z_scope.

(** [Math.round(data.amountCents * 0.1)] *)
Definition gstCents (amountCents : jsnum) : jsnum := round (mul amountCents tenth).

(** [data.amountCents + gstCents] *)
Definition totalCents (amountCents : jsnum) : jsnum := add amountCents (gstCents amountCents).

(** [(cents / 100).toFixed(2)] *)
Definition dollars (cents : jsnum) : option string := toFixed 2 (div cents (of_Z 100)).

(** [`$${(cents / 100).toFixed(2)}`] *)
Definition currency (cents : jsnum) : option string :=
  option_map (fun s => ("$" ++ s)%string) (dollars cents).

(** ** Reference arithmetic on integer cents *)

(** The nearest integer to [x / 10], halves up. *)
Definition half_up_tenth (x : Z) : Z := (x + 5) / 10.

(** Cents as a decimal amount: [c / 100], a point, two digits. *)
Definition fixed2 (c : Z) : string :=
  (decimal (c / 100) ++ "." ++
   String (digit_char (c mod 100 / 10)) (String (digit_char (c mod 10)) EmptyString))%string.

(** The mantissa of the literal [0.1]: [0.1 = M / 2^56]. *)
Definition tenth_mantissa : Z := 7205759403792794.

(** ** GST through binary64 *)

(** The arithmetic core: with [K = 2^(k-1)], the rounded mantissa [m] of
    [x * 0.1] at exponent [-k] rounds (Math.round) to [(x + 5) / 10]. *)
Lemma gst_rne_core x K :
  0 < x < 2 ^ 52 -> 8 <= K ->
  (2 * rne (x * tenth_mantissa * (2 * K)) (2 ^ 56) + 2 * K) / (2 * (2 * K))
  = (x + 5) / 10.
Proof.
  intros Hx HK. unfold tenth_mantissa.
  set (N := x * 7205759403792794 * (2 * K)).
  set (m := rne N (2 ^ 56)).
  set (q := (x + 5) / 10).
  pose proof (Z.div_mod (x + 5) 10 ltac:(lia)) as Hq. pose proof (Z.mod_pos_bound (x + 5) 10 ltac:(lia)).
  fold q in Hq.
  destruct (rne_bounds N (2 ^ 56) ltac:(lia)) as [_ [Hup _]]. fold m in Hup.
  assert (Hlow : K * (2 * q - 1) <= m).
  { apply rne_ge; [lia |]. unfold N.
    assert (2 ^ 56 * (2 * q - 1) <= 2 * x * 7205759403792794) by lia. nia. }
  assert (Hhigh : 2 * m < 2 * K * (2 * q + 1)).
  { set (G := (2 * q + 1) * 2 ^ 56 - 2 * x * 7205759403792794).
    assert (10 * G >= 3 * 2 ^ 55) by (unfold G; lia).
    assert (2 * K * G >= 16 * G) by nia.
    assert (2 * m * 2 ^ 56 < 2 * K * (2 * q + 1) * 2 ^ 56).
    { unfold N in Hup. unfold G in *. nia. }
    nia. }
  assert (q <= (2 * m + 2 * K) / (2 * (2 * K))) by (apply Z.div_le_lower_bound; lia).
  assert ((2 * m + 2 * K) / (2 * (2 * K)) < q + 1) by (apply Z.div_lt_upper_bound; lia).
  lia.
Qed.

Lemma mul_tenth x :
  0 <= x < 2 ^ 53 -> mul (of_Z x) tenth = round_q (x * tenth_mantissa) (2 ^ 56).
Proof. intros Hx. rewrite tenth_value, mul_of_Z by assumption. reflexivity. Qed.

(** The binade of [x * 0.1] for [0 < x < 2^52]: an exponent in
    [[-56, -4]]. *)
Lemma tenth_exponent x :
  0 < x < 2 ^ 52 ->
  let e := exponent_of (x * tenth_mantissa) (2 ^ 56) in
  -57 < e <= -4 /\ scale (x * tenth_mantissa) (2 ^ 56) e = (x * tenth_mantissa * 2 ^ (- e), 2 ^ 56).
Proof.
  intros Hx e. unfold tenth_mantissa in *.
  pose proof (exponent_of_spec (x * 7205759403792794) (2 ^ 56) ltac:(lia) ltac:(lia)) as Hb.
  fold e in Hb. unfold in_binade, scale in *.
  destruct (Z.leb_spec 0 e) as [He | He]; cbn [fst snd] in Hb.
  - exfalso. pose proof (pow2_pos e He). nia.
  - split; [| reflexivity]. split.
    + destruct (Z.lt_ge_cases (-57) e) as [| Hlt]; [assumption |]. exfalso.
      assert (2 ^ 57 <= 2 ^ (- e)) by (apply Z.pow_le_mono_r; lia). nia.
    + destruct (Z.le_gt_cases e (-4)) as [| Hgt]; [assumption |]. exfalso.
      assert (2 ^ (- e) <= 2 ^ 3) by (apply Z.pow_le_mono_r; lia). nia.
Qed.

(** The GST the invoice prints is the half-up rounding of a
    tenth of the amount, for every amount below 2^52 cents, although
    [pdfService.ts] computes it as [Math.round(amountCents * 0.1)] in
    binary64. *)
Theorem gstCents_half_up x :
  0 <= x < 2 ^ 52 -> gstCents (of_Z x) = of_Z (half_up_tenth x).
Proof.
  intros Hx. unfold gstCents, half_up_tenth.
  destruct (Z.eq_dec x 0) as [-> | Hx0]; [vm_compute; reflexivity |].
  rewrite mul_tenth by lia. unfold tenth_mantissa at 1.
  unfold round_q.
  destruct (Z.eqb_spec (x * 7205759403792794) 0); [lia |].
  destruct (Z.ltb_spec 0 (x * 7205759403792794)); [| lia].
  destruct (tenth_exponent x ltac:(lia)) as [He Hs]. unfold tenth_mantissa in He, Hs.
  rewrite round_pos_normal by (unfold emin, emax_m; lia).
  rewrite Hs. cbn [fst snd].
  rewrite round_canon by lia. unfold round.
  set (e := exponent_of (x * 7205759403792794) (2 ^ 56)) in *.
  destruct (Z.leb_spec 0 e); [lia |]. f_equal.
  replace (2 ^ (- e)) with (2 * 2 ^ (- e - 1))
    by (rewrite <- (Z.pow_1_r 2) at 1; rewrite <- Z.pow_add_r by lia; f_equal; lia).
  replace (2 ^ (1 - e)) with (2 * (2 * 2 ^ (- e - 1)))
    by (rewrite <- (Z.pow_1_r 2) at 1 2; rewrite <- !Z.pow_add_r by lia; f_equal; lia).
  apply (gst_rne_core x (2 ^ (- e - 1))); [lia |].
  change 8 with (2 ^ 3). apply Z.pow_le_mono_r; lia.
Qed.

(** ** [toFixed(2)] of an amount of cents *)

Lemma fixed_of_int_2 c : 0 <= c -> fixed_of_int 2 c = fixed2 c.
Proof.
  intros Hc. unfold fixed_of_int, fixed2.
  destruct (Z.eqb_spec c 0) as [-> | Hc0]; [reflexivity |].
  destruct (Z.lt_ge_cases c 10) as [Hlt | Hge].
  - rewrite decimal_small by lia.
    rewrite (Z.div_small c 100), (Z.mod_small c 100), (Z.div_small c 10), (Z.mod_small c 10) by lia.
    reflexivity.
  - destruct (Z.lt_ge_cases c 100) as [Hlt2 | Hge2].
    + rewrite decimal_step by lia.
      rewrite (decimal_small (c / 10)) by zlia.
      rewrite (Z.div_small c 100), (Z.mod_small c 100) by lia. reflexivity.
    + rewrite decimal_step by lia. rewrite (decimal_step (c / 10)) by zlia.
      rewrite Z.div_div by lia. change (10 * 10) with 100.
      replace (c / 10 mod 10) with (c mod 100 / 10) by zlia.
      replace (c mod 10) with (c mod 100 mod 10) by zlia.
      set (A := decimal (c / 100)).
      set (d1 := digit_char (c mod 100 / 10)). set (d0 := digit_char (c mod 100 mod 10)).
      rewrite string_app_assoc. simpl (String d1 EmptyString ++ String d0 EmptyString)%string.
      pose proof (length_decimal_pos (c / 100)). fold A in H.
      rewrite length_append. simpl String.length.
      destruct (Nat.leb_spec (String.length A + 2) 2); [lia |].
      change (2 =? 0)%nat with false. cbv iota.
      rewrite !length_append. simpl String.length.
      replace (String.length A + 2 - 2)%nat with (String.length A) by lia.
      rewrite substring_app_l.
      change (substring (String.length A) 2)
        with (substring (String.length A) (String.length (String d1 (String d0 EmptyString)))).
      rewrite substring_app_r. reflexivity.
Qed.

(** The arithmetic core of [toFixed(2)]: a mantissa within half a unit
    of [c * K / 100], with [K > 100], rounds back to [c] cents. *)
Lemma cents_core c K m :
  0 <= c -> 100 < K ->
  2 * (m * 100 - c * K) <= 100 -> 2 * (c * K - m * 100) <= 100 ->
  (2 * m * 10 ^ Z.of_nat 2 + K) / (2 * K) = c.
Proof.
  intros Hc HK H1 H2. change (10 ^ Z.of_nat 2) with 100.
  assert (c <= (2 * m * 100 + K) / (2 * K)) by (apply Z.div_le_lower_bound; nia).
  assert ((2 * m * 100 + K) / (2 * K) < c + 1) by (apply Z.div_lt_upper_bound; nia).
  lia.
Qed.

(** Every amount the invoice and the e-mail print,
    [(cents / 100).toFixed(2)], is exactly the integer cents with a
    decimal point before the last two digits, for every amount below
    2^52 cents, although the division and the formatting go through
    binary64. *)
Theorem dollars_exact c :
  0 <= c < 2 ^ 52 -> dollars (of_Z c) = Some (fixed2 c).
Proof.
  intros Hc. unfold dollars. rewrite div_of_Z by lia.
  destruct (Z.eq_dec c 0) as [-> | Hc0]; [vm_compute; reflexivity |].
  unfold round_q. destruct (Z.eqb_spec c 0); [lia |]. destruct (Z.ltb_spec 0 c); [| lia].
  destruct (exponent_of_neg c 100 ltac:(lia) ltac:(lia) ltac:(lia)) as (He & Hs & Hb).
  set (e := exponent_of c 100) in *.
  assert (Hk : 100 < 2 ^ (- e)) by nia.
  assert (Hk2 : - e < 60).
  { destruct (Z.lt_ge_cases (- e) 60) as [| Hge]; [assumption |]. exfalso.
    assert (2 ^ 60 <= 2 ^ (- e)) by (apply Z.pow_le_mono_r; lia). nia. }
  rewrite round_pos_normal by (unfold emin, emax_m; lia). fold e. rewrite Hs. cbn [fst snd].
  destruct (rne_bounds (c * 2 ^ (- e)) 100 ltac:(lia)) as [[Hl Hu] [H1 H2]].
  assert (0 <= (c * 2 ^ (- e)) / 100) by (apply Z.div_pos; lia).
  rewrite toFixed_canon by lia.
  set (m := rne (c * 2 ^ (- e)) 100) in *.
  unfold toFixed, qn, qd. destruct (Z.ltb_spec m 0); [lia |].
  destruct (Z.leb_spec 0 e); [lia |]. rewrite Z.abs_eq by lia.
  assert (m <= 2 ^ 53).
  { assert ((c * 2 ^ (- e)) / 100 < 2 ^ 53) by (apply Z.div_lt_upper_bound; lia). lia. }
  destruct (Z.leb_spec (10 ^ 21 * 2 ^ (- e)) m); [lia |].
  rewrite (cents_core c (2 ^ (- e)) m) by lia.
  rewrite fixed_of_int_2 by lia. reflexivity.
Qed.

(** The invoice total is amount + GST exactly: the binary64
    addition of [pdfService.ts] line 31 loses nothing below 2^52 cents. *)
Theorem totalCents_exact x :
  0 <= x < 2 ^ 52 -> totalCents (of_Z x) = of_Z (x + half_up_tenth x).
Proof.
  intros Hx. unfold totalCents. rewrite gstCents_half_up by assumption.
  apply add_of_Z; unfold half_up_tenth; zlia.
Qed.

(** The currency string the invoice draws for an amount of cents. *)
Corollary currency_exact c :
  0 <= c < 2 ^ 52 -> currency (of_Z c) = Some ("$" ++ fixed2 c)%string.
Proof. intros Hc. unfold currency. rewrite dollars_exact by assumption. reflexivity. Qed.

(** ** The limit of the bound *)

(** Just below [Number.MAX_SAFE_INTEGER] the binary64 product [x * 0.1]
    is off by more than the distance to the half: the printed GST is
    one cent above the half-up tenth. *)
Lemma gstCents_off_near_2_53 :
  gstCents (of_Z 9007199254737994) = of_Z (half_up_tenth 9007199254737994 + 1).
Proof. vm_compute. reflexivity. Qed.

(** And the cents printed for an amount near 2^53 are not the amount. *)
Lemma dollars_off_near_2_53 :
  dollars (of_Z 9007199254738993) <> Some (fixed2 9007199254738993).
Proof. vm_compute. congruence. Qed.
