(* ===== verification/PdfKit.v ===== *)
(** The part of PDFKit that [generateInvoicePDF] drives.

    PDFKit is a library the sources only call; this file models the
    calls [pdfService.ts] makes, as the library documents and implements
    them: a document is its current font, size and fill colour, its
    current page and the list of what has been drawn, in order.
    [text] at an explicit position draws one block; like the library's
    line wrapper it first moves to a new page when the first line would
    pass the bottom margin ([page.maxY()]).  Font metrics are an
    interface, [PdfMetrics]: the advance widths and vertical metrics of
    the standard fonts, [heightOfString] (which depends on the library's
    line breaking, not modelled) and whether the document offers a
    [splitTextToSize] helper.  The instance [helvetica_metrics] carries
    the AFM numbers of Helvetica and Helvetica-Bold. *)

From Stdlib Require Import ZArith List String Ascii Bool Lia.
From S2P Require Import Prelude JsString JsNumber.
Import ListNotations.
Open Scope string_scope.

Inductive Font := Helvetica | HelveticaBold.

Inductive Align := AlignLeft | AlignCenter | AlignRight.

(** The options object of [doc.text]: [width] and [align]. *)
Record TextOpts := mkOpts { opt_width : option jsnum; opt_align : Align }.

Definition no_opts : TextOpts := mkOpts None AlignLeft.

(** What the document records of a drawing call, with its page. *)
Inductive DrawOp :=
| DImage (page : nat) (path : string) (x y width : jsnum)
| DText (page : nat) (font : Font) (size : jsnum) (color : string) (s : string) (x y : jsnum)
    (opts : TextOpts)
| DLine (page : nat) (x1 y1 x2 y2 : jsnum).

(** [doc_x], [doc_y]: the cursor [doc.x], [doc.y] where text without a
    position goes. *)
Record Doc := mkDoc {
  doc_font : Font;
  doc_size : jsnum;
  doc_color : string;
  doc_page : nat;
  doc_x : jsnum;
  doc_y : jsnum;
  doc_ops : list DrawOp
}.

(** The metrics a document measures with. *)
Class PdfMetrics := {
  advance : Font -> ascii -> Z;            (** advance width, 1/1000 em *)
  ascender : Font -> Z;
  descender : Font -> Z;
  line_gap : Font -> Z;
  heightOfString : Font -> jsnum -> TextOpts -> string -> jsnum;
  splitTextToSize : option (string -> jsnum -> list string);
  imageHeight : string -> jsnum -> jsnum   (** an image file's height drawn at a width *)
}.

(** ** The page: US Letter with the [margin: 50] the invoice asks for *)

Definition page_width : jsnum := of_Z 612.
Definition page_height : jsnum := of_Z 792.
Definition margin : jsnum := of_Z 50.

(** [page.maxY()]: the height less the bottom margin. *)
Definition page_maxY : jsnum := add page_height (neg margin).

(** [new PDFDocument({ margin: 50 })]: Helvetica 12, black, first
    page, the cursor at the top left margin. *)
Definition new_doc : Doc := mkDoc Helvetica (of_Z 12) "#000000" 0 margin margin [].

Section Document.
Context `{M : PdfMetrics}.

Fixpoint units (f : Font) (s : string) : Z :=
  match s with
  | EmptyString => 0
  | String c r => advance f c + units f r
  end.

(** [doc.widthOfString(s)]: the advance widths times [size / 1000]. *)
Definition widthOfString (d : Doc) (s : string) : jsnum :=
  mul (of_Z (units (doc_font d) s)) (div (doc_size d) (of_Z 1000)).

(** [doc.currentLineHeight(true)]. *)
Definition currentLineHeight (d : Doc) : jsnum :=
  let f := doc_font d in
  mul (div (of_Z (ascender f + line_gap f - descender f)) (of_Z 1000)) (doc_size d).

Definition font (f : Font) (d : Doc) : Doc :=
  mkDoc f (doc_size d) (doc_color d) (doc_page d) (doc_x d) (doc_y d) (doc_ops d).

Definition fontSize (z : jsnum) (d : Doc) : Doc :=
  mkDoc (doc_font d) z (doc_color d) (doc_page d) (doc_x d) (doc_y d) (doc_ops d).

Definition fillColor (c : string) (d : Doc) : Doc :=
  mkDoc (doc_font d) (doc_size d) c (doc_page d) (doc_x d) (doc_y d) (doc_ops d).

Definition draw (op : DrawOp) (d : Doc) : Doc :=
  mkDoc (doc_font d) (doc_size d) (doc_color d) (doc_page d) (doc_x d) (doc_y d) (doc_ops d ++ [op]).

(** [doc.text(s, x, y, opts)] on pages whose bottom margin is at [maxY]
    and whose top margin is [top]: an empty string draws nothing;
    otherwise, when the first line would pass [maxY], the text continues
    at the top of a new page.  The cursor ends at [x], below the block
    ([heightOfString] is the advance the line wrapper makes). *)
Definition text_in (maxY top : jsnum) (s : string) (x y : jsnum) (opts : TextOpts) (d : Doc) : Doc :=
  if String.eqb s EmptyString then d
  else
    let breaks := lt maxY y || lt maxY (add y (currentLineHeight d)) in
    let pg := if breaks then S (doc_page d) else doc_page d in
    let y' := if breaks then top else y in
    mkDoc (doc_font d) (doc_size d) (doc_color d) pg x
      (add y' (heightOfString (doc_font d) (doc_size d) opts s))
      (doc_ops d ++ [DText pg (doc_font d) (doc_size d) (doc_color d) s x y' opts]).

(** [doc.text] on the invoice's Letter pages with margin 50. *)
Definition text (s : string) (x y : jsnum) (opts : TextOpts) (d : Doc) : Doc :=
  text_in page_maxY margin s x y opts d.

(** [doc.moveDown(n)]: the cursor goes [n] lines down. *)
Definition moveDown (n : jsnum) (d : Doc) : Doc :=
  mkDoc (doc_font d) (doc_size d) (doc_color d) (doc_page d) (doc_x d)
    (add (doc_y d) (mul (currentLineHeight d) n)) (doc_ops d).

(** Two numbers are [===]: neither is below the other. *)
Definition num_eqb (a b : jsnum) : bool := negb (lt a b) && negb (lt b a).

(** [doc.image(path, x, y, { width })]: throws when the file cannot be
    read ([readable = false]); an image drawn at the cursor's height
    moves the cursor below it. *)
Definition image (readable : bool) (path : string) (x y w : jsnum) (d : Doc) : option Doc :=
  if readable then
    let d' := draw (DImage (doc_page d) path x y w) d in
    if num_eqb (doc_y d) y
    then Some (mkDoc (doc_font d') (doc_size d') (doc_color d') (doc_page d') (doc_x d')
                     (add y (imageHeight path w)) (doc_ops d'))
    else Some d'
  else None.

(** [doc.moveTo(x1, y1).lineTo(x2, y2).stroke()]. *)
Definition stroke_line (x1 y1 x2 y2 : jsnum) (d : Doc) : Doc :=
  draw (DLine (doc_page d) x1 y1 x2 y2) d.

(** ** How the calls change a document

    Every call appends to the list of operations and reads only the
    font, size, colour and page: a document with one more operation in
    front behaves the same ([*_cons]), and a later document extends an
    earlier one ([extends]). *)

Definition cons_op (o : DrawOp) (d : Doc) : Doc :=
  mkDoc (doc_font d) (doc_size d) (doc_color d) (doc_page d) (doc_x d) (doc_y d) (o :: doc_ops d).

Lemma text_cons o s x y opts d : text s x y opts (cons_op o d) = cons_op o (text s x y opts d).
Proof. unfold text, text_in. destruct (String.eqb s EmptyString); reflexivity. Qed.

Lemma font_cons o f d : font f (cons_op o d) = cons_op o (font f d).
Proof. reflexivity. Qed.

Lemma fontSize_cons o z d : fontSize z (cons_op o d) = cons_op o (fontSize z d).
Proof. reflexivity. Qed.

Lemma fillColor_cons o c d : fillColor c (cons_op o d) = cons_op o (fillColor c d).
Proof. reflexivity. Qed.

Lemma stroke_line_cons o x1 y1 x2 y2 d :
  stroke_line x1 y1 x2 y2 (cons_op o d) = cons_op o (stroke_line x1 y1 x2 y2 d).
Proof. reflexivity. Qed.

Lemma widthOfString_cons o d s : widthOfString (cons_op o d) s = widthOfString d s.
Proof. reflexivity. Qed.

Definition extends (d d' : Doc) : Prop := exists l, doc_ops d' = (doc_ops d ++ l)%list.

Lemma extends_refl d : extends d d.
Proof. exists []. symmetry. apply app_nil_r. Qed.

Lemma extends_trans d1 d2 d3 : extends d1 d2 -> extends d2 d3 -> extends d1 d3.
Proof. intros [l1 H1] [l2 H2]. exists (l1 ++ l2)%list. rewrite H2, H1. symmetry. apply app_assoc. Qed.

Lemma extends_in d d' o : extends d d' -> In o (doc_ops d) -> In o (doc_ops d').
Proof. intros [l ->] H. apply in_or_app. left. exact H. Qed.

Lemma extends_text s x y opts d : extends d (text s x y opts d).
Proof. unfold text, text_in. destruct (String.eqb s EmptyString); [apply extends_refl | eexists; reflexivity]. Qed.

Lemma extends_font f d : extends d (font f d).
Proof. exact (extends_refl d). Qed.

Lemma extends_fontSize z d : extends d (fontSize z d).
Proof. exact (extends_refl d). Qed.

Lemma extends_fillColor c d : extends d (fillColor c d).
Proof. exact (extends_refl d). Qed.

Lemma extends_stroke_line x1 y1 x2 y2 d : extends d (stroke_line x1 y1 x2 y2 d).
Proof. eexists; reflexivity. Qed.

(** Every operation is on a page the document has reached. *)
Definition op_page (o : DrawOp) : nat :=
  match o with DImage p _ _ _ _ | DText p _ _ _ _ _ _ _ | DLine p _ _ _ _ => p end.

Definition pages_ok (d : Doc) : Prop := Forall (fun o => (op_page o <= doc_page d)%nat) (doc_ops d).

Lemma pages_ok_text s x y opts d : pages_ok d -> pages_ok (text s x y opts d).
Proof.
  unfold pages_ok, text, text_in. intros H. destruct (String.eqb s EmptyString); [exact H |].
  cbn [doc_ops doc_page]. apply Forall_app. split.
  - eapply Forall_impl; [| exact H]. intros o Ho. cbv beta in *.
    destruct (lt page_maxY y || lt page_maxY (add y (currentLineHeight d))); lia.
  - repeat constructor.
Qed.

Lemma pages_ok_draw_here o d : op_page o = doc_page d -> pages_ok d -> pages_ok (draw o d).
Proof.
  unfold pages_ok, draw. intros Ho H. cbn [doc_ops doc_page]. apply Forall_app.
  split; [exact H | constructor; [lia | constructor]].
Qed.

Lemma text_page s x y opts d : (doc_page d <= doc_page (text s x y opts d))%nat.
Proof.
  unfold text, text_in. destruct (String.eqb s EmptyString); [lia |]. cbn [doc_page].
  destruct (lt page_maxY y || lt page_maxY (add y (currentLineHeight d))); lia.
Qed.

Lemma pages_ok_font f d : pages_ok d -> pages_ok (font f d).
Proof. exact (fun H => H). Qed.

Lemma pages_ok_fontSize z d : pages_ok d -> pages_ok (fontSize z d).
Proof. exact (fun H => H). Qed.

Lemma pages_ok_fillColor c d : pages_ok d -> pages_ok (fillColor c d).
Proof. exact (fun H => H). Qed.

Lemma pages_ok_stroke_line x1 y1 x2 y2 d : pages_ok d -> pages_ok (stroke_line x1 y1 x2 y2 d).
Proof. apply pages_ok_draw_here. reflexivity. Qed.

Lemma pages_ok_image r path x y w d d' : pages_ok d -> image r path x y w d = Some d' -> pages_ok d'.
Proof.
  unfold image. intros H. destruct r; [| discriminate].
  assert (Hd : pages_ok (draw (DImage (doc_page d) path x y w) d))
    by (apply pages_ok_draw_here; [reflexivity | exact H]).
  destruct (num_eqb (doc_y d) y); intros [= <-]; exact Hd.
Qed.

Lemma pages_ok_new_doc : pages_ok new_doc.
Proof. constructor. Qed.

(** A text whose first line would pass the bottom margin starts a new
    page and is drawn at its top. *)
Lemma text_breaks s x y opts d :
  s <> EmptyString -> lt page_maxY (add y (currentLineHeight d)) = true ->
  text s x y opts d =
  mkDoc (doc_font d) (doc_size d) (doc_color d) (S (doc_page d)) x
    (add margin (heightOfString (doc_font d) (doc_size d) opts s))
    (doc_ops d ++ [DText (S (doc_page d)) (doc_font d) (doc_size d) (doc_color d) s x margin opts]).
Proof.
  intros Hs Hb. unfold text, text_in. apply String.eqb_neq in Hs. rewrite Hs, Hb, orb_true_r. reflexivity.
Qed.

(** ... and is then the last operation, on a page no earlier one is on. *)
Lemma text_breaks_last s x y opts d :
  s <> EmptyString -> lt page_maxY (add y (currentLineHeight d)) = true -> pages_ok d ->
  exists ops, doc_ops (text s x y opts d) =
    (ops ++ [DText (doc_page (text s x y opts d)) (doc_font d) (doc_size d) (doc_color d) s x margin opts])%list /\
    Forall (fun o => op_page o < doc_page (text s x y opts d))%nat ops /\
    (1 <= doc_page (text s x y opts d))%nat.
Proof.
  intros Hs Hb Hp. rewrite (text_breaks s x y opts d Hs Hb). exists (doc_ops d). cbn [doc_ops doc_page].
  split; [reflexivity | split; [| lia]].
  eapply Forall_impl; [| exact Hp]. intros o Ho. cbv beta in Ho. lia.
Qed.

(** A non-empty text is drawn where asked, or at the top margin of a
    new page. *)
Lemma text_in_op_in maxY top s x y opts d :
  s <> EmptyString ->
  exists pg y', In (DText pg (doc_font d) (doc_size d) (doc_color d) s x y' opts)
                   (doc_ops (text_in maxY top s x y opts d)) /\
    (y' = y \/ (y' = top /\ (doc_page d < pg)%nat)).
Proof.
  intros Hs. unfold text_in. apply String.eqb_neq in Hs. rewrite Hs. cbn [doc_ops].
  destruct (lt maxY y || lt maxY (add y (currentLineHeight d))).
  - exists (S (doc_page d)), top. split; [apply in_or_app; right; left; reflexivity | right; split; [reflexivity | lia]].
  - exists (doc_page d), y. split; [apply in_or_app; right; left; reflexivity | left; reflexivity].
Qed.

Lemma text_op_in s x y opts d :
  s <> EmptyString ->
  exists pg y', In (DText pg (doc_font d) (doc_size d) (doc_color d) s x y' opts) (doc_ops (text s x y opts d)) /\
    (y' = y \/ (y' = margin /\ (0 < pg)%nat)).
Proof.
  intros Hs. destruct (text_in_op_in page_maxY margin s x y opts d Hs) as (pg & y' & Hin & Hy).
  exists pg, y'. split; [exact Hin |].
  destruct Hy as [-> | [-> Hp]]; [left; reflexivity | right; split; [reflexivity | lia]].
Qed.

(** A text whose first line fits is drawn where asked, on the current
    page, and leaves the cursor below it. *)
Lemma text_in_fits maxY top s x y opts d :
  s <> EmptyString -> lt maxY y = false -> lt maxY (add y (currentLineHeight d)) = false ->
  text_in maxY top s x y opts d =
  mkDoc (doc_font d) (doc_size d) (doc_color d) (doc_page d) x
    (add y (heightOfString (doc_font d) (doc_size d) opts s))
    (doc_ops d ++ [DText (doc_page d) (doc_font d) (doc_size d) (doc_color d) s x y opts]).
Proof.
  intros Hs H1 H2. unfold text_in. apply String.eqb_neq in Hs. rewrite Hs, H1, H2. reflexivity.
Qed.

(** [text_in] keeps the font, size and colour. *)
Lemma text_in_font maxY top s x y opts d : doc_font (text_in maxY top s x y opts d) = doc_font d.
Proof. unfold text_in. destruct (String.eqb s EmptyString); reflexivity. Qed.

Lemma text_in_size maxY top s x y opts d : doc_size (text_in maxY top s x y opts d) = doc_size d.
Proof. unfold text_in. destruct (String.eqb s EmptyString); reflexivity. Qed.

Lemma text_in_color maxY top s x y opts d : doc_color (text_in maxY top s x y opts d) = doc_color d.
Proof. unfold text_in. destruct (String.eqb s EmptyString); reflexivity. Qed.

Lemma extends_text_in maxY top s x y opts d : extends d (text_in maxY top s x y opts d).
Proof. unfold text_in. destruct (String.eqb s EmptyString); [apply extends_refl | eexists; reflexivity]. Qed.

Lemma extends_moveDown n d : extends d (moveDown n d).
Proof. exact (extends_refl d). Qed.

End Document.

(** Chains of calls keep every operation on a page already reached. *)
Ltac pages_chain :=
  repeat match goal with
  | |- pages_ok (text _ _ _ _ _) => apply pages_ok_text
  | |- pages_ok (font _ _) => apply pages_ok_font
  | |- pages_ok (fontSize _ _) => apply pages_ok_fontSize
  | |- pages_ok (fillColor _ _) => apply pages_ok_fillColor
  | |- pages_ok (stroke_line _ _ _ _ _) => apply pages_ok_stroke_line
  end.

(** Chains of calls extend the document they start from. *)
Ltac extends_chain :=
  repeat match goal with
  | |- extends ?d ?d => apply extends_refl
  | |- extends ?d (text _ _ _ _ ?d') => apply (extends_trans d d' _); [| apply extends_text]
  | |- extends ?d (font _ ?d') => apply (extends_trans d d' _); [| apply extends_font]
  | |- extends ?d (fontSize _ ?d') => apply (extends_trans d d' _); [| apply extends_fontSize]
  | |- extends ?d (fillColor _ ?d') => apply (extends_trans d d' _); [| apply extends_fillColor]
  | |- extends ?d (stroke_line _ _ _ _ ?d') => apply (extends_trans d d' _); [| apply extends_stroke_line]
  | |- extends ?d (text_in _ _ _ _ _ _ ?d') => apply (extends_trans d d' _); [| apply extends_text_in]
  | |- extends ?d (moveDown _ ?d') => apply (extends_trans d d' _); [| apply extends_moveDown]
  end.

(** The style a chain of calls ends with. *)
Create Rewrite HintDb pdf_style.
#[export] Hint Rewrite @text_in_font @text_in_size @text_in_color : pdf_style.

Create Rewrite HintDb pdf_cons.
#[export] Hint Rewrite @text_cons @font_cons @fontSize_cons @fillColor_cons @stroke_line_cons
  @widthOfString_cons : pdf_cons.
#[export] Hint Resolve extends_refl extends_text extends_font extends_fontSize extends_fillColor
  extends_stroke_line pages_ok_text : nk.

(** ** Helvetica *)

(** Advance widths of the printable ASCII characters, from the AFM
    files PDFKit embeds; characters outside [32..126] count [0]. *)
Definition helvetica_widths : list Z :=
  [278; 278; 355; 556; 556; 889; 667; 191; 333; 333; 389; 584; 278; 333; 278; 278;
   556; 556; 556; 556; 556; 556; 556; 556; 556; 556; 278; 278; 584; 584; 584; 556;
   1015; 667; 667; 722; 722; 667; 611; 778; 722; 278; 500; 667; 556; 833; 722; 778;
   667; 778; 722; 667; 611; 722; 667; 944; 667; 667; 611; 278; 278; 278; 469; 556;
   333; 556; 556; 500; 556; 556; 278; 556; 556; 222; 222; 500; 222; 833; 556; 556;
   556; 556; 333; 500; 278; 556; 500; 722; 500; 500; 500; 334; 260; 334; 584].

Definition helvetica_bold_widths : list Z :=
  [278; 333; 474; 556; 556; 889; 722; 238; 333; 333; 389; 584; 278; 333; 278; 278;
   556; 556; 556; 556; 556; 556; 556; 556; 556; 556; 333; 333; 584; 584; 584; 611;
   975; 722; 722; 722; 722; 667; 611; 778; 722; 278; 556; 722; 611; 833; 722; 778;
   667; 778; 722; 667; 611; 722; 667; 944; 667; 667; 611; 333; 278; 333; 584; 556;
   333; 556; 611; 556; 611; 556; 333; 611; 611; 278; 278; 556; 278; 889; 611; 611;
   611; 611; 389; 556; 333; 611; 556; 778; 556; 556; 500; 389; 280; 389; 584].

Definition afm_advance (f : Font) (c : ascii) : Z :=
  let n := nat_of_ascii c in
  if ((32 <=? n) && (n <=? 126))%nat then
    nth (n - 32) (match f with Helvetica => helvetica_widths | HelveticaBold => helvetica_bold_widths end) 0%Z
  else 0%Z.

(** Lines of one paragraph broken greedily by width, a long word being
    cut between characters, as the line wrapper does for text without
    spaces; [w] and [avail] are in 1/1000 point. *)
Fixpoint wrap_lines (f : Font) (size1000 avail : Z) (s : string) (w : Z) : nat :=
  match s with
  | EmptyString => 1
  | String c r =>
      let cw := (afm_advance f c * size1000)%Z in
      if ((0 <? w) && (avail <? w + cw))%Z then S (wrap_lines f size1000 avail r cw)
      else wrap_lines f size1000 avail r (w + cw)%Z
  end.

(** The height of a block of integral font size: its lines, each of
    [currentLineHeight(true)]. *)
Definition afm_height (f : Font) (size : jsnum) (opts : TextOpts) (s : string) : jsnum :=
  let z := match size with Num m e => (qn m e / qd e)%Z | _ => 0%Z end in
  let avail := match opt_width opts with Some (Num m e) => (qn m e * 1000 / qd e)%Z | _ => 0%Z end in
  let lines := fold_left Nat.add (map (fun p => wrap_lines f z avail p 0%Z) (split_char "010"%char s)) 0%nat in
  let gap := match f with Helvetica => 231%Z | HelveticaBold => 265%Z end in
  mul (of_Z (Z.of_nat lines)) (mul (div (of_Z (718 + gap + 207)) (of_Z 1000)) size).

(** PDFKit's documents have no [splitTextToSize]; the logo is taken to
    be [0.35] times as high as it is wide, the estimate [pdfService.ts]
    makes (line 49). *)
#[export] Instance helvetica_metrics : PdfMetrics := {|
  advance := afm_advance;
  ascender := fun _ => 718%Z;
  descender := fun _ => (-207)%Z;
  line_gap := fun f => match f with Helvetica => 231%Z | HelveticaBold => 265%Z end;
  heightOfString := afm_height;
  splitTextToSize := None;
  imageHeight := fun _ w => mul w (round_q 35 100)
|}.
