(* ===== verification/InvoiceLayout.v ===== *)
(** The invoice page of [generateInvoicePDF] ([src/server/services/pdfService.ts],
    lines 14-244).

    The function draws a fixed layout with PDFKit ([PdfKit]): logo,
    title, company block, the invoice-number block of the right column
    (font shrinking, line splitting, measured height, date below it),
    bill-to, the one-row product table, the licence key, the totals,
    the terms and the footer.  Its result here is the document after
    [doc.end()]: the list of drawing operations with their pages; the
    byte encoding of that list is the library's.  Coordinates are
    binary64 numbers computed as the code computes them. *)

From Stdlib Require Import ZArith List String Ascii Bool Lia.
From S2P Require Import Prelude JsString JsNumber Money PdfKit.
Import ListNotations.
Open Scope string_scope.
Local Open Scope nk_scope.

(** [interface InvoiceData], lines 7-12. *)
Record InvoiceData := mkInvoice {
  inv_id : string;
  inv_email : string;
  inv_licenseKey : string;
  inv_amountCents : jsnum
}.

(** ** Constants of the layout, lines 34-49, 58-59, 71-73 and 110-115 *)

Definition headerY : jsnum := of_Z 40.
Definition logoWidth : jsnum := of_Z 140.
Definition leftX : jsnum := margin.
Definition pageWidth : jsnum := page_width.

(** The literals [0.35] and [0.6]. *)
Definition lit_0_35 : jsnum := round_q 35 100.
Definition lit_0_6 : jsnum := round_q 6 10.

(** [path.join(__dirname, "..", "..", "attached_assets", ...)], relative
    to the package root. *)
Definition logoPath : string :=
  "attached_assets/Nk2IT tag Logo_bg remove (1)_1755672419460.png".

Definition afterLogoY : jsnum := add (add headerY (mul logoWidth lit_0_35)) (of_Z 8).
Definition companyX : jsnum := leftX.
Definition companyY : jsnum := add afterLogoY (of_Z 36).
Definition rightColWidth : jsnum := of_Z 220.
Definition rightColX : jsnum := sub (sub pageWidth margin) rightColWidth.
Definition metaY : jsnum := companyY.
Definition labelFontSize : jsnum := of_Z 12.
Definition labelY : jsnum := metaY.
Definition idY : jsnum := add (add labelY labelFontSize) (of_Z 6).

(** [{ width: rightColWidth, align: 'right' }] *)
Definition right_col : TextOpts := mkOpts (Some rightColWidth) AlignRight.

(** ** The invoice-number block, lines 80-124 *)

Section IdBlock.
Context `{M : PdfMetrics}.

(** Lines 82-85: [while (idFontSize > 6 && doc.widthOfString(id) > 220)
    { idFontSize -= 1; doc.fontSize(idFontSize); }]; four rounds take
    the size from 10 to 6, where the loop stops. *)
Fixpoint shrink_loop (fuel : nat) (id : string) (size : jsnum) (d : Doc) : jsnum * Doc :=
  match fuel with
  | O => (size, d)
  | S f =>
      if lt (of_Z 6) size && lt rightColWidth (widthOfString d id) then
        let size' := sub size (of_Z 1) in
        shrink_loop f id size' (d |> fontSize size')
      else (size, d)
  end.

Definition shrink_fuel : nat := 4.

(** Lines 88-89. *)
Definition approxCharWidth (idFontSize : jsnum) : jsnum := max (of_Z 4) (mul idFontSize lit_0_6).

Definition charsPerLine (idFontSize : jsnum) : jsnum :=
  max (of_Z 10) (floor (div rightColWidth (approxCharWidth idFontSize))).

(** A non-negative integral number as a string index. *)
Definition to_index (x : jsnum) : nat :=
  match x with
  | Num m e => Z.to_nat (qn m e / qd e)
  | _ => 0
  end.

(** Lines 97-99: [for (i = 0; i < id.length; i += cpl)
    lines.push(id.substring(i, i + cpl))]; the indices stay integers
    below [2^53], where [nat] is exact. *)
Fixpoint chunk_loop (fuel : nat) (id : string) (i cpl : nat) : list string :=
  match fuel with
  | O => []
  | S f =>
      if (i <? String.length id)%nat then js_substring id i (i + cpl) :: chunk_loop f id (i + cpl) cpl
      else []
  end.

Definition chunks (id : string) (cpl : nat) : list string :=
  chunk_loop (S (String.length id)) id 0 cpl.

(** Lines 92-100: the library's [splitTextToSize] when it has one, the
    fixed-size chunks otherwise. *)
Definition id_lines (id : string) (idFontSize : jsnum) : list string :=
  match splitTextToSize with
  | Some split => split id rightColWidth
  | None => chunks id (to_index (charsPerLine idFontSize))
  end.

(** Line 119. *)
Definition invoiceIdText (id : string) (idFontSize : jsnum) : string :=
  join (String "010"%char EmptyString) (id_lines id idFontSize).

(** Line 123: [invoiceIdText ? doc.heightOfString(...) : 0], measured in
    the id's font. *)
Definition invoiceIdHeight (text : string) (idFontSize : jsnum) : jsnum :=
  if String.eqb text EmptyString then of_Z 0
  else heightOfString Helvetica idFontSize right_col text.

(** Line 124. *)
Definition dateLabelY (height : jsnum) : jsnum := add (add idY height) (of_Z 8).

End IdBlock.

(** ** The static texts *)

(** [termsText], lines 190-204. *)
Definition termsText : list string := [
  "Payment Terms: Once the payment is processed, a license key will be sent to the registered email address.";
  "";
  "Refund Policy: All sales are final. No refunds will be issued after the software has been purchased or delivered.";
  "If the software is defective or an incorrect product is delivered, please contact customer support within 7 days.";
  "";
  "License Terms: The purchase provides a non-transferable license to use the Symantec Endpoint Agent software.";
  "Ownership remains with Symantec and is subject to the terms of the EULA (End-User License Agreement).";
  "";
  "Support: Basic customer support is available through support@nk2it.com.au. If you require extended support,";
  "you must coordinate with respective vendors.";
  "";
  "Limitation of Liability: Our liability is limited to the purchase price of the software. We are not responsible";
  "for any consequential, incidental, or indirect damages arising from the use or inability to use the software."].

Definition width500 (a : Align) : TextOpts := mkOpts (Some (of_Z 500)) a.

Section Page.
Context `{M : PdfMetrics}.

(** Lines 209-216: an empty line adds 10 to [currentY]; any other is
    drawn at [currentY] and adds 15. *)
Fixpoint terms_loop (lines : list string) (currentY : jsnum) (d : Doc) : jsnum * Doc :=
  match lines with
  | [] => (currentY, d)
  | line :: rest =>
      if String.eqb line EmptyString then terms_loop rest (add currentY (of_Z 10)) d
      else terms_loop rest (add currentY (of_Z 15)) (d |> text line (of_Z 50) currentY (width500 AlignLeft))
  end.

(** Lines 132-133: the date label at [dateLabelY], the date 14 below. *)
Definition date_block (currentDate : string) (dY : jsnum) (d : Doc) : Doc :=
  d |> font HelveticaBold |> fontSize (of_Z 10) |> text "Date:" rightColX dY right_col
    |> font Helvetica |> fontSize (of_Z 10) |> text currentDate rightColX (add dY (of_Z 14)) right_col.

(** [centerX - logoWidth / 2], line 43. *)
Definition logoX : jsnum := sub (div pageWidth (of_Z 2)) (div logoWidth (of_Z 2)).

(** Lines 40-46: [try { doc.image(...) } catch (e) { }]. *)
Definition draw_logo (logo_readable : bool) (d : Doc) : Doc :=
  match image logo_readable logoPath logoX headerY logoWidth d with
  | Some d' => d'
  | None => d
  end.

(** Lines 51-133: title, company block and the right column. *)
Definition header_text (currentDate id : string) (d : Doc) : Doc :=
  let d := d |> fillColor "#FF7A00" |> font HelveticaBold |> fontSize (of_Z 22)
             |> text "INVOICE" leftX afterLogoY (mkOpts (Some (sub (sub pageWidth margin) margin)) AlignCenter) in
  let d := d |> fillColor "#000000" |> fontSize (of_Z 12) |> font HelveticaBold
             |> text "NK2IT PTY LTD" companyX companyY no_opts in
  let d := d |> font Helvetica |> fontSize (of_Z 10) in
  let d := d |> text "222, 20B Lexington Drive" companyX (add companyY (of_Z 18)) no_opts
             |> text "Norwest Business Park" companyX (add companyY (of_Z 32)) no_opts
             |> text "Baulkham Hills NSW 2153" companyX (add companyY (of_Z 46)) no_opts in
  let d := d |> font Helvetica |> fontSize (of_Z 10) in
  let shrunk := shrink_loop shrink_fuel id (of_Z 10) d in
  let idFontSize := fst shrunk in
  let d := snd shrunk in
  let d := d |> font HelveticaBold |> fontSize labelFontSize
             |> text "INVOICE NUMBER:" rightColX labelY right_col in
  let d := d |> font Helvetica |> fontSize idFontSize in
  let idText := invoiceIdText id idFontSize in
  let d := d |> text idText rightColX idY right_col in
  d |> date_block currentDate (dateLabelY (invoiceIdHeight idText idFontSize)).

(** Lines 33-133: the logo, then the texts of the header. *)
Definition header (logo_readable : bool) (currentDate id : string) (d : Doc) : Doc :=
  d |> draw_logo logo_readable |> header_text currentDate id.

(** Lines 137-182: bill-to, the product table, the licence key and the
    totals; [amount], [gst] and [total] are the three currency strings. *)
Definition body (data : InvoiceData) (amount gst total : string) (d : Doc) : Doc :=
  let d := d |> fontSize (of_Z 14) |> font HelveticaBold
             |> text "BILL TO" (of_Z 50) (add companyY (of_Z 80)) no_opts in
  let d := d |> fontSize (of_Z 12) |> font Helvetica
             |> text ("Email: " ++ inv_email data) (of_Z 50) (add companyY (of_Z 105)) no_opts in
  let tableTop := of_Z 280 in
  let d := d |> fontSize (of_Z 12) |> font HelveticaBold
             |> text "NO" (of_Z 50) tableTop no_opts
             |> text "QUANTITY" (of_Z 90) tableTop no_opts
             |> text "PRODUCT DESCRIPTION" (of_Z 160) tableTop no_opts
             |> text "UNIT PRICE" (of_Z 380) tableTop no_opts
             |> text "TOTAL PRICE" (of_Z 470) tableTop no_opts in
  let d := d |> stroke_line (of_Z 50) (add tableTop (of_Z 20)) (of_Z 550) (add tableTop (of_Z 20)) in
  let productRow := add tableTop (of_Z 30) in
  let d := d |> fontSize (of_Z 12) |> font Helvetica
             |> text "1" (of_Z 50) productRow no_opts
             |> text "1" (of_Z 90) productRow no_opts
             |> text "Symantec Endpoint Protection License" (of_Z 160) productRow no_opts
             |> text amount (of_Z 380) productRow no_opts
             |> text amount (of_Z 470) productRow no_opts in
  let d := d |> fontSize (of_Z 12) |> font HelveticaBold
             |> text "License Key:" (of_Z 50) (add productRow (of_Z 40)) no_opts
             |> font Helvetica
             |> text (inv_licenseKey data) (of_Z 140) (add productRow (of_Z 40)) no_opts in
  let totalsY := add productRow (of_Z 80) in
  d |> text "AMOUNT:" (of_Z 400) totalsY no_opts
    |> text amount (of_Z 470) totalsY no_opts
    |> text "GST (10%):" (of_Z 400) (add totalsY (of_Z 20)) no_opts
    |> text gst (of_Z 470) (add totalsY (of_Z 20)) no_opts
    |> font HelveticaBold
    |> text "TOTAL:" (of_Z 400) (add totalsY (of_Z 40)) no_opts
    |> text total (of_Z 470) (add totalsY (of_Z 40)) no_opts.

(** [termsY], line 185: [totalsY + 100] with [totalsY = 280 + 30 + 80]. *)
Definition termsY : jsnum := add (add (add (of_Z 280) (of_Z 30)) (of_Z 80)) (of_Z 100).

(** [footerY], line 219. *)
Definition footerY : jsnum := sub page_height (of_Z 80).

(** The contact line, line 233. *)
Definition contact_line : string :=
  "Email: support@nk2it.com.au | Phone: 1300 NK2 IT | Website: nk2it.com.au".

(** Lines 184-240: terms and footer. *)
Definition footer (d : Doc) : Doc :=
  let d := d |> fontSize (of_Z 14) |> font HelveticaBold
             |> text "TERMS & CONDITIONS:" (of_Z 50) termsY no_opts in
  let d := d |> fontSize (of_Z 10) |> font Helvetica in
  let d := snd (terms_loop termsText (add termsY (of_Z 30)) d) in
  d |> fillColor "#00A65A" |> fontSize (of_Z 14) |> font HelveticaBold
    |> text "Thank you for your purchase! Powered by NK2IT" (of_Z 50) footerY (width500 AlignCenter)
    |> fillColor "#000000" |> fontSize (of_Z 10) |> font Helvetica
    |> text contact_line (of_Z 50) (add footerY (of_Z 30)) (width500 AlignCenter).

(** [generateInvoicePDF(data)], lines 14-244: the document as it stands
    at [doc.end()], given whether the logo file can be read and the
    date string [new Date().toLocaleDateString("en-AU")].  [None] when
    an amount is so large that [toFixed] prints it in exponent form,
    which is not modelled. *)
Definition generateInvoicePDF (logo_readable : bool) (currentDate : string) (data : InvoiceData)
  : option Doc :=
  let gst := gstCents (inv_amountCents data) in
  let total := totalCents (inv_amountCents data) in
  match currency (inv_amountCents data), currency gst, currency total with
  | Some a, Some g, Some t =>
      Some (new_doc |> header logo_readable currentDate (inv_id data) |> body data a g t |> footer)
  | _, _, _ => None
  end.

End Page.

(** ** Splitting the invoice number *)

(** The number of pieces of [x] characters cut [c] at a time. *)
Lemma ceil_div_step x c :
  (0 < c)%nat -> (0 < x)%nat -> ((x + c - 1) / c = 1 + ((x - c) + c - 1) / c)%nat.
Proof.
  intros Hc Hx. destruct (Nat.le_gt_cases x c) as [Hle | Hgt].
  - replace (x - c)%nat with 0%nat by lia. rewrite (Nat.div_small (0 + c - 1)) by lia.
    symmetry. apply (Nat.div_unique _ _ _ (x - 1)); lia.
  - replace (x + c - 1)%nat with ((x - c + c - 1) + 1 * c)%nat by lia.
    rewrite Nat.div_add by lia. lia.
Qed.

(** The loop of lines 97-99 from index [i]: its pieces put together are
    the rest of the string, each has one to [cpl] characters, and there
    are [ceil((length - i) / cpl)] of them. *)
Lemma chunk_loop_spec fuel id i cpl :
  (0 < cpl)%nat -> (String.length id - i < fuel)%nat ->
  join EmptyString (chunk_loop fuel id i cpl) = substring i (String.length id - i) id /\
  Forall (fun l => 0 < String.length l <= cpl)%nat (chunk_loop fuel id i cpl) /\
  List.length (chunk_loop fuel id i cpl) = ((String.length id - i + cpl - 1) / cpl)%nat.
Proof.
  revert i. induction fuel as [| fuel IH]; intros i Hc Hf; [lia |].
  cbn [chunk_loop]. destruct (Nat.ltb_spec i (String.length id)) as [Hi | Hi].
  - destruct (IH (i + cpl)%nat Hc ltac:(lia)) as (Hj & Hall & Hlen).
    rewrite js_substring_forward by lia. split; [| split].
    + rewrite join_empty_cons, Hj, substring_split.
      rewrite (substring_trunc i (cpl + _)), (substring_trunc i (String.length id - i)). f_equal. lia.
    + constructor; [rewrite length_substring; lia | exact Hall].
    + cbn [List.length]. rewrite Hlen, (ceil_div_step (String.length id - i) cpl) by lia.
      replace (String.length id - (i + cpl))%nat with (String.length id - i - cpl)%nat by lia.
      reflexivity.
  - split; [| split].
    + rewrite substring_past by lia. reflexivity.
    + constructor.
    + cbn [List.length]. symmetry. apply Nat.div_small. lia.
Qed.

(** [charsPerLine] at the sizes the loop can leave: [220 / (size * 0.6)]
    rounded down, and [220 / 4] at size 6. *)
Definition cpl_table (k : Z) : nat :=
  if (k =? 10)%Z then 36 else if (k =? 9)%Z then 40 else if (k =? 8)%Z then 45
  else if (k =? 7)%Z then 52 else 55.

Lemma charsPerLine_table k : (6 <= k <= 10)%Z -> to_index (charsPerLine (of_Z k)) = cpl_table k.
Proof.
  intros Hk. assert (k = 6 \/ k = 7 \/ k = 8 \/ k = 9 \/ k = 10)%Z as [-> | [-> | [-> | [-> | ->]]]] by lia;
    vm_compute; reflexivity.
Qed.

Lemma ceil_div_ge_2 x c : (0 < c)%nat -> (2 <= (x + c - 1) / c <-> c < x)%nat.
Proof.
  intros Hc. split.
  - intros H. destruct (Nat.le_gt_cases x c) as [Hle | ]; [| assumption].
    exfalso. assert ((x + c - 1) / c < 2)%nat; [apply Nat.Div0.div_lt_upper_bound; lia | lia].
  - intros H. apply Nat.div_le_lower_bound; lia.
Qed.

Section Lines.
Context `{M : PdfMetrics}.

(** C7.  Without a [splitTextToSize] helper (PDFKit has none),
    the invoice number at any size the loop can leave is cut into
    pieces that put back together give the number, each of one to
    [charsPerLine] characters, [ceil(length / charsPerLine)] of them:
    two lines or more exactly when the number is longer than
    [charsPerLine], whatever its printed width. *)
Theorem id_lines_split id k :
  splitTextToSize = None -> (6 <= k <= 10)%Z ->
  join EmptyString (id_lines id (of_Z k)) = id /\
  Forall (fun l => 0 < String.length l <= cpl_table k)%nat (id_lines id (of_Z k)) /\
  List.length (id_lines id (of_Z k)) = ((String.length id + cpl_table k - 1) / cpl_table k)%nat /\
  ((2 <= List.length (id_lines id (of_Z k)))%nat <-> (cpl_table k < String.length id)%nat).
Proof.
  intros Hs Hk. unfold id_lines. rewrite Hs, charsPerLine_table by exact Hk.
  assert (Hc : (0 < cpl_table k)%nat) by (unfold cpl_table; repeat destruct (_ =? _)%Z; lia).
  destruct (chunk_loop_spec (S (String.length id)) id 0 (cpl_table k) Hc ltac:(lia)) as (Hj & Hall & Hlen).
  unfold chunks. rewrite Nat.sub_0_r in *. split; [| split; [exact Hall | split]].
  - rewrite Hj. apply substring_whole.
  - exact Hlen.
  - rewrite Hlen. apply ceil_div_ge_2, Hc.
Qed.

End Lines.

(** ** The font size of the invoice number *)

Section Shrink.
Context `{M : PdfMetrics}.

(** The invoice number fits the column at size [k] of Helvetica. *)
Definition fits (id : string) (k : Z) : bool :=
  negb (lt rightColWidth (mul (of_Z (units Helvetica id)) (div (of_Z k) (of_Z 1000)))).

Lemma shrink_loop_step n id k d :
  (7 <= k <= 10)%Z -> doc_font d = Helvetica ->
  shrink_loop (S n) id (of_Z k) (fontSize (of_Z k) d) =
  if fits id k then (of_Z k, fontSize (of_Z k) d)
  else shrink_loop n id (of_Z (k - 1)) (fontSize (of_Z (k - 1)) d).
Proof.
  intros Hk Hf. cbn [shrink_loop].
  assert (E : lt (of_Z 6) (of_Z k) = true /\ sub (of_Z k) (of_Z 1) = of_Z (k - 1)).
  { assert (k = 7 \/ k = 8 \/ k = 9 \/ k = 10)%Z as [-> | [-> | [-> | ->]]] by lia;
      split; vm_compute; reflexivity. }
  destruct E as [-> ->]. unfold fits, widthOfString. cbn [doc_font doc_size fontSize]. rewrite Hf.
  destruct (lt rightColWidth _); reflexivity.
Qed.

Lemma shrink_loop_stop n id d :
  shrink_loop n id (of_Z 6) d = (of_Z 6, d).
Proof. destruct n; reflexivity. Qed.

(** C6.  The loop of lines 82-85 ends within its four rounds
    and picks the largest size from 10 down to 6 at which the invoice
    number fits the 220-point column, or 6 when it fits at none; the
    document is left at that size. *)
Theorem shrink_loop_largest_fit id d :
  doc_font d = Helvetica -> doc_size d = of_Z 10 ->
  exists k, shrink_loop shrink_fuel id (of_Z 10) d = (of_Z k, fontSize (of_Z k) d) /\
    (6 <= k <= 10)%Z /\ (fits id k = true \/ k = 6%Z) /\
    (forall j, (k < j <= 10)%Z -> fits id j = false).
Proof.
  intros Hf Hs.
  assert (Hd : d = fontSize (of_Z 10) d) by (destruct d as [f z c p ops]; cbn [doc_size] in Hs; subst z; reflexivity).
  unfold shrink_fuel.
  replace (shrink_loop 4 id (of_Z 10) d) with (shrink_loop 4 id (of_Z 10) (fontSize (of_Z 10) d))
    by (rewrite <- Hd; reflexivity).
  rewrite shrink_loop_step by (auto; lia).
  destruct (fits id 10) eqn:F10.
  { exists 10%Z. split; [reflexivity |]. split; [lia |]. split; [auto | intros; lia]. }
  rewrite shrink_loop_step by (auto; lia). change (10 - 1)%Z with 9%Z.
  destruct (fits id 9) eqn:F9.
  { exists 9%Z. repeat split; [lia | lia | auto |].
    intros j Hj. assert (j = 10)%Z as -> by lia. exact F10. }
  rewrite shrink_loop_step by (auto; lia). change (9 - 1)%Z with 8%Z.
  destruct (fits id 8) eqn:F8.
  { exists 8%Z. repeat split; [lia | lia | auto |].
    intros j Hj. assert (j = 9 \/ j = 10)%Z as [-> | ->] by lia; assumption. }
  rewrite shrink_loop_step by (auto; lia). change (8 - 1)%Z with 7%Z.
  destruct (fits id 7) eqn:F7.
  { exists 7%Z. repeat split; [lia | lia | auto |].
    intros j Hj. assert (j = 8 \/ j = 9 \/ j = 10)%Z as [-> | [-> | ->]] by lia; assumption. }
  change (7 - 1)%Z with 6%Z. rewrite shrink_loop_stop.
  exists 6%Z. repeat split; [lia | lia | auto |].
  intros j Hj. assert (j = 7 \/ j = 8 \/ j = 9 \/ j = 10)%Z as [-> | [-> | [-> | ->]]] by lia;
    assumption.
Qed.

End Shrink.

(** ** The document does not depend on what was drawn before

    All the drawing reads only the font, size, colour and page, so
    an operation drawn first (the logo) stays first and changes nothing
    else. *)

Section Cons.
Context `{M : PdfMetrics}.

Lemma shrink_loop_cons n id z o d :
  shrink_loop n id z (cons_op o d) = (fst (shrink_loop n id z d), cons_op o (snd (shrink_loop n id z d))).
Proof.
  revert z d; induction n as [| n IH]; intros z d; [reflexivity |].
  cbn [shrink_loop]. rewrite widthOfString_cons.
  destruct (lt (of_Z 6) z && lt rightColWidth (widthOfString d id)); [| reflexivity].
  rewrite fontSize_cons. apply IH.
Qed.

Lemma terms_loop_cons lines y o d :
  terms_loop lines y (cons_op o d) = (fst (terms_loop lines y d), cons_op o (snd (terms_loop lines y d))).
Proof.
  revert y d; induction lines as [| l lines IH]; intros y d; [reflexivity |].
  cbn [terms_loop]. destruct (String.eqb l EmptyString); [apply IH |].
  rewrite text_cons. apply IH.
Qed.

Lemma header_text_cons date id o d : header_text date id (cons_op o d) = cons_op o (header_text date id d).
Proof.
  unfold header_text, date_block. cbv zeta. autorewrite with pdf_cons. rewrite shrink_loop_cons.
  cbn [fst snd]. autorewrite with pdf_cons. reflexivity.
Qed.

Lemma body_cons data a g t o d : body data a g t (cons_op o d) = cons_op o (body data a g t d).
Proof. unfold body. cbv zeta. autorewrite with pdf_cons. reflexivity. Qed.

Lemma footer_cons o d : footer (cons_op o d) = cons_op o (footer d).
Proof.
  unfold footer. cbv zeta. autorewrite with pdf_cons. rewrite terms_loop_cons. cbn [snd].
  autorewrite with pdf_cons. reflexivity.
Qed.

End Cons.

(** ** The invoice page *)

Section Invoice.
Context `{M : PdfMetrics}.

(** The logo operation of a readable logo file. *)
Definition logo_op : DrawOp := DImage 0 logoPath logoX headerY logoWidth.

(** C8.  A logo file that cannot be read does not stop the
    rendering and changes nothing but the logo: the invoice drawn with
    a readable logo is the one drawn without it, with the image as its
    first operation. *)
Theorem invoice_without_logo date data :
  generateInvoicePDF true date data = option_map (cons_op logo_op) (generateInvoicePDF false date data).
Proof.
  unfold generateInvoicePDF.
  destruct (currency (inv_amountCents data)), (currency (gstCents (inv_amountCents data))),
    (currency (totalCents (inv_amountCents data))); try reflexivity.
  cbn [option_map]. f_equal. unfold header.
  change (draw_logo true new_doc) with (cons_op logo_op new_doc).
  change (draw_logo false new_doc) with new_doc.
  rewrite header_text_cons, body_cons, footer_cons. reflexivity.
Qed.

End Invoice.

(** ** The date below the invoice number *)

Section DateBlock.
Context `{M : PdfMetrics}.

Lemma shrink_loop_fst n id z d1 d2 :
  doc_font d1 = doc_font d2 -> doc_size d1 = doc_size d2 ->
  fst (shrink_loop n id z d1) = fst (shrink_loop n id z d2).
Proof.
  revert z d1 d2; induction n as [| n IH]; intros z d1 d2 Hf Hs; [reflexivity |].
  cbn [shrink_loop]. unfold widthOfString at 1 2. rewrite Hf, Hs.
  destruct (_ && _); [apply IH; [exact Hf | reflexivity] | reflexivity].
Qed.

(** The size the invoice number is printed at, and its measured height. *)
Definition id_font_size (id : string) : jsnum :=
  fst (shrink_loop shrink_fuel id (of_Z 10) (fontSize (of_Z 10) (font Helvetica new_doc))).

Definition id_height (id : string) : jsnum :=
  invoiceIdHeight (invoiceIdText id (id_font_size id)) (id_font_size id).

Lemma date_block_in date dY d :
  exists pg col y, In (DText pg HelveticaBold (of_Z 10) col "Date:" rightColX y right_col)
                      (doc_ops (date_block date dY d)) /\
    (y = dY \/ (y = margin /\ (0 < pg)%nat)).
Proof.
  unfold date_block.
  destruct (text_op_in "Date:" rightColX dY right_col (fontSize (of_Z 10) (font HelveticaBold d)))
    as (pg & y & Hin & Hy); [discriminate |].
  exists pg, (doc_color d), y. split; [| exact Hy].
  eapply extends_in; [| exact Hin]. extends_chain.
Qed.

Lemma header_text_date date id d :
  exists pg col y, In (DText pg HelveticaBold (of_Z 10) col "Date:" rightColX y right_col)
                      (doc_ops (header_text date id d)) /\
    (y = dateLabelY (id_height id) \/ (y = margin /\ (0 < pg)%nat)).
Proof.
  unfold header_text, id_height, id_font_size. cbv zeta.
  match goal with |- context [shrink_loop shrink_fuel id (of_Z 10) ?D] =>
    rewrite (shrink_loop_fst shrink_fuel id (of_Z 10) D (fontSize (of_Z 10) (font Helvetica new_doc))
               eq_refl eq_refl) end.
  apply date_block_in.
Qed.

Lemma terms_loop_extends lines y d : extends d (snd (terms_loop lines y d)).
Proof.
  revert y d; induction lines as [| l lines IH]; intros y d; [apply extends_refl |].
  cbn [terms_loop]. destruct (String.eqb l EmptyString); [apply IH |].
  eapply extends_trans; [| apply IH]. apply extends_text.
Qed.

Lemma body_extends data a g t d : extends d (body data a g t d).
Proof. unfold body. cbv zeta. extends_chain. Qed.

Lemma footer_extends d : extends d (footer d).
Proof.
  unfold footer. cbv zeta. extends_chain.
  eapply extends_trans; [| apply terms_loop_extends]. extends_chain.
Qed.

Lemma idY_val : pos_val idY 151 152.
Proof.
  exists 5312840185413632%Z, (-45)%Z. split; [vm_compute; reflexivity |].
  split; [lia | split; apply Z.leb_le; vm_compute; reflexivity].
Qed.

(** The date label is strictly below [idY + height]. *)
Lemma dateLabelY_below h : pos_val h 0 (2 ^ 51) -> lt (add idY h) (dateLabelY h) = true.
Proof.
  intros Hh. unfold dateLabelY.
  apply (lt_add_pos_val _ _ 150 (152 + 2 ^ 51 + 1) 8 8); [lia | lia | lia | lia | |].
  - apply (pos_val_add _ _ 151 152 0 (2 ^ 51)); [lia | lia | lia | exact idY_val | exact Hh].
  - apply pos_val_of_Z. lia.
Qed.

(** C4.  The date label is placed strictly below the measured block
    of the invoice number: in every generated invoice the "Date:" label
    is drawn at [dateLabelY], and [idY + invoiceIdHeight < dateLabelY]
    in binary64, for any height below [2^51] points; or, when the block
    is so tall that the label would pass the bottom margin, at the top
    of a later page. *)
Theorem invoice_date_below_id readable date data doc :
  generateInvoicePDF readable date data = Some doc ->
  pos_val (id_height (inv_id data)) 0 (2 ^ 51) ->
  exists pg col y, In (DText pg HelveticaBold (of_Z 10) col "Date:" rightColX y right_col) (doc_ops doc) /\
    ((y = dateLabelY (id_height (inv_id data)) /\ lt (add idY (id_height (inv_id data))) y = true)
     \/ (y = margin /\ (0 < pg)%nat)).
Proof.
  unfold generateInvoicePDF. intros E Hh.
  destruct (currency (inv_amountCents data)), (currency (gstCents (inv_amountCents data))),
    (currency (totalCents (inv_amountCents data))); try discriminate.
  injection E as <-. unfold header.
  destruct (header_text_date date (inv_id data) (draw_logo readable new_doc)) as (pg & col & y & Hin & Hy).
  exists pg, col, y. split.
  - eapply extends_in; [| exact Hin].
    eapply extends_trans; [apply body_extends | apply footer_extends].
  - destruct Hy as [-> | Hm]; [left; split; [reflexivity | apply dateLabelY_below, Hh] | right; exact Hm].
Qed.

End DateBlock.

(** ** The amounts on the page *)

Section Amounts.
Context `{M : PdfMetrics}.

(** [s] is drawn in the column at [x = 470]. *)
Definition prints (s : string) (d : Doc) : Prop :=
  exists pg f sz col y, In (DText pg f sz col s (of_Z 470) y no_opts) (doc_ops d).

Lemma text_in_extends s x y o d D :
  s <> EmptyString -> extends (text s x y o d) D ->
  exists pg f sz col y', In (DText pg f sz col s x y' o) (doc_ops D).
Proof.
  intros Hs HD. destruct (text_op_in s x y o d Hs) as (pg & y' & Hin & _).
  exists pg, (doc_font d), (doc_size d), (doc_color d), y'. exact (extends_in _ _ _ HD Hin).
Qed.

Ltac prints_text s :=
  unfold prints;
  match goal with |- context [text s (of_Z 470) ?y ?o ?d] =>
    apply (text_in_extends s (of_Z 470) y o d); [assumption | extends_chain] end.

Lemma body_prints data a g t d :
  a <> EmptyString -> g <> EmptyString -> t <> EmptyString ->
  prints a (body data a g t d) /\ prints g (body data a g t d) /\ prints t (body data a g t d).
Proof.
  intros Ha Hg Ht. unfold body. cbv zeta.
  split; [prints_text a | split; [prints_text g | prints_text t]].
Qed.

Lemma prints_extends s d d' : extends d d' -> prints s d -> prints s d'.
Proof.
  intros He (pg & f & sz & col & y & Hin). exists pg, f, sz, col, y. exact (extends_in _ _ _ He Hin).
Qed.

(** C3.  For every amount below 2^51 cents the invoice is drawn
    and its price column prints the amount, the GST rounded half up
    from a tenth of the amount, and their sum, each as [$] and the
    cents with two decimals, although [pdfService.ts] computes them in
    binary64 with [Math.round(amountCents * 0.1)] and [toFixed(2)]. *)
Theorem invoice_prints_amounts readable date data x :
  inv_amountCents data = of_Z x -> (0 <= x < 2 ^ 51)%Z ->
  exists doc, generateInvoicePDF readable date data = Some doc /\
    prints ("$" ++ fixed2 x) doc /\ prints ("$" ++ fixed2 (half_up_tenth x)) doc /\
    prints ("$" ++ fixed2 (x + half_up_tenth x)) doc.
Proof.
  intros Hx Hb. unfold generateInvoicePDF. rewrite Hx.
  assert (Hh : (0 <= half_up_tenth x <= x / 10 + 1)%Z) by (unfold half_up_tenth; zlia).
  rewrite gstCents_half_up, totalCents_exact by lia.
  rewrite !currency_exact by (pow2_facts; zlia).
  eexists. split; [reflexivity |].
  destruct (body_prints data ("$" ++ fixed2 x) ("$" ++ fixed2 (half_up_tenth x))
              ("$" ++ fixed2 (x + half_up_tenth x))
              (header readable date (inv_id data) new_doc)) as (P1 & P2 & P3); try discriminate.
  split; [| split]; eapply prints_extends; try apply footer_extends; assumption.
Qed.

End Amounts.

(** ** Pages *)

Section Pages.
Context `{M : PdfMetrics}.

Lemma shrink_loop_pages n id z d : pages_ok d -> pages_ok (snd (shrink_loop n id z d)).
Proof.
  revert z d; induction n as [| n IH]; intros z d H; [exact H |].
  cbn [shrink_loop]. destruct (_ && _); [apply IH, pages_ok_fontSize, H | exact H].
Qed.

Lemma terms_loop_pages lines y d : pages_ok d -> pages_ok (snd (terms_loop lines y d)).
Proof.
  revert y d; induction lines as [| l lines IH]; intros y d H; [exact H |].
  cbn [terms_loop]. destruct (String.eqb l EmptyString); apply IH; [exact H | apply pages_ok_text, H].
Qed.

Lemma draw_logo_pages readable d : pages_ok d -> pages_ok (draw_logo readable d).
Proof.
  intros H. unfold draw_logo.
  destruct (image readable logoPath logoX headerY logoWidth d) eqn:E; [exact (pages_ok_image _ _ _ _ _ _ _ H E) | exact H].
Qed.

Lemma header_pages readable date id d : pages_ok d -> pages_ok (header readable date id d).
Proof.
  intros H. unfold header, header_text, date_block. cbv zeta. pages_chain.
  apply shrink_loop_pages. pages_chain. apply draw_logo_pages, H.
Qed.

Lemma body_pages data a g t d : pages_ok d -> pages_ok (body data a g t d).
Proof. intros H. unfold body. cbv zeta. pages_chain. exact H. Qed.

(** The point where the contact line is drawn is the bottom margin. *)
Lemma contact_y : add footerY (of_Z 30) = page_maxY.
Proof. vm_compute. reflexivity. Qed.

Lemma maxY_value : page_maxY = of_Z 742.
Proof. vm_compute. reflexivity. Qed.

Section Footer.
Hypothesis line_height_ok :
  (1000 <= ascender Helvetica + line_gap Helvetica - descender Helvetica <= 2000)%Z.

(** The line height the contact line is measured with. *)
Lemma contact_line_height D :
  doc_font D = Helvetica -> doc_size D = of_Z 10 ->
  lt page_maxY (add (add footerY (of_Z 30)) (currentLineHeight D)) = true.
Proof.
  intros Hf Hs. unfold currentLineHeight. rewrite Hf, Hs, contact_y, maxY_value.
  apply (lt_add_pos_val _ _ 742 742 9 21); [lia | lia | lia | lia | apply pos_val_of_Z; lia |].
  apply (pos_val_line_height _ 10); [exact line_height_ok | lia].
Qed.

Lemma footer_last d :
  pages_ok d ->
  exists ops, doc_ops (footer d) =
    (ops ++ [DText (doc_page (footer d)) Helvetica (of_Z 10) "#000000" contact_line (of_Z 50) margin
                   (width500 AlignCenter)])%list /\
    Forall (fun o => op_page o < doc_page (footer d))%nat ops /\ (1 <= doc_page (footer d))%nat.
Proof.
  intros H. unfold footer. cbv zeta.
  match goal with |- context [text contact_line (of_Z 50) ?y ?o ?D] =>
    exact (text_breaks_last contact_line (of_Z 50) y o D ltac:(discriminate)
             (contact_line_height D eq_refl eq_refl)
             ltac:(pages_chain; apply terms_loop_pages; pages_chain; exact H))
  end.
Qed.

(** C5.  The invoice is never one page: the contact line of the
    footer is drawn at [footerY + 30 = 742], the bottom margin itself,
    so its first line passes [page.maxY()] and PDFKit moves it to a new
    page, where it is the last operation and the only one. *)
Theorem invoice_contact_on_new_page readable date data doc :
  generateInvoicePDF readable date data = Some doc ->
  (1 <= doc_page doc)%nat /\
  exists ops, doc_ops doc =
    (ops ++ [DText (doc_page doc) Helvetica (of_Z 10) "#000000" contact_line (of_Z 50) margin
                   (width500 AlignCenter)])%list /\
    Forall (fun o => op_page o < doc_page doc)%nat ops.
Proof.
  unfold generateInvoicePDF. intros E.
  destruct (currency (inv_amountCents data)), (currency (gstCents (inv_amountCents data))),
    (currency (totalCents (inv_amountCents data))); try discriminate.
  injection E as <-.
  destruct (footer_last (body data s s0 s1 (header readable date (inv_id data) new_doc)))
    as (ops & Hops & Hall & Hp).
  { apply body_pages, header_pages, pages_ok_new_doc. }
  split; [exact Hp | exists ops; split; assumption].
Qed.

End Footer.
End Pages.

(** ** Concrete invoices, with the Helvetica metrics *)

Definition demo_invoice : InvoiceData :=
  mkInvoice "INV-2025-000123" "buyer@example.com" "ABCD-EFGH-IJKL" (of_Z 12345).

(** Forty digits: 222.4 points at size 10, wider than the column. *)
Definition id40 : string := "1234567890123456789012345678901234567890".

Lemma shrink_loop_largest_fit_witness :
  doc_font (fontSize (of_Z 10) (font Helvetica new_doc)) = Helvetica /\
  doc_size (fontSize (of_Z 10) (font Helvetica new_doc)) = of_Z 10 /\
  exists k, shrink_loop shrink_fuel id40 (of_Z 10) (fontSize (of_Z 10) (font Helvetica new_doc))
            = (of_Z k, fontSize (of_Z k) (fontSize (of_Z 10) (font Helvetica new_doc))) /\
    (6 <= k <= 10)%Z /\ (fits id40 k = true \/ k = 6%Z) /\ (forall j, (k < j <= 10)%Z -> fits id40 j = false).
Proof.
  split; [reflexivity | split; [reflexivity |]].
  apply shrink_loop_largest_fit; reflexivity.
Defined.

Lemma id_lines_split_witness :
  splitTextToSize = None /\ (6 <= 9 <= 10)%Z /\
  List.length (id_lines id40 (of_Z 9)) = ((String.length id40 + cpl_table 9 - 1) / cpl_table 9)%nat.
Proof.
  split; [reflexivity | split; [lia |]].
  exact (proj1 (proj2 (proj2 (id_lines_split id40 9 eq_refl ltac:(lia))))).
Defined.

Lemma invoice_date_below_id_witness :
  exists doc, generateInvoicePDF true "09/11/2026" demo_invoice = Some doc /\
    pos_val (id_height (inv_id demo_invoice)) 0 (2 ^ 51) /\
    exists pg col y, In (DText pg HelveticaBold (of_Z 10) col "Date:" rightColX y right_col) (doc_ops doc) /\
      ((y = dateLabelY (id_height (inv_id demo_invoice)) /\
        lt (add idY (id_height (inv_id demo_invoice))) y = true) \/ (y = margin /\ (0 < pg)%nat)).
Proof.
  destruct (generateInvoicePDF true "09/11/2026" demo_invoice) as [doc |] eqn:E;
    [| vm_compute in E; discriminate].
  assert (Hh : pos_val (id_height (inv_id demo_invoice)) 0 (2 ^ 51)).
  { exists 6507701461550366%Z, (-49)%Z. split; [vm_compute; reflexivity |].
    split; [lia | split; apply Z.leb_le; vm_compute; reflexivity]. }
  exists doc. split; [reflexivity | split; [exact Hh |]].
  exact (invoice_date_below_id true "09/11/2026" demo_invoice doc E Hh).
Defined.

Lemma invoice_prints_amounts_witness :
  inv_amountCents demo_invoice = of_Z 12345 /\ (0 <= 12345 < 2 ^ 51)%Z /\
  exists doc, generateInvoicePDF false "09/11/2026" demo_invoice = Some doc /\
    prints ("$" ++ fixed2 12345) doc /\ prints ("$" ++ fixed2 (half_up_tenth 12345)) doc /\
    prints ("$" ++ fixed2 (12345 + half_up_tenth 12345)) doc.
Proof.
  split; [reflexivity | split; [lia |]].
  apply invoice_prints_amounts; [reflexivity | lia].
Defined.

Lemma invoice_contact_on_new_page_witness :
  (1000 <= ascender Helvetica + line_gap Helvetica - descender Helvetica <= 2000)%Z /\
  exists doc, generateInvoicePDF true "09/11/2026" demo_invoice = Some doc /\ (1 <= doc_page doc)%nat.
Proof.
  assert (HL : (1000 <= ascender Helvetica + line_gap Helvetica - descender Helvetica <= 2000)%Z)
    by (vm_compute; split; discriminate).
  split; [exact HL |].
  destruct (generateInvoicePDF true "09/11/2026" demo_invoice) as [doc |] eqn:E;
    [| vm_compute in E; discriminate].
  exists doc. split; [reflexivity |].
  exact (proj1 (invoice_contact_on_new_page HL true "09/11/2026" demo_invoice doc E)).
Defined.

(** The specification asks that an invoice number wider than the column
    be wrapped into two lines or more.  Forty digits are 222.4 points
    wide at size 10; the loop stops at size 9, where they fit, and the
    fallback splits them into one line of at most 40 characters. *)
Example wide_id_one_line :
  fits id40 10 = false /\ id_font_size id40 = of_Z 9 /\ List.length (id_lines id40 (id_font_size id40)) = 1%nat.
Proof. vm_compute. repeat split; reflexivity. Qed.
