(* ===== verification/EmailVerifier.v ===== *)
(** The e-mail verifier of [src/server/services/email-verifier.js].

    [verifyEmail] lower-cases the address, rejects it without any lookup
    when it fails [EMAIL_RE], asks DNS for the MX records of the part
    after ['@'], sorts them by priority and classifies the address.  It
    is a program of the signature [dnsE]: one [ResolveMx] event whose
    answer is the record list or the resolver's error.  [verifyBatch]
    maps it over the input list ([Promise.all]: the lookups are issued in
    input order and the results come back in input order). *)

From Stdlib Require Import ZArith List String Ascii Bool Lia Sorting.Permutation Sorting.Sorted.
From S2P Require Import Prelude JsString.
Import ListNotations.
Open Scope string_scope.

(** ** Data *)

(** [{ priority, exchange }] as [dns.resolveMx] returns it. *)
Record MxRecord := mkMx { priority : Z; exchange : string }.

(** A JavaScript [Error]: [name] and [message]. *)
Record JsError := mkError { err_name : string; err_message : string }.

(** [String(err)] for an error object: [Error.prototype.toString]. *)
Definition error_to_string (e : JsError) : string :=
  if String.eqb (err_name e) EmptyString then err_message e
  else if String.eqb (err_message e) EmptyString then err_name e
  else err_name e ++ ": " ++ err_message e.

Inductive DnsAnswer :=
| DnsOk (records : list MxRecord)
| DnsErr (err : JsError).

Inductive dnsE : Type -> Type :=
| ResolveMx (domain : string) : dnsE DnsAnswer.

Inductive Risk := RiskLow | RiskMedium | RiskHigh | RiskUnknown.

Inductive Reason := InvalidFormat | NoMxRecords | DnsLookupFailed.

Definition reason_string (r : option Reason) : string :=
  match r with
  | None => "null"
  | Some InvalidFormat => "invalid_format"
  | Some NoMxRecords => "no_mx_records"
  | Some DnsLookupFailed => "dns_lookup_failed"
  end.

(** The [result] object of [verifyEmail]; [vr_error] is [_error]. *)
Record VerificationResult := mkResult {
  vr_email : string;
  isValid : bool;
  risk : Risk;
  reason : option Reason;
  mxRecords : list string;
  vr_error : option string
}.

(** ** [EMAIL_RE = /^[^\s@]+@[^\s@]+\.[^\s@]+$/i] *)

(** A character of the class [[^\s@]]. *)
Definition plain_char (c : ascii) : bool := negb (js_space c) && negb (Ascii.eqb c "@"%char).

Fixpoint all_plain (s : string) : bool :=
  match s with
  | EmptyString => true
  | String c r => plain_char c && all_plain r
  end.

(** A ['.'] after the first character with a character after it: the
    domain part matches [[^\s@]+\.[^\s@]+] when it is also [all_plain]. *)
Fixpoint dot_then_more (s : string) : bool :=
  match s with
  | String c r =>
      (Ascii.eqb c "."%char && negb (String.eqb r EmptyString)) || dot_then_more r
  | EmptyString => false
  end.

Definition domain_ok (r : string) : bool :=
  match r with
  | String _ rest => all_plain r && dot_then_more rest
  | EmptyString => false
  end.

(** The string before the first ['@'] and the rest after it. *)
Fixpoint break_at (c : ascii) (s : string) : option (string * string) :=
  match s with
  | EmptyString => None
  | String x r =>
      if Ascii.eqb x c then Some (EmptyString, r)
      else option_map (fun '(l, rest) => (String x l, rest)) (break_at c r)
  end.

(** [EMAIL_RE.test(s)]; the [i] flag changes nothing, the classes have
    no letters. *)
Definition email_re_test (s : string) : bool :=
  match break_at "@"%char s with
  | Some (l, r) => negb (String.eqb l EmptyString) && all_plain l && domain_ok r
  | None => false
  end.

(** The regular expression's language, as a proposition. *)
Definition plain (s : string) : Prop := s <> EmptyString /\ all_plain s = true.

Definition email_re_spec (s : string) : Prop :=
  exists l d t, s = (l ++ "@" ++ d ++ "." ++ t)%string /\ plain l /\ plain d /\ plain t.

(** ** Sorting the MX records *)

(** [mx.sort((a, b) => a.priority - b.priority)]: ECMAScript requires
    [Array.prototype.sort] to be stable, so the result is the stable
    sort by priority, which insertion keeps. *)
Fixpoint insert_mx (x : MxRecord) (l : list MxRecord) : list MxRecord :=
  match l with
  | [] => [x]
  | y :: ys => if (priority x <=? priority y)%Z then x :: y :: ys else y :: insert_mx x ys
  end.

Fixpoint sort_mx (l : list MxRecord) : list MxRecord :=
  match l with
  | [] => []
  | x :: xs => insert_mx x (sort_mx xs)
  end.

(** ** [verifyEmail] *)

(** [dns.resolveMx(undefined)] throws [ERR_INVALID_ARG_TYPE] before any
    lookup; the [catch] branch records its message. *)
Definition dquote : string := String (ascii_of_nat 34) EmptyString.

Definition undefined_hostname_error : JsError :=
  mkError "TypeError"
    ("The " ++ dquote ++ "hostname" ++ dquote ++
     " argument must be of type string. Received undefined").

(** [String(err && err.message ? err.message : err)] *)
Definition error_detail (e : JsError) : string :=
  if String.eqb (err_message e) EmptyString then error_to_string e else err_message e.

(** The input is a string or [undefined]/[null] ([None]). *)
Definition input_string (email : option string) : string :=
  match email with Some s => s | None => EmptyString end.

(** [!email] *)
Definition falsy_input (email : option string) : bool :=
  String.eqb (input_string email) EmptyString.

(** The initial [result] object, lines 8-14. *)
Definition initial_result (email : option string) : VerificationResult :=
  mkResult (toLowerCase (input_string email)) false RiskUnknown None [] None.

Definition set_class (r : VerificationResult) (v : bool) (k : Risk) (why : option Reason)
  : VerificationResult :=
  mkResult (vr_email r) v k why (mxRecords r) (vr_error r).

(** Lines 37-41: the [catch] branch. *)
Definition lookup_failed (r : VerificationResult) (e : JsError) : VerificationResult :=
  mkResult (vr_email r) false RiskMedium (Some DnsLookupFailed) (mxRecords r) (Some (error_detail e)).

(** Lines 27-35: records sorted, then the classification. *)
Definition classify_mx (r : VerificationResult) (mx : list MxRecord) : VerificationResult :=
  let r' := mkResult (vr_email r) (isValid r) (risk r) (reason r)
                     (map exchange (sort_mx mx)) (vr_error r) in
  if (0 <? List.length mx)%nat then set_class r' true RiskLow (reason r')
  else set_class r' false RiskMedium (Some NoMxRecords).

(** [verifyEmail(email)], lines 7-45. *)
Definition verifyEmail (email : option string) : prog dnsE VerificationResult :=
  let result := initial_result email in
  if falsy_input email || negb (email_re_test (input_string email)) then
    Ret (set_class result false RiskHigh (Some InvalidFormat))
  else
    match nth_error (split_char "@"%char (vr_email result)) 1 with
    | None => Ret (lookup_failed result undefined_hostname_error)
    | Some domain =>
        (ans <- trigger (ResolveMx domain) ;;
         match ans with
         | DnsOk mx => Ret (classify_mx result mx)
         | DnsErr e => Ret (lookup_failed result e)
         end)%nk
    end.

(** [verifyBatch(emails)], lines 47-50. *)
Definition verifyBatch (emails : option (list (option string)))
  : prog dnsE (list VerificationResult) :=
  mapM verifyEmail (match emails with Some l => l | None => [] end).

(** A resolver that answers every lookup from a table, without state. *)
Definition resolver_handler (resolve : string -> DnsAnswer) : handler dnsE unit :=
  fun X e s => match e in dnsE X return X * unit with
               | ResolveMx d => (resolve d, s)
               end.

#[export] Instance observe_dns : Observe dnsE (string * DnsAnswer) :=
  fun X e x => match e in dnsE X return X -> string * DnsAnswer with
               | ResolveMx d => fun a => (d, a)
               end x.

(** The result after the lookup has answered: lines 27-42. *)
Definition after_lookup (email : option string) (ans : DnsAnswer) : VerificationResult :=
  match ans with
  | DnsOk mx => classify_mx (initial_result email) mx
  | DnsErr e => lookup_failed (initial_result email) e
  end.

(** The result of an address that fails the format check. *)
Definition rejected (email : option string) : VerificationResult :=
  mkResult (toLowerCase (input_string email)) false RiskHigh (Some InvalidFormat) [] None.

(** What the spec says a result may be: [isValid] exactly for risk
    [low], never [unknown], [high] exactly for [invalid_format], and an
    invalid address always has a reason. *)
Definition consistent (r : VerificationResult) : Prop :=
  (isValid r = true <-> risk r = RiskLow) /\ risk r <> RiskUnknown /\
  (risk r = RiskHigh <-> reason r = Some InvalidFormat) /\
  (isValid r = false -> reason r <> None).

(** ** What the delivery service relies on

    [EmailService] calls the verifier and reads [isValid] and [risk].
    Its guarantees need only this contract: the result is [consistent];
    an address that fails the format check is rejected without any
    lookup; a valid result comes from exactly one lookup that answered
    with at least one record, for a well-formed address. *)
Class EmailVerification := {
  verify_email : option string -> prog dnsE VerificationResult;
  verify_consistent : forall St (h : handler dnsE St) e s,
    consistent (fst (run h (verify_email e) s));
  verify_rejects : forall St (h : handler dnsE St) e s,
    email_re_test (input_string e) = false ->
    runT h (verify_email e) s = (rejected e, s, []);
  verify_valid_lookup : forall St (h : handler dnsE St) e s r s'
      (tr : list (string * DnsAnswer)),
    runT h (verify_email e) s = (r, s', tr) -> isValid r = true ->
    email_re_test (input_string e) = true /\
    exists dom mx, mx <> [] /\ tr = [(dom, DnsOk mx)]
}.

(** ** The regular expression *)

Lemma all_plain_app a b : all_plain (a ++ b) = all_plain a && all_plain b.
Proof. induction a; simpl; [reflexivity |]. rewrite IHa. apply andb_assoc. Qed.

Lemma all_plain_no_at s : all_plain s = true -> has_char "@"%char s = false.
Proof.
  induction s as [| c r IH]; simpl; [reflexivity |].
  intros H. apply andb_true_iff in H as [Hc Hr]. unfold plain_char in Hc.
  apply andb_true_iff in Hc as [_ Hc]. apply negb_true_iff in Hc. rewrite Hc, IH; auto.
Qed.

Lemma break_at_app c l r :
  has_char c l = false -> break_at c (l ++ String c r) = Some (l, r).
Proof.
  induction l as [| x l IH]; simpl; intros H.
  - now rewrite Ascii.eqb_refl.
  - apply orb_false_iff in H as [Hx Hl]. rewrite Hx, (IH Hl). reflexivity.
Qed.

Lemma break_at_inv c s l r :
  break_at c s = Some (l, r) -> s = (l ++ String c r)%string /\ has_char c l = false.
Proof.
  revert l r. induction s as [| x s IH]; simpl; intros l r H; [discriminate |].
  destruct (Ascii.eqb x c) eqn:Hx.
  - injection H as <- <-. apply Ascii.eqb_eq in Hx. subst. auto.
  - destruct (break_at c s) as [[l' r'] |] eqn:E; simpl in H; [| discriminate].
    injection H as <- <-. destruct (IH l' r' eq_refl) as [-> Hl].
    split; [reflexivity |]. simpl. now rewrite Hx, Hl.
Qed.

Lemma dot_then_more_spec s :
  dot_then_more s = true <-> exists a t, s = (a ++ "." ++ t)%string /\ t <> EmptyString.
Proof.
  induction s as [| c r IH]; simpl.
  - split; [discriminate |]. intros (a & t & H & _). destruct a; discriminate.
  - rewrite orb_true_iff, andb_true_iff, negb_true_iff, IH. split.
    + intros [[Hc Hr] | (a & t & -> & Ht)].
      * apply Ascii.eqb_eq in Hc. subst c. exists EmptyString, r. split; [reflexivity |].
        intros ->. discriminate.
      * exists (String c a), t. auto.
    + intros (a & t & Hs & Ht). destruct a as [| c' a]; simpl in Hs; injection Hs as -> ->.
      * left. split; [apply Ascii.eqb_refl |]. destruct t; [congruence | reflexivity].
      * right. exists a, t. split; [reflexivity | assumption].
Qed.

Lemma domain_ok_spec r :
  domain_ok r = true <-> exists d t, r = (d ++ "." ++ t)%string /\ plain d /\ plain t.
Proof.
  unfold domain_ok, plain. destruct r as [| c rest].
  - split; [discriminate |]. intros (d & t & H & [Hd _] & _). destruct d; [congruence | discriminate].
  - rewrite andb_true_iff, dot_then_more_spec. split.
    + intros [Hp (a & t & -> & Ht)]. exists (String c a), t.
      change (String c (a ++ "." ++ t)) with (String c a ++ "." ++ t)%string in Hp.
      rewrite all_plain_app in Hp. simpl in Hp.
      apply andb_true_iff in Hp as [Ha Ht'].
      repeat split; auto; discriminate.
    + intros (d & t & Hr & [Hd Hdp] & [Ht Htp]). destruct d as [| c' d]; [congruence |].
      simpl in Hr. injection Hr as -> ->. split.
      * simpl. rewrite all_plain_app. simpl. simpl in Hdp.
        apply andb_true_iff in Hdp as [-> ->]. rewrite Htp. reflexivity.
      * exists d, t. split; [reflexivity | assumption].
Qed.

Lemma email_re_test_sound s : email_re_test s = true -> email_re_spec s.
Proof.
  unfold email_re_test, email_re_spec, plain.
  destruct (break_at "@"%char s) as [[l r] |] eqn:E; [| discriminate].
  apply break_at_inv in E as [-> _].
  intros H. apply andb_true_iff in H as [H Hr]. apply andb_true_iff in H as [Hl Hlp].
  apply domain_ok_spec in Hr as (d & t & -> & Hd & Ht).
  apply negb_true_iff, String.eqb_neq in Hl. destruct Hd, Ht.
  exists l, d, t. repeat split; auto.
Qed.

Lemma email_re_test_complete s : email_re_spec s -> email_re_test s = true.
Proof.
  unfold email_re_test, email_re_spec, plain.
  intros (l & d & t & -> & [Hl Hlp] & Hd & Ht).
  change ("@" ++ d ++ "." ++ t)%string with (String "@" (d ++ "." ++ t)).
  rewrite break_at_app by (apply all_plain_no_at; exact Hlp).
  rewrite Hlp. destruct l; [congruence |]. simpl andb.
  apply domain_ok_spec. exists d, t. split; [reflexivity | split; assumption].
Qed.

(** ** Lower-casing keeps the character classes *)

Lemma lower_char_at c : Ascii.eqb (lower_char c) "@"%char = Ascii.eqb c "@"%char.
Proof. destruct c as [[|] [|] [|] [|] [|] [|] [|] [|]]; reflexivity. Qed.

Lemma plain_char_lower c : plain_char (lower_char c) = plain_char c.
Proof. destruct c as [[|] [|] [|] [|] [|] [|] [|] [|]]; reflexivity. Qed.

Lemma has_char_at_lower s : has_char "@"%char (toLowerCase s) = has_char "@"%char s.
Proof. induction s; simpl; [reflexivity |]. now rewrite lower_char_at, IHs. Qed.

Lemma all_plain_lower s : all_plain (toLowerCase s) = all_plain s.
Proof. induction s; simpl; [reflexivity |]. now rewrite plain_char_lower, IHs. Qed.

Lemma lower_char_dot c : Ascii.eqb (lower_char c) "."%char = Ascii.eqb c "."%char.
Proof. destruct c as [[|] [|] [|] [|] [|] [|] [|] [|]]; reflexivity. Qed.

Lemma dot_then_more_lower s : dot_then_more (toLowerCase s) = dot_then_more s.
Proof.
  induction s as [| c r IH]; simpl; [reflexivity |].
  rewrite lower_char_dot, IH. destruct r; reflexivity.
Qed.

Lemma domain_ok_lower r : domain_ok (toLowerCase r) = domain_ok r.
Proof.
  destruct r as [| c r]; [reflexivity |]. unfold domain_ok.
  rewrite <- (all_plain_lower (String c r)), <- dot_then_more_lower. reflexivity.
Qed.

Lemma break_at_lower s :
  break_at "@"%char (toLowerCase s) =
  option_map (fun '(l, r) => (toLowerCase l, toLowerCase r)) (break_at "@"%char s).
Proof.
  induction s as [| c s IH]; simpl; [reflexivity |].
  rewrite lower_char_at. destruct (Ascii.eqb c "@"%char); [reflexivity |].
  rewrite IH. destruct (break_at "@"%char s) as [[l r] |]; reflexivity.
Qed.

(** C14.  The matcher decides exactly the language of
    [EMAIL_RE]: one or more characters other than white space and ['@'],
    an ['@'], then such characters with a ['.'] that has at least one
    before and one after it; and, the class having no letters, the [i]
    flag changes nothing: lower-casing an address does not change the
    answer. *)
Theorem email_re_test_spec s :
  (email_re_test s = true <-> email_re_spec s) /\ email_re_test (toLowerCase s) = email_re_test s.
Proof.
  split; [split; [apply email_re_test_sound | apply email_re_test_complete] |].
  unfold email_re_test. rewrite break_at_lower.
  destruct (break_at "@"%char s) as [[l r] |]; simpl; [| reflexivity].
  rewrite all_plain_lower, domain_ok_lower. destruct l; reflexivity.
Qed.

(** A well-formed address splits at its only ['@']. *)
Lemma email_re_test_break s :
  email_re_test s = true ->
  exists l r, s = (l ++ String "@" r)%string /\ has_char "@"%char l = false /\
              has_char "@"%char r = false.
Proof.
  unfold email_re_test. destruct (break_at "@"%char s) as [[l r] |] eqn:E; [| discriminate].
  apply break_at_inv in E as [-> Hl]. intros H.
  apply andb_true_iff in H as [_ Hr]. exists l, r. repeat split; auto.
  unfold domain_ok in Hr. destruct r; [reflexivity |].
  apply andb_true_iff in Hr as [Hr _]. now apply all_plain_no_at.
Qed.

(** The lookup is for the lower-cased text after the ['@']. *)
Lemma split_lower_at l r :
  has_char "@"%char l = false -> has_char "@"%char r = false ->
  nth_error (split_char "@"%char (toLowerCase (l ++ String "@" r))) 1 = Some (toLowerCase r).
Proof.
  intros Hl Hr. rewrite toLowerCase_app. simpl.
  replace (lower_char "@"%char) with "@"%char by reflexivity.
  rewrite split_char_app by (now rewrite has_char_at_lower).
  rewrite split_char_no_sep by (now rewrite has_char_at_lower). reflexivity.
Qed.

(** ** The stable sort by priority *)

Definition prio_le (a b : MxRecord) : Prop := (priority a <= priority b)%Z.

Lemma insert_mx_perm x l : Permutation (insert_mx x l) (x :: l).
Proof.
  induction l as [| y l IH]; simpl; [reflexivity |].
  destruct (Z.leb_spec (priority x) (priority y)); [reflexivity |].
  rewrite IH. apply perm_swap.
Qed.

Lemma sort_mx_perm l : Permutation (sort_mx l) l.
Proof.
  induction l as [| x l IH]; simpl; [reflexivity |].
  rewrite insert_mx_perm, IH. reflexivity.
Qed.

Lemma insert_mx_sorted x l : Sorted prio_le l -> Sorted prio_le (insert_mx x l).
Proof.
  induction 1 as [| y l Hl IH Hhd]; simpl; [repeat constructor |].
  unfold prio_le in *. destruct (Z.leb_spec (priority x) (priority y)).
  - constructor; [constructor; assumption | constructor; unfold prio_le; assumption].
  - constructor; [exact IH |].
    destruct l as [| z l]; simpl; [constructor; unfold prio_le; lia |].
    inversion Hhd; subst. destruct (Z.leb_spec (priority x) (priority z));
      constructor; unfold prio_le; lia.
Qed.

Lemma sort_mx_sorted l : Sorted prio_le (sort_mx l).
Proof. induction l; simpl; [constructor | now apply insert_mx_sorted]. Qed.

Definition same_prio (p : Z) (r : MxRecord) : bool := (priority r =? p)%Z.

Lemma insert_mx_filter p x l :
  filter (same_prio p) (insert_mx x l) = filter (same_prio p) (x :: l).
Proof.
  induction l as [| y l IH]; simpl; [reflexivity |].
  destruct (Z.leb_spec (priority x) (priority y)); [reflexivity |].
  simpl. rewrite IH. simpl. unfold same_prio.
  destruct (Z.eqb_spec (priority x) p), (Z.eqb_spec (priority y) p); try lia; reflexivity.
Qed.

(** Records of equal priority keep their relative order. *)
Lemma sort_mx_stable p l : filter (same_prio p) (sort_mx l) = filter (same_prio p) l.
Proof.
  induction l as [| x l IH]; simpl; [reflexivity |].
  rewrite insert_mx_filter. simpl. now rewrite IH.
Qed.

(** ** [verifyEmail] *)

Section Verify.
Context {St : Type} (h : handler dnsE St).

(** An address that fails [EMAIL_RE] (or is empty) is
    classified high risk with reason [invalid_format] and no DNS lookup
    is made: the handler is never called and its state is unchanged. *)
Theorem verifyEmail_invalid_no_lookup email s :
  email_re_test (input_string email) = false ->
  runT h (verifyEmail email) s = (rejected email, s, []).
Proof.
  intros Hre. unfold verifyEmail. rewrite Hre, orb_true_r. reflexivity.
Qed.

(** A well-formed address makes exactly one lookup, for the lower-cased
    text after its ['@'], and its result is [after_lookup]. *)
Lemma verifyEmail_lookup email l r s :
  input_string email = (l ++ String "@" r)%string ->
  has_char "@"%char l = false -> has_char "@"%char r = false ->
  email_re_test (input_string email) = true ->
  runT h (verifyEmail email) s =
  let '(ans, s') := h _ (ResolveMx (toLowerCase r)) s in
  (after_lookup email ans, s', [(toLowerCase r, ans)]).
Proof.
  intros Hin Hl Hr Hre. unfold verifyEmail. rewrite Hre.
  assert (falsy_input email = false) as ->.
  { unfold falsy_input. rewrite Hin. destruct l; reflexivity. }
  simpl orb. cbv iota.
  unfold initial_result at 1. cbn [vr_email]. rewrite Hin, split_lower_at by assumption.
  simpl. destruct (h DnsAnswer (ResolveMx (toLowerCase r)) s) as [ans s'].
  destruct ans; reflexivity.
Qed.

(** C13.  For a well-formed address [l@d.t], [verifyEmail]
    queries the MX records of the lower-cased [d.t] once and returns:
    valid and low risk with the exchanges sorted by priority when there
    are records; invalid, medium risk, [no_mx_records] when the answer
    is empty; invalid, medium risk, [dns_lookup_failed] with the error
    text when the lookup fails. *)
Theorem verifyEmail_classifies email l d t s :
  input_string email = (l ++ "@" ++ d ++ "." ++ t)%string ->
  plain l -> plain d -> plain t ->
  let dom := toLowerCase (d ++ "." ++ t) in
  let lower := toLowerCase (input_string email) in
  runT h (verifyEmail email) s =
  let '(ans, s') := h _ (ResolveMx dom) s in
  (match ans with
   | DnsOk [] => mkResult lower false RiskMedium (Some NoMxRecords) [] None
   | DnsOk mx => mkResult lower true RiskLow None (map exchange (sort_mx mx)) None
   | DnsErr e => mkResult lower false RiskMedium (Some DnsLookupFailed) [] (Some (error_detail e))
   end, s', [(dom, ans)]).
Proof.
  intros Hin Hl Hd Ht dom lower.
  assert (Hre : email_re_test (input_string email) = true)
    by (apply email_re_test_complete; exists l, d, t; auto).
  assert (Hdt : has_char "@"%char (d ++ "." ++ t) = false).
  { apply all_plain_no_at. rewrite all_plain_app. simpl.
    destruct Hd as [_ ->], Ht as [_ ->]. reflexivity. }
  rewrite (verifyEmail_lookup email l (d ++ "." ++ t)) by
    (try exact Hin; try exact Hdt; try exact Hre; apply all_plain_no_at, Hl).
  fold dom. destruct (h DnsAnswer (ResolveMx dom) s) as [ans s'].
  destruct ans as [[| x mx] | e]; reflexivity.
Qed.

Lemma after_lookup_consistent email ans : consistent (after_lookup email ans).
Proof.
  unfold consistent. destruct ans as [[| x mx] | e]; simpl;
    repeat split; intros; try discriminate; try congruence; reflexivity.
Qed.

(** Whatever the resolver answers, the result of [verifyEmail] is
    consistent: [isValid] iff risk [low], risk never
    [unknown], risk [high] iff reason [invalid_format], and an invalid
    address always carries a reason. *)
Theorem verifyEmail_consistent email s : consistent (fst (run h (verifyEmail email) s)).
Proof.
  destruct (email_re_test (input_string email)) eqn:Hre.
  - destruct (email_re_test_break _ Hre) as (l & r & Hin & Hl & Hr).
    rewrite <- (runT_run h (O := string * DnsAnswer)), (verifyEmail_lookup email l r) by assumption.
    destruct (h DnsAnswer (ResolveMx (toLowerCase r)) s) as [ans s'].
    apply after_lookup_consistent.
  - rewrite <- (runT_run h (O := string * DnsAnswer)), verifyEmail_invalid_no_lookup by assumption.
    unfold consistent; simpl. repeat split; intros; congruence.
Qed.

(** C12.  Whatever the resolver answers, a run of [verifyEmail]
    returns a consistent result ([isValid] iff risk [low], risk never
    [unknown], risk [high] iff reason [invalid_format], an invalid
    address has a reason), the address it reports is the input
    lower-cased, it is valid exactly when it lists an MX exchange, and
    it makes at most one lookup, leaving the state unchanged when it
    makes none. *)
Theorem verifyEmail_invariant email s r s' tr :
  runT h (verifyEmail email) s = (r, s', tr) ->
  consistent r /\ vr_email r = toLowerCase (input_string email) /\
  (isValid r = true <-> mxRecords r <> []) /\ (tr = [] -> s' = s) /\ (List.length tr <= 1)%nat.
Proof.
  intros E. destruct (email_re_test (input_string email)) eqn:Hre.
  - destruct (email_re_test_break _ Hre) as (l & rr & Hin & Hl & Hr).
    rewrite (verifyEmail_lookup email l rr) in E by assumption.
    destruct (h DnsAnswer (ResolveMx (toLowerCase rr)) s) as [ans s1].
    injection E as <- <- <-.
    split; [apply after_lookup_consistent |]. split; [destruct ans as [[| x mx] | e]; reflexivity |].
    split; [| split; [discriminate | simpl; lia]].
    destruct ans as [[| x mx] | e]; simpl; [| | split; [discriminate | congruence]].
    + split; [discriminate | congruence].
    + split; [| reflexivity]. intros _ Hnil. apply map_eq_nil in Hnil.
      apply (@Permutation_nil_cons _ mx x). rewrite <- Hnil.
      exact (sort_mx_perm (x :: mx)).
  - rewrite verifyEmail_invalid_no_lookup in E by assumption. injection E as <- <- <-.
    split; [| split; [reflexivity | split; [split; [discriminate | intros Hn; contradiction (Hn eq_refl)] | split; [auto | simpl; lia]]]].
    unfold consistent; simpl. repeat split; intros; congruence.
Qed.

End Verify.

(** C19.  The exchanges [verifyEmail] reports are those of the
    records sorted by ascending priority: the sort is ordered, loses and
    adds no record, and keeps records of equal priority in the
    resolver's order. *)
Theorem sort_mx_sorted_stable mx :
  Sorted prio_le (sort_mx mx) /\ Permutation (sort_mx mx) mx /\
  (forall p, filter (same_prio p) (sort_mx mx) = filter (same_prio p) mx).
Proof.
  split; [apply sort_mx_sorted | split; [apply sort_mx_perm | intros p; apply sort_mx_stable]].
Qed.

(** ** [verifyBatch] *)

Definition lookups_of (email : option string) : nat :=
  if email_re_test (input_string email) then 1 else 0.

Lemma verifyEmail_lookup_count {St} (h : handler dnsE St) email s :
  List.length (snd (runT h (verifyEmail email) s)) = lookups_of email.
Proof.
  unfold lookups_of. destruct (email_re_test (input_string email)) eqn:Hre.
  - destruct (email_re_test_break _ Hre) as (l & r & Hin & Hl & Hr).
    rewrite (verifyEmail_lookup h email l r) by assumption.
    destruct (h DnsAnswer (ResolveMx (toLowerCase r)) s). reflexivity.
  - rewrite verifyEmail_invalid_no_lookup by assumption. reflexivity.
Qed.

Lemma verifyBatch_run (resolve : string -> DnsAnswer) emails :
  let h := resolver_handler resolve in
  runT h (verifyBatch (Some emails)) tt =
  (map (fun e => fst (run h (verifyEmail e) tt)) emails, tt,
   flat_map (fun e => snd (runT h (verifyEmail e) tt)) emails).
Proof.
  intros h. unfold verifyBatch. induction emails as [| e emails IH]; [reflexivity |].
  cbn [mapM map flat_map]. rewrite runT_bind. rewrite <- (runT_run h (O := string * DnsAnswer)).
  destruct (runT h (verifyEmail e) tt) as [[r []] tr] eqn:E.
  rewrite runT_bind, IH. simpl. rewrite app_nil_r. reflexivity.
Qed.

(** C20.  Against a resolver without state, [verifyBatch] returns
    the result of [verifyEmail] for every address, in input order, and
    the lookups are those of the addresses in input order: one lookup
    per well-formed address, none for the others. *)
Theorem verifyBatch_pointwise (resolve : string -> DnsAnswer) emails :
  let h := resolver_handler resolve in
  runT h (verifyBatch (Some emails)) tt =
  (map (fun e => fst (run h (verifyEmail e) tt)) emails, tt,
   flat_map (fun e => snd (runT h (verifyEmail e) tt)) emails) /\
  List.length (snd (runT h (verifyBatch (Some emails)) tt))
  = List.length (filter (fun e => email_re_test (input_string e)) emails).
Proof.
  intros h. split; [apply verifyBatch_run |].
  unfold h. rewrite verifyBatch_run. simpl snd. induction emails as [| e emails IH]; [reflexivity |].
  simpl flat_map. rewrite length_app, verifyEmail_lookup_count, IH.
  unfold lookups_of. simpl filter. destruct (email_re_test (input_string e)); reflexivity.
Qed.

(** ** Witnesses: the examples of the specification *)

(** The resolver of the specification's examples. *)
Definition example_resolver (d : string) : DnsAnswer :=
  if String.eqb d "example.com" then DnsOk [mkMx 20 "b.mx"; mkMx 10 "a.mx"]
  else if String.eqb d "domain-with-no-mx.example" then DnsOk []
  else DnsErr (mkError "Error" "queryMx ENOTFOUND").

Lemma verifyEmail_invariant_witness :
  let '(r, s', tr) := runT (resolver_handler example_resolver) (verifyEmail (Some "User@Example.com")) tt in
  consistent r /\ vr_email r = "user@example.com" /\ mxRecords r = ["a.mx"; "b.mx"].
Proof.
  assert (E : runT (resolver_handler example_resolver) (verifyEmail (Some "User@Example.com")) tt =
              (mkResult "user@example.com" true RiskLow None ["a.mx"; "b.mx"] None, tt,
               [("example.com", DnsOk [mkMx 20 "b.mx"; mkMx 10 "a.mx"])])) by (vm_compute; reflexivity).
  rewrite E. destruct (verifyEmail_invariant _ _ _ _ _ _ E) as (Hc & Hl & _).
  split; [exact Hc | split; [exact Hl | reflexivity]].
Defined.

Lemma verifyEmail_classifies_witness :
  input_string (Some "User@Example.com") = ("User" ++ "@" ++ "Example" ++ "." ++ "com")%string /\
  plain "User" /\ plain "Example" /\ plain "com" /\
  runT (resolver_handler example_resolver) (verifyEmail (Some "User@Example.com")) tt
  = (mkResult "user@example.com" true RiskLow None ["a.mx"; "b.mx"] None, tt,
     [("example.com", DnsOk [mkMx 20 "b.mx"; mkMx 10 "a.mx"])]).
Proof.
  assert (Hp : forall s, s <> EmptyString -> all_plain s = true -> plain s) by (split; auto).
  split; [reflexivity |].
  split; [apply Hp; [discriminate | reflexivity] |].
  split; [apply Hp; [discriminate | reflexivity] |].
  split; [apply Hp; [discriminate | reflexivity] |].
  rewrite (verifyEmail_classifies (resolver_handler example_resolver) _ "User" "Example" "com");
    [reflexivity | reflexivity | apply Hp .. ]; first [discriminate | reflexivity].
Defined.

(** ** [verifyEmail] meets the contract *)

Lemma verifyEmail_valid_lookup {St} (h : handler dnsE St) e s r s'
  (tr : list (string * DnsAnswer)) :
  runT h (verifyEmail e) s = (r, s', tr) -> isValid r = true ->
  email_re_test (input_string e) = true /\
  exists dom mx, mx <> [] /\ tr = [(dom, DnsOk mx)].
Proof.
  intros Hrun Hv. destruct (email_re_test (input_string e)) eqn:Hre.
  - split; [reflexivity |].
    destruct (email_re_test_break _ Hre) as (l & rr & Hin & Hl & Hr).
    rewrite (verifyEmail_lookup h e l rr) in Hrun by assumption.
    destruct (h DnsAnswer (ResolveMx (toLowerCase rr)) s) as [ans s1].
    injection Hrun as <- <- <-.
    destruct ans as [[| x mx] | err]; simpl in Hv; try discriminate.
    exists (toLowerCase rr), (x :: mx). split; [discriminate | reflexivity].
  - rewrite verifyEmail_invalid_no_lookup in Hrun by assumption.
    injection Hrun as <- _ _. discriminate.
Qed.

#[export] Instance verifyEmail_contract : EmailVerification := {|
  verify_email := verifyEmail;
  verify_consistent := fun St h e s => verifyEmail_consistent h e s;
  verify_rejects := fun St h e s H => verifyEmail_invalid_no_lookup h e s H;
  verify_valid_lookup := fun St h e s r s' tr => verifyEmail_valid_lookup h e s r s' tr
|}.
