(* ===== verification/EmailService.v ===== *)
(** The delivery service of [src/server/services/emailService.js].

    [EmailService] holds a verifier and a transporter built once from the
    environment ([createTransporter]).  [verifyAndSend] verifies the
    recipient, throws for an invalid or high-risk address, returns a
    "not sent" outcome when no transporter is configured, and otherwise
    hands the mail to the transport.  [verifyAndSendBulk] verifies all
    addresses with [verifyBatch], then delivers to each recipient in
    turn, recording a per-recipient status and never aborting.

    The service is written against the verifier's contract
    [EmailVerification]; its programs run in the signature
    [dnsE +' mailE +' logE]: DNS lookups, SMTP sends and console lines.
    A thrown [Error] is the left value of a sum. *)

From Stdlib Require Import ZArith List String Ascii Bool Lia.
From S2P Require Import Prelude JsString JsNumber EmailVerifier.
Import ListNotations.
Open Scope string_scope.

(** ** Environment and transport *)

(** [process.env]: the value of each variable, if set. *)
Definition Env := string -> option string.

(** JavaScript truthiness of an optional string. *)
Definition truthy_str (v : option string) : bool :=
  match v with Some s => negb (String.eqb s EmptyString) | None => false end.

(** [ToString] of an optional string: [undefined] when unset. *)
Definition env_string (v : option string) : string :=
  match v with Some s => s | None => undefined_string end.

(** [a || b] on optional strings. *)
Definition or_str (a b : option string) : option string := if truthy_str a then a else b.

(** The options passed to [nodemailer.createTransport]. *)
Record SmtpConfig := mkSmtp {
  smtp_host : string;
  smtp_port : jsnum;
  smtp_secure : bool;
  smtp_auth : option (string * option string)
}.

Record MailOptions := mkMail {
  mail_from : option string;
  mail_to : string;
  mail_subject : string;
  mail_html : string;
  mail_attachments : list string
}.

(** What [sendMail] resolves with, or the error it rejects with. *)
Inductive SendOutcome :=
| SendOk (messageId : option string)
| SendFail (err : JsError).

Inductive mailE : Type -> Type :=
| SendMail (cfg : SmtpConfig) (m : MailOptions) : mailE SendOutcome.

Inductive logE : Type -> Type :=
| Log (line : string) : logE unit.

Definition svcE := dnsE +' mailE +' logE.

Definition lookup_ev (d : string) : prog svcE DnsAnswer := trigger (inl1 (ResolveMx d)).
Definition send_ev (cfg : SmtpConfig) (m : MailOptions) : prog svcE SendOutcome :=
  trigger (inr1 (inl1 (SendMail cfg m))).
Definition log_ev (line : string) : prog svcE unit := trigger (inr1 (inr1 (Log line))).

(** What a trace of the service records. *)
Inductive SvcObs :=
| OLookup (domain : string) (answer : DnsAnswer)
| OSend (cfg : SmtpConfig) (m : MailOptions) (outcome : SendOutcome)
| OLog (line : string).

#[export] Instance observe_svc : Observe svcE SvcObs :=
  fun X e x =>
    match e with
    | inl1 d => match d in dnsE X return X -> SvcObs with
                | ResolveMx dom => fun a => OLookup dom a
                end
    | inr1 (inl1 m) => match m in mailE X return X -> SvcObs with
                       | SendMail cfg mo => fun o => OSend cfg mo o
                       end
    | inr1 (inr1 l) => match l in logE X return X -> SvcObs with
                       | Log line => fun _ => OLog line
                       end
    end x.

(** [createTransporter()], lines 10-27: no transporter without
    [SMTP_HOST]; the port is [parseInt(SMTP_PORT, 10) || 587].
    [nodemailer.createTransport] only stores its options, so the [catch]
    branch is not reached. *)
Definition createTransporter (env : Env) : prog svcE (option SmtpConfig) :=
  if negb (truthy_str (env "SMTP_HOST")) then
    (log_ev "SMTP not configured - emails will not be sent" ;; Ret None)%nk
  else
    let p := parseInt10 (env_string (env "SMTP_PORT")) in
    Ret (Some (mkSmtp (env_string (env "SMTP_HOST"))
                      (if truthy p then p else of_Z 587)
                      (match env "SMTP_SECURE" with Some v => String.eqb v "true" | None => false end)
                      (if truthy_str (env "SMTP_USER")
                       then Some (env_string (env "SMTP_USER"), env "SMTP_PASS") else None))).

(** The service object: its transporter (the verifier has no state). *)
Record EmailServiceState := mkService { transporter : option SmtpConfig }.

(** [new EmailService()] *)
Definition newEmailService (env : Env) : prog svcE EmailServiceState :=
  (t <- createTransporter env ;; Ret (mkService t))%nk.

Record SendResult := mkSendResult {
  sr_verified : bool;
  sr_sent : bool;
  sr_verification : VerificationResult;
  sr_messageId : option string
}.

Inductive BulkStatus :=
| BulkSuccess (result : SendResult)
| BulkSkipped (why : string) (verification : VerificationResult)
| BulkError (message : string).

Record Recipient := mkRecipient { rc_email : string; rc_subject : string; rc_content : string }.

Definition risk_high (k : Risk) : bool := match k with RiskHigh => true | _ => false end.

Definition js_error (msg : string) : JsError := mkError "Error" msg.

(** [verification.isValid] on [undefined] *)
Definition undefined_verification_error : string :=
  "Cannot read properties of undefined (reading 'isValid')".

Section Service.
Context `{V : EmailVerification}.

Definition verify_svc (e : option string) : prog svcE VerificationResult :=
  embed (fun X d => inl1 d) (verify_email e).

(** Lines 32-62 of [verifyAndSend]: what follows the verification. *)
Definition deliver (svc : EmailServiceState) (env : Env) (to subject content : string)
  (verification : VerificationResult) : prog svcE (JsError + SendResult) :=
  if negb (isValid verification) then
    Ret (inl (js_error ("Invalid email address: " ++ to ++ " (" ++
                        reason_string (reason verification) ++ ")")))
  else if risk_high (risk verification) then
    Ret (inl (js_error ("High-risk email address: " ++ to)))
  else
    match transporter svc with
    | None =>
        (log_ev ("Email would be sent to: " ++ to) ;;
         Ret (inr (mkSendResult true false verification None)))%nk
    | Some cfg =>
        (info <- send_ev cfg (mkMail (or_str (env "EMAIL_FROM") (env "SMTP_USER")) to subject content []) ;;
         match info with
         | SendOk mid => Ret (inr (mkSendResult true true verification mid))
         | SendFail err => Ret (inl (js_error ("Failed to send email: " ++ err_message err)))
         end)%nk
    end.

(** [verifyAndSend(to, subject, content)], lines 29-63. *)
Definition verifyAndSend (svc : EmailServiceState) (env : Env) (to subject content : string)
  : prog svcE (JsError + SendResult) :=
  (verification <- verify_svc (Some to) ;; deliver svc env to subject content verification)%nk.

(** One iteration of the loop of [verifyAndSendBulk], lines 71-83: its
    [try] turns a throw into an [error] entry. *)
Definition bulk_item (svc : EmailServiceState) (env : Env) (r : Recipient)
  (verification : option VerificationResult) : prog svcE BulkStatus :=
  match verification with
  | None => Ret (BulkError undefined_verification_error)
  | Some v =>
      if isValid v && negb (risk_high (risk v)) then
        (res <- verifyAndSend svc env (rc_email r) (rc_subject r) (rc_content r) ;;
         match res with
         | inr ok => Ret (BulkSuccess ok)
         | inl err => Ret (BulkError (err_message err))
         end)%nk
      else Ret (BulkSkipped "Invalid or high-risk email" v)
  end.

Fixpoint bulk_loop (svc : EmailServiceState) (env : Env) (rs : list Recipient)
  (vs : list VerificationResult) : prog svcE (list (string * BulkStatus)) :=
  match rs with
  | [] => Ret []
  | r :: rs' =>
      (item <- bulk_item svc env r (hd_error vs) ;;
       rest <- bulk_loop svc env rs' (tl vs) ;;
       Ret ((rc_email r, item) :: rest))%nk
  end.

(** [verifyAndSendBulk(recipients)], lines 65-86. *)
Definition verifyAndSendBulk (svc : EmailServiceState) (env : Env) (rs : list Recipient)
  : prog svcE (list (string * BulkStatus)) :=
  (verifications <- mapM verify_svc (map (fun r => Some (rc_email r)) rs) ;;
   bulk_loop svc env rs verifications)%nk.

End Service.

(** The observation of a lookup inside the service's trace. *)
Definition lookup_obs (o : string * DnsAnswer) : SvcObs := OLookup (fst o) (snd o).

(** The DNS part of a service handler. *)
Definition dns_part {St} (h : handler svcE St) : handler dnsE St := fun X e => h X (inl1 e).

Definition is_send (o : SvcObs) : bool := match o with OSend _ _ _ => true | _ => false end.

(** Every mail in a trace goes to a well-formed address and comes right
    after a lookup that answered with at least one MX record. *)
Definition sends_verified (tr : list SvcObs) : Prop :=
  forall pre cfg m o post, tr = (pre ++ OSend cfg m o :: post)%list ->
  email_re_test (mail_to m) = true /\
  exists pre' dom mx, mx <> [] /\ pre = (pre' ++ [OLookup dom (DnsOk mx)])%list.

(** ** Traces of the service *)

Lemma lookups_no_send (tr : list (string * DnsAnswer)) cfg m o :
  ~ In (OSend cfg m o) (map lookup_obs tr).
Proof. intros H. apply in_map_iff in H as ([d a] & Heq & _). discriminate. Qed.

Lemma sends_verified_lookups (tr : list (string * DnsAnswer)) : sends_verified (map lookup_obs tr).
Proof.
  intros pre cfg m o post H. exfalso. apply (lookups_no_send tr cfg m o).
  rewrite H. apply in_or_app. right. left. reflexivity.
Qed.

Lemma sends_verified_no_send tr : (forall cfg m o, ~ In (OSend cfg m o) tr) -> sends_verified tr.
Proof.
  intros Hn pre cfg m o post H. exfalso. apply (Hn cfg m o).
  rewrite H. apply in_or_app. right. left. reflexivity.
Qed.

Lemma sends_verified_app a b : sends_verified a -> sends_verified b -> sends_verified (a ++ b)%list.
Proof.
  intros Ha Hb pre cfg m o post H.
  apply app_eq_app in H as [l [[-> Hl] | [-> Hl]]].
  - destruct l as [| x l].
    + simpl in Hl. destruct (Hb [] cfg m o post (eq_sym Hl)) as [_ (pre' & dom & mx & _ & Hp)].
      destruct pre'; discriminate.
    + injection Hl as <- Hl. destruct (Ha pre cfg m o l eq_refl) as [Hre Hp]. auto.
  - destruct (Hb l cfg m o post Hl) as [Hre (pre' & dom & mx & Hmx & ->)].
    split; [exact Hre |]. exists (a ++ pre')%list, dom, mx. split; [exact Hmx |].
    now rewrite app_assoc.
Qed.

Lemma sends_verified_pair dom mx cfg m o :
  mx <> [] -> email_re_test (mail_to m) = true ->
  sends_verified [OLookup dom (DnsOk mx); OSend cfg m o].
Proof.
  intros Hmx Hre pre cfg' m' o' post H.
  destruct pre as [| x [| y pre]]; simpl in H; try discriminate.
  - injection H as Hx Hc Hm Ho Hp. subst. split; [exact Hre |]. exists [], dom, mx. auto.
  - injection H as _ _ H. destruct pre; discriminate.
Qed.

Section ServiceProofs.
Context `{V : EmailVerification} {St : Type} (h : handler svcE St).

Lemma runT_verify_svc e s :
  runT h (verify_svc e) s =
  let '(r, s', tr) := runT (dns_part h) (verify_email e) s in (r, s', map lookup_obs tr).
Proof.
  unfold verify_svc. apply (runT_embed (fun X d => inl1 d) lookup_obs h).
  intros X e0 x. destruct e0. reflexivity.
Qed.

(** [verifyAndSend] is the verification followed by [deliver]. *)
Lemma verifyAndSend_trace svc env to subject content s :
  runT h (verifyAndSend svc env to subject content) s =
  let '(v, s1, tr1) := runT (dns_part h) (verify_email (Some to)) s in
  let '(res, s2, tr2) := runT h (deliver svc env to subject content v) s1 in
  (res, s2, map lookup_obs tr1 ++ tr2)%list.
Proof.
  unfold verifyAndSend. rewrite runT_bind, runT_verify_svc.
  destruct (runT (dns_part h) (verify_email (Some to)) s) as [[v s1] tr1]. reflexivity.
Qed.

(** The verification a run of [verify_email] returns is consistent. *)
Lemma verify_run_consistent e s v s1 (tr1 : list (string * DnsAnswer)) :
  runT (dns_part h) (verify_email e) s = (v, s1, tr1) -> consistent v.
Proof.
  intros E. pose proof (verify_consistent _ (dns_part h) e s) as Hc.
  rewrite <- (runT_run (dns_part h) (O := string * DnsAnswer)), E in Hc. exact Hc.
Qed.

Lemma deliver_invalid svc env to subject content v :
  isValid v = false ->
  deliver svc env to subject content v =
  Ret (inl (js_error ("Invalid email address: " ++ to ++ " (" ++ reason_string (reason v) ++ ")"))).
Proof. intros Hv. unfold deliver. now rewrite Hv. Qed.

Lemma deliver_valid_not_high v :
  consistent v -> isValid v = true -> risk_high (risk v) = false.
Proof. intros [[Hl _] _] Hv. now rewrite (Hl Hv). Qed.

(** The three ways [deliver] ends, for a consistent verification. *)
Lemma deliver_run svc env to subject content v s1 res s2 tr2 :
  consistent v ->
  runT h (deliver svc env to subject content v) s1 = (res, s2, tr2) ->
  (isValid v = false /\ s2 = s1 /\ tr2 = [] /\
   res = inl (js_error ("Invalid email address: " ++ to ++ " (" ++ reason_string (reason v) ++ ")")))
  \/ (isValid v = true /\ transporter svc = None /\ tr2 = [OLog ("Email would be sent to: " ++ to)] /\
      res = inr (mkSendResult true false v None))
  \/ (isValid v = true /\ exists cfg o, transporter svc = Some cfg /\
      tr2 = [OSend cfg (mkMail (or_str (env "EMAIL_FROM") (env "SMTP_USER")) to subject content []) o] /\
      res = match o with
            | SendOk mid => inr (mkSendResult true true v mid)
            | SendFail err => inl (js_error ("Failed to send email: " ++ err_message err))
            end).
Proof.
  intros Hc. destruct (isValid v) eqn:Hv.
  - unfold deliver. rewrite Hv, (deliver_valid_not_high v Hc Hv). simpl negb. cbv iota.
    destruct (transporter svc) as [cfg |]; simpl.
    + destruct (h SendOutcome (inr1 (inl1 (SendMail cfg _))) s1) as [info s'].
      intros E. right; right. split; [reflexivity |]. exists cfg, info.
      destruct info; injection E as <- <- <-; auto.
    + destruct (h unit (inr1 (inr1 (Log _))) s1) as [[] s'].
      intros [= <- <- <-]. right; left. auto.
  - rewrite deliver_invalid by exact Hv. simpl. intros [= <- <- <-]. left. auto.
Qed.

(** A run of [verifyAndSend] splits into the verifier's run and [deliver]'s. *)
Lemma verifyAndSend_inv svc env to subject content s res s' tr :
  runT h (verifyAndSend svc env to subject content) s = (res, s', tr) ->
  exists v s1 tr1 tr2,
    runT (dns_part h) (verify_email (Some to)) s = (v, s1, tr1) /\
    runT h (deliver svc env to subject content v) s1 = (res, s', tr2) /\
    tr = (map lookup_obs tr1 ++ tr2)%list.
Proof.
  rewrite verifyAndSend_trace.
  destruct (runT (dns_part h) (verify_email (Some to)) s) as [[v s1] tr1] eqn:Ev.
  destruct (runT h (deliver svc env to subject content v) s1) as [[r s2] tr2] eqn:Ed.
  intros [= <- <- <-]. exists v, s1, tr1, tr2. auto.
Qed.

Ltac deliver_cases Ev Ed :=
  destruct (deliver_run _ _ _ _ _ _ _ _ _ _ (verify_run_consistent _ _ _ _ _ Ev) Ed)
    as [(Hv & -> & -> & Hres) | [(Hv & Ht & -> & Hres) | (Hv & cfg & o & Ht & -> & Hres)]];
  [| destruct (verify_valid_lookup _ _ _ _ _ _ _ Ev Hv) as [Hre (dom & mx & Hmx & ->)]
   | destruct (verify_valid_lookup _ _ _ _ _ _ _ Ev Hv) as [Hre (dom & mx & Hmx & ->)]].

Ltac verify_and_send_cases H :=
  destruct (verifyAndSend_inv _ _ _ _ _ _ _ _ _ H) as (v & s1 & tr1 & tr2 & Ev & Ed & ->);
  deliver_cases Ev Ed.

(** The trace of a verification followed by [deliver]: every send is
    verified and goes to the verified address. *)
Lemma verify_deliver_safe svc env to subject content s v s1 tr1 res s' tr2 :
  runT (dns_part h) (verify_email (Some to)) s = (v, s1, tr1) ->
  runT h (deliver svc env to subject content v) s1 = (res, s', tr2) ->
  sends_verified (map lookup_obs tr1 ++ tr2)%list /\
  (forall cfg m o, In (OSend cfg m o) (map lookup_obs tr1 ++ tr2)%list -> mail_to m = to).
Proof.
  intros Ev Ed. deliver_cases Ev Ed.
  - rewrite app_nil_r. split; [apply sends_verified_lookups |].
    intros cfg m o H. exfalso. exact (lookups_no_send tr1 cfg m o H).
  - split; [apply sends_verified_no_send |]; intros cfg m o' [H | [H | []]]; discriminate.
  - split; [apply sends_verified_pair; [exact Hmx | exact Hre] |].
    intros cfg' m o' [H | [H | []]]; [discriminate | now injection H as _ <- _].
Qed.

(** C1.  [verifyAndSend] never hands a mail to the transport
    unless the recipient passed verification in the same call: in every
    run, whatever DNS and SMTP answer, each send goes to the requested
    address, which matches [EMAIL_RE], and comes right after a lookup
    that returned at least one MX record. *)
Theorem verifyAndSend_sends_only_verified svc env to subject content s res s' tr :
  runT h (verifyAndSend svc env to subject content) s = (res, s', tr) ->
  sends_verified tr /\ (forall cfg m o, In (OSend cfg m o) tr -> mail_to m = to).
Proof.
  intros E. destruct (verifyAndSend_inv _ _ _ _ _ _ _ _ _ E) as (v & s1 & tr1 & tr2 & Ev & Ed & ->).
  exact (verify_deliver_safe _ _ _ _ _ _ _ _ _ _ _ _ Ev Ed).
Qed.

(** C15.  The errors [verifyAndSend] throws: an invalid address,
    with the verifier's reason, before any mail is sent; or the
    transport's failure, after the one send.  In particular the
    "High-risk email address" error of line 43 is never thrown: a valid
    verification has risk [low]. *)
Theorem verifyAndSend_errors svc env to subject content s err s' tr :
  runT h (verifyAndSend svc env to subject content) s = (inl err, s', tr) ->
  (exists r, r <> None /\
     err = js_error ("Invalid email address: " ++ to ++ " (" ++ reason_string r ++ ")") /\
     forall cfg m o, ~ In (OSend cfg m o) tr)
  \/ (exists e cfg m, err = js_error ("Failed to send email: " ++ err_message e) /\
      In (OSend cfg m (SendFail e)) tr).
Proof.
  intros E. verify_and_send_cases E.
  - left. exists (reason v). split; [| split].
    + destruct (verify_run_consistent _ _ _ _ _ Ev) as (_ & _ & _ & Hr). auto.
    + congruence.
    + rewrite app_nil_r. apply lookups_no_send.
  - discriminate.
  - destruct o as [mid | e]; [discriminate |]. right. injection Hres as ->.
    exists e, cfg, (mkMail (or_str (env "EMAIL_FROM") (env "SMTP_USER")) to subject content []).
    split; [reflexivity | right; left; reflexivity].
Qed.

(** C18.  Without a transporter nothing is sent: a valid
    address yields [{verified: true, sent: false}] after one log line. *)
Theorem verifyAndSend_no_transport svc env to subject content s res s' tr :
  transporter svc = None ->
  runT h (verifyAndSend svc env to subject content) s = (res, s', tr) ->
  (forall cfg m o, ~ In (OSend cfg m o) tr) /\
  (forall r, res = inr r -> sr_verified r = true /\ sr_sent r = false /\ sr_messageId r = None).
Proof.
  intros Hn E. verify_and_send_cases E.
  - split; [rewrite app_nil_r; apply lookups_no_send | intros r Hr; congruence].
  - split; [intros cfg m o [H | [H | []]]; discriminate |].
    intros r Hr. rewrite Hres in Hr. injection Hr as <-. auto.
  - congruence.
Qed.

(** One loop iteration sends only verified mail, to its recipient. *)
Lemma bulk_item_safe svc env r ov s res s' tr :
  runT h (bulk_item svc env r ov) s = (res, s', tr) ->
  sends_verified tr /\ (forall cfg m o, In (OSend cfg m o) tr -> mail_to m = rc_email r).
Proof.
  unfold bulk_item. destruct ov as [v |].
  2:{ intros [= _ _ <-]. split; [apply sends_verified_no_send |]; intros ? ? ? []. }
  destruct (isValid v && negb (risk_high (risk v))).
  2:{ intros [= _ _ <-]. split; [apply sends_verified_no_send |]; intros ? ? ? []. }
  intros E. apply runT_bind_inv in E as (res1 & s1 & tr1 & tr2 & E1 & E2 & ->).
  destruct (verifyAndSend_inv _ _ _ _ _ _ _ _ _ E1) as (v' & s2 & tr3 & tr4 & Ev & Ed & ->).
  assert (tr2 = []) as -> by (destruct res1; injection E2 as _ _ <-; reflexivity).
  rewrite app_nil_r. exact (verify_deliver_safe _ _ _ _ _ _ _ _ _ _ _ _ Ev Ed).
Qed.

Lemma bulk_loop_safe svc env rs vs s res s' tr :
  runT h (bulk_loop svc env rs vs) s = (res, s', tr) ->
  sends_verified tr /\
  (forall cfg m o, In (OSend cfg m o) tr -> exists r, In r rs /\ mail_to m = rc_email r).
Proof.
  revert vs s res s' tr; induction rs as [| r rs IH]; intros vs s res s' tr E.
  - injection E as _ _ <-. split; [apply sends_verified_no_send |]; intros ? ? ? [].
  - simpl in E. apply runT_bind_inv in E as (it & s1 & tr1 & tr2 & E1 & E2 & ->).
    apply runT_bind_inv in E2 as (rest & s2 & tr3 & tr4 & E3 & E4 & ->).
    injection E4 as _ _ <-. rewrite app_nil_r.
    destruct (bulk_item_safe _ _ _ _ _ _ _ _ E1) as [Hs1 Ht1].
    destruct (IH _ _ _ _ _ E3) as [Hs2 Ht2].
    split; [now apply sends_verified_app |].
    intros cfg m o [H | H]%in_app_or.
    + exists r. split; [left; reflexivity | exact (Ht1 _ _ _ H)].
    + destruct (Ht2 _ _ _ H) as (r' & Hr' & Hm). exists r'. split; [right; exact Hr' | exact Hm].
Qed.

Lemma batch_no_send (es : list (option string)) s :
  sends_verified (snd (runT h (mapM verify_svc es) s)) /\
  forall cfg m o, ~ In (OSend cfg m o) (snd (runT h (mapM verify_svc es) s)).
Proof.
  apply (runT_mapM_trace h (fun t => sends_verified t /\ forall cfg m o, ~ In (OSend cfg m o) t)).
  - split; [apply sends_verified_no_send |]; intros ? ? ? [].
  - intros a b [Ha Ha'] [Hb Hb']. split; [now apply sends_verified_app |].
    intros cfg m o [H | H]%in_app_or; [exact (Ha' _ _ _ H) | exact (Hb' _ _ _ H)].
  - intros e s0. rewrite runT_verify_svc.
    destruct (runT (dns_part h) (verify_email e) s0) as [[v s1] tr1]. simpl.
    split; [apply sends_verified_lookups | apply lookups_no_send].
Qed.

(** C2.  [verifyAndSendBulk] sends only verified mail: every send
    of the whole run comes right after a successful MX lookup, goes to an
    address matching [EMAIL_RE], and that address is one of the
    recipients'. *)
Theorem verifyAndSendBulk_sends_only_verified svc env rs s res s' tr :
  runT h (verifyAndSendBulk svc env rs) s = (res, s', tr) ->
  sends_verified tr /\
  (forall cfg m o, In (OSend cfg m o) tr -> exists r, In r rs /\ mail_to m = rc_email r).
Proof.
  intros E. apply runT_bind_inv in E as (vs & s1 & tr1 & tr2 & E1 & E2 & ->).
  destruct (batch_no_send (map (fun r => Some (rc_email r)) rs) s) as [Hs1 Hn1].
  rewrite E1 in Hs1, Hn1. simpl in Hs1, Hn1.
  destruct (bulk_loop_safe _ _ _ _ _ _ _ _ E2) as [Hs2 Ht2].
  split; [now apply sends_verified_app |].
  intros cfg m o [H | H]%in_app_or; [exfalso; exact (Hn1 _ _ _ H) | exact (Ht2 _ _ _ H)].
Qed.

Lemma bulk_loop_emails svc env rs vs s res s' tr :
  runT h (bulk_loop svc env rs vs) s = (res, s', tr) -> map fst res = map rc_email rs.
Proof.
  revert vs s res s' tr; induction rs as [| r rs IH]; intros vs s res s' tr E.
  - now injection E as <- _ _.
  - simpl in E. apply runT_bind_inv in E as (it & s1 & tr1 & tr2 & E1 & E2 & _).
    apply runT_bind_inv in E2 as (rest & s2 & tr3 & tr4 & E3 & E4 & _).
    injection E4 as <- _ _. simpl. f_equal. exact (IH _ _ _ _ _ E3).
Qed.

(** C17.  [verifyAndSendBulk] never aborts: it returns one entry
    per recipient, in the input order, keyed by the recipient's address. *)
Theorem verifyAndSendBulk_one_entry_each svc env rs s res s' tr :
  runT h (verifyAndSendBulk svc env rs) s = (res, s', tr) -> map fst res = map rc_email rs.
Proof.
  intros E. apply runT_bind_inv in E as (vs & s1 & tr1 & tr2 & _ & E2 & _).
  exact (bulk_loop_emails _ _ _ _ _ _ _ _ E2).
Qed.

Lemma bulk_loop_skips svc env rs vs s res s' tr i r v :
  runT h (bulk_loop svc env rs vs) s = (res, s', tr) ->
  nth_error rs i = Some r -> nth_error vs i = Some v -> isValid v = false ->
  nth_error res i = Some (rc_email r, BulkSkipped "Invalid or high-risk email" v).
Proof.
  revert vs s res s' tr i; induction rs as [| r0 rs IH]; intros vs s res s' tr i E Hr Hv Hinv.
  - destruct i; discriminate.
  - simpl in E. apply runT_bind_inv in E as (it & s1 & tr1 & tr2 & E1 & E2 & _).
    apply runT_bind_inv in E2 as (rest & s2 & tr3 & tr4 & E3 & E4 & _).
    injection E4 as <- _ _. destruct vs as [| v0 vs]; [destruct i; discriminate |].
    destruct i as [| i]; simpl in *.
    + injection Hr as ->. injection Hv as ->. unfold bulk_item in E1. rewrite Hinv in E1.
      now injection E1 as <- _ _.
    + exact (IH _ _ _ _ _ _ E3 Hr Hv Hinv).
Qed.

(** C16.  A recipient whose address fails the format check is
    reported as skipped, with the verifier's rejection, and is never
    passed to [verifyAndSend]. *)
Theorem verifyAndSendBulk_skips_malformed svc env rs s res s' tr i r :
  runT h (verifyAndSendBulk svc env rs) s = (res, s', tr) ->
  nth_error rs i = Some r -> email_re_test (rc_email r) = false ->
  nth_error res i = Some (rc_email r, BulkSkipped "Invalid or high-risk email" (rejected (Some (rc_email r)))).
Proof.
  intros E Hr Hbad. apply runT_bind_inv in E as (vs & s1 & tr1 & tr2 & E1 & E2 & _).
  destruct (runT_mapM_nth h _ _ _ _ _ _ E1) as [_ Hnth].
  destruct (Hnth i (Some (rc_email r))) as (si & v & Hv & Hrun).
  { rewrite nth_error_map, Hr. reflexivity. }
  rewrite runT_verify_svc, (verify_rejects _ (dns_part h) (Some (rc_email r)) si Hbad) in Hrun.
  simpl in Hrun. subst v.
  exact (bulk_loop_skips _ _ _ _ _ _ _ _ _ _ _ E2 Hr Hv eq_refl).
Qed.

End ServiceProofs.

(** ** The transporter *)

(** C24.  [createTransporter] builds a transporter exactly when
    [SMTP_HOST] is set (otherwise it logs one warning), and a built
    one never has port [0] or [NaN]: a missing or unparsable
    [SMTP_PORT] falls back to 587.  [secure] is set only by
    [SMTP_SECURE === 'true'], whatever the port. *)
Theorem createTransporter_config {St} (h : handler svcE St) env s r s' tr :
  runT h (createTransporter env) s = (r, s', tr) ->
  match r with
  | None => truthy_str (env "SMTP_HOST") = false /\ tr = [OLog "SMTP not configured - emails will not be sent"]
  | Some cfg => truthy_str (env "SMTP_HOST") = true /\ tr = [] /\ s' = s /\
               smtp_host cfg = env_string (env "SMTP_HOST") /\
               truthy (smtp_port cfg) = true /\
               (smtp_secure cfg = true <-> env "SMTP_SECURE" = Some "true")
  end.
Proof.
  unfold createTransporter. destruct (truthy_str (env "SMTP_HOST")) eqn:Hh; simpl.
  - intros [= <- <- <-]. do 4 (split; [reflexivity |]). split.
    + destruct (truthy (parseInt10 (env_string (env "SMTP_PORT")))) eqn:Hp; [exact Hp | reflexivity].
    + destruct (env "SMTP_SECURE") as [v |]; simpl; [| split; discriminate].
      rewrite String.eqb_eq. split; [intros -> | intros [= ->]]; reflexivity.
  - destruct (h unit _ s) as [[] s1]. intros [= <- <- <-]. auto.
Qed.

(** ** Concrete runs *)

(** A service handler: DNS answered by [resolve], every send by
    [outcome], logs ignored. *)
Definition test_handler (resolve : string -> DnsAnswer) (outcome : SendOutcome) : handler svcE unit :=
  fun X e s => match e with
  | inl1 d => match d in dnsE Y return Y * unit with ResolveMx dom => (resolve dom, s) end
  | inr1 (inl1 m) => match m in mailE Y return Y * unit with SendMail _ _ => (outcome, s) end
  | inr1 (inr1 l) => match l in logE Y return Y * unit with Log _ => (tt, s) end
  end.

(** A DNS server that answers the first lookup and times out on every
    later one; the state counts the lookups. *)
Definition flaky_handler : handler svcE nat :=
  fun X e n => match e with
  | inl1 d => match d in dnsE Y return Y * nat with
              | ResolveMx dom =>
                  (if (n =? 0)%nat then example_resolver dom
                   else DnsErr (mkError "Error" "queryMx ETIMEOUT"), S n)
              end
  | inr1 (inl1 m) => match m in mailE Y return Y * nat with SendMail _ _ => (SendOk None, n) end
  | inr1 (inr1 l) => match l in logE Y return Y * nat with Log _ => (tt, n) end
  end.

Definition demo_env : Env := fun v =>
  if String.eqb v "SMTP_HOST" then Some "smtp.example.com"
  else if String.eqb v "SMTP_PORT" then Some "465"
  else if String.eqb v "SMTP_USER" then Some "mailer@example.com"
  else None.

Definition demo_cfg : SmtpConfig :=
  mkSmtp "smtp.example.com" (of_Z 465) false (Some ("mailer@example.com", None)).

Definition demo_service : EmailServiceState := mkService (Some demo_cfg).

Definition demo_mail (to : string) : MailOptions :=
  mkMail (Some "mailer@example.com") to "Hi" "body" [].

Definition demo_recipients : list Recipient :=
  [mkRecipient "a@example.com" "Hi" "body"; mkRecipient "not-an-email" "Hi" "body";
   mkRecipient "c@example.com" "Hi" "body"].

(** [createTransporter] on the demo environment: port 465 parsed from
    [SMTP_PORT], and [secure] false because [SMTP_SECURE] is unset. *)
Lemma createTransporter_demo :
  run (test_handler example_resolver (SendOk None)) (createTransporter demo_env) tt = (Some demo_cfg, tt).
Proof. vm_compute. reflexivity. Qed.

(** The demo transporter: port 465 is truthy and, [SMTP_SECURE] being
    unset, the connection is not implicitly secure. *)
Lemma createTransporter_config_witness :
  truthy (smtp_port demo_cfg) = true /\ smtp_secure demo_cfg = false.
Proof.
  destruct (createTransporter_config (test_handler example_resolver (SendOk None)) demo_env tt
              (Some demo_cfg) tt []) as (_ & _ & _ & _ & Hp & _).
  - vm_compute. reflexivity.
  - split; [exact Hp | reflexivity].
Defined.

Lemma verifyAndSend_sends_only_verified_witness :
  runT (test_handler example_resolver (SendOk (Some "m1")))
       (verifyAndSend demo_service demo_env "User@Example.com" "Hi" "body") tt =
  (inr (mkSendResult true true (mkResult "user@example.com" true RiskLow None ["a.mx"; "b.mx"] None) (Some "m1")),
   tt,
   [OLookup "example.com" (DnsOk [mkMx 20 "b.mx"; mkMx 10 "a.mx"]);
    OSend demo_cfg (demo_mail "User@Example.com") (SendOk (Some "m1"))]) /\
  sends_verified [OLookup "example.com" (DnsOk [mkMx 20 "b.mx"; mkMx 10 "a.mx"]);
                  OSend demo_cfg (demo_mail "User@Example.com") (SendOk (Some "m1"))].
Proof.
  assert (E : runT (test_handler example_resolver (SendOk (Some "m1")))
       (verifyAndSend demo_service demo_env "User@Example.com" "Hi" "body") tt =
  (inr (mkSendResult true true (mkResult "user@example.com" true RiskLow None ["a.mx"; "b.mx"] None) (Some "m1")),
   tt,
   [OLookup "example.com" (DnsOk [mkMx 20 "b.mx"; mkMx 10 "a.mx"]);
    OSend demo_cfg (demo_mail "User@Example.com") (SendOk (Some "m1"))])) by (vm_compute; reflexivity).
  split; [exact E |].
  exact (proj1 (verifyAndSend_sends_only_verified _ _ _ _ _ _ _ _ _ _ E)).
Defined.

Lemma verifyAndSend_errors_witness :
  runT (test_handler example_resolver (SendFail (mkError "Error" "Connection refused")))
       (verifyAndSend demo_service demo_env "a@example.com" "Hi" "body") tt =
  (inl (js_error "Failed to send email: Connection refused"), tt,
   [OLookup "example.com" (DnsOk [mkMx 20 "b.mx"; mkMx 10 "a.mx"]);
    OSend demo_cfg (demo_mail "a@example.com") (SendFail (mkError "Error" "Connection refused"))]) /\
  exists e cfg m, js_error "Failed to send email: Connection refused" =
                  js_error ("Failed to send email: " ++ err_message e) /\
                  In (OSend cfg m (SendFail e))
                     [OLookup "example.com" (DnsOk [mkMx 20 "b.mx"; mkMx 10 "a.mx"]);
                      OSend demo_cfg (demo_mail "a@example.com") (SendFail (mkError "Error" "Connection refused"))].
Proof.
  match goal with |- ?E /\ _ => assert (H : E) by (vm_compute; reflexivity) end.
  split; [exact H |].
  destruct (verifyAndSend_errors _ _ _ _ _ _ _ _ _ _ H) as [(r & _ & He & _) | Hf]; [discriminate | exact Hf].
Defined.

Lemma verifyAndSend_no_transport_witness :
  transporter (mkService None) = None /\
  runT (test_handler example_resolver (SendOk None))
       (verifyAndSend (mkService None) demo_env "a@example.com" "Hi" "body") tt =
  (inr (mkSendResult true false (mkResult "a@example.com" true RiskLow None ["a.mx"; "b.mx"] None) None), tt,
   [OLookup "example.com" (DnsOk [mkMx 20 "b.mx"; mkMx 10 "a.mx"]);
    OLog "Email would be sent to: a@example.com"]) /\
  forall cfg m o, ~ In (OSend cfg m o)
    [OLookup "example.com" (DnsOk [mkMx 20 "b.mx"; mkMx 10 "a.mx"]);
     OLog "Email would be sent to: a@example.com"].
Proof.
  match goal with |- _ /\ ?E /\ _ => assert (H : E) by (vm_compute; reflexivity) end.
  split; [reflexivity | split; [exact H |]].
  refine (proj1 (verifyAndSend_no_transport _ _ _ _ _ _ _ _ _ _ _ H)). reflexivity.
Defined.

Lemma verifyAndSendBulk_sends_only_verified_witness :
  let '(_, _, tr) := runT (test_handler example_resolver (SendOk (Some "m1")))
                          (verifyAndSendBulk demo_service demo_env demo_recipients) tt in
  sends_verified tr /\
  (forall cfg m o, In (OSend cfg m o) tr -> exists r, In r demo_recipients /\ mail_to m = rc_email r).
Proof.
  destruct (runT _ (verifyAndSendBulk demo_service demo_env demo_recipients) tt) as [[res s'] tr] eqn:E.
  exact (verifyAndSendBulk_sends_only_verified _ _ _ _ _ _ _ _ E).
Defined.

Lemma verifyAndSendBulk_one_entry_each_witness :
  map fst (fst (fst (runT (test_handler example_resolver (SendOk (Some "m1")))
                          (verifyAndSendBulk demo_service demo_env demo_recipients) tt))) =
  ["a@example.com"; "not-an-email"; "c@example.com"].
Proof.
  destruct (runT _ (verifyAndSendBulk demo_service demo_env demo_recipients) tt) as [[res s'] tr] eqn:E.
  exact (verifyAndSendBulk_one_entry_each _ _ _ _ _ _ _ _ E).
Defined.

Lemma verifyAndSendBulk_skips_malformed_witness :
  email_re_test "not-an-email" = false /\
  nth_error (fst (fst (runT (test_handler example_resolver (SendOk (Some "m1")))
                            (verifyAndSendBulk demo_service demo_env demo_recipients) tt))) 1 =
  Some ("not-an-email", BulkSkipped "Invalid or high-risk email" (rejected (Some "not-an-email"))).
Proof.
  split; [reflexivity |].
  destruct (runT _ (verifyAndSendBulk demo_service demo_env demo_recipients) tt) as [[res s'] tr] eqn:E.
  exact (verifyAndSendBulk_skips_malformed _ _ _ _ _ _ _ _ 1 (mkRecipient "not-an-email" "Hi" "body")
           E eq_refl eq_refl).
Defined.

(** The example of the specification: three recipients, the second
    malformed; three entries, the second skipped, the others sent. *)
Example bulk_spec_example :
  match fst (fst (runT (test_handler example_resolver (SendOk (Some "m1")))
                       (verifyAndSendBulk demo_service demo_env demo_recipients) tt)) with
  | [(_, BulkSuccess r0); (_, BulkSkipped _ _); (_, BulkSuccess r2)] => sr_sent r0 && sr_sent r2 = true
  | _ => False
  end.
Proof. vm_compute. reflexivity. Qed.

(** Each address is verified twice, once by [verifyBatch] and again
    inside [verifyAndSend]: when the second lookup fails, a recipient
    that the batch found valid is reported as an error. *)
Example bulk_double_verification :
  runT flaky_handler (verifyAndSendBulk demo_service demo_env [mkRecipient "a@example.com" "Hi" "body"]) 0%nat =
  ([("a@example.com", BulkError "Invalid email address: a@example.com (dns_lookup_failed)")], 2%nat,
   [OLookup "example.com" (DnsOk [mkMx 20 "b.mx"; mkMx 10 "a.mx"]);
    OLookup "example.com" (DnsErr (mkError "Error" "queryMx ETIMEOUT"))]).
Proof. vm_compute. reflexivity. Qed.
