(* ===== verification/InvoiceEmail.v ===== *)
(** The invoice mail of [src/server/services/emailService.ts].

    [createEmailTransporter] validates the environment; when the check
    throws it falls back to nodemailer's JSON transport (which renders
    the message and sends nothing), otherwise it builds SMTP options
    from [SMTP_HOST], [SMTP_PORT] (default 587), [SMTP_SECURE] and the
    credentials.  [sendInvoiceEmail] renders the amount with
    [toFixed(2)], fills the HTML template, attaches the PDF and sends;
    a rejected send is logged and swallowed.

    The module [src/server/lib/environment] that exports
    [validateEmailEnvironment] is not part of the repository: it is a
    section variable, a function of the environment that throws
    ([Some err]) or returns.  Console calls are events carrying their
    arguments as strings; an object argument is shown by the field
    the program prints ([info.message], [info.previewUrl], the error).
    [sendInvoiceEmail] is modelled where [toFixed] is, amounts below
    [10^21] dollars ([None] beyond). *)

From Stdlib Require Import ZArith List String Ascii Bool Lia.
From S2P Require Import Prelude JsString JsNumber Money EmailVerifier EmailService.
Import ListNotations.
Open Scope string_scope.

(** ** Data *)

(** The options given to [nodemailer.createTransport]. *)
Inductive Transport :=
| SmtpTransport (host : option string) (port : jsnum) (secure : bool)
                (auth : option (string * option string))
| JsonTransport.

Record Attachment := mkAttachment {
  att_filename : string;
  att_content : list Byte.byte;
  att_contentType : string
}.

Record InvoiceMailOptions := mkInvoiceMail {
  im_from : option string;
  im_to : string;
  im_subject : string;
  im_html : string;
  im_attachments : list Attachment
}.

(** [interface EmailInvoiceData] *)
Record EmailInvoiceData := mkEmailInvoiceData {
  ed_email : string;
  ed_invoiceId : string;
  ed_licenseKey : string;
  ed_amountCents : jsnum;
  ed_pdfBuffer : list Byte.byte
}.

(** What [sendMail] resolves with ([info.message], [info.previewUrl])
    or rejects with. *)
Inductive SendInfo :=
| Delivered (message : option string) (previewUrl : option string)
| Rejected (err : JsError).

Inductive Level := LWarn | LDebug | LInfo | LError.

Inductive consoleE : Type -> Type :=
| Console (level : Level) (args : list string) : consoleE unit.

Inductive transportE : Type -> Type :=
| SendMailVia (t : Transport) (m : InvoiceMailOptions) : transportE SendInfo.

Definition invE := transportE +' consoleE.

Definition sendmail_ev (t : Transport) (m : InvoiceMailOptions) : prog invE SendInfo :=
  trigger (inl1 (SendMailVia t m)).
Definition console_ev (l : Level) (args : list string) : prog invE unit :=
  trigger (inr1 (Console l args)).

Inductive InvObs :=
| OSendMail (t : Transport) (m : InvoiceMailOptions) (info : SendInfo)
| OConsole (l : Level) (args : list string).

#[export] Instance observe_inv : Observe invE InvObs :=
  fun X e x =>
    match e with
    | inl1 m => match m in transportE X return X -> InvObs with
                | SendMailVia t mo => fun i => OSendMail t mo i
                end
    | inr1 c => match c in consoleE X return X -> InvObs with
                | Console l args => fun _ => OConsole l args
                end
    end x.

(** ** [createEmailTransporter], lines 7-32 *)

(** [process.env.SMTP_PORT ? parseInt(process.env.SMTP_PORT, 10) : 587] *)
Definition smtp_port (env : Env) : jsnum :=
  if truthy_str (env "SMTP_PORT") then parseInt10 (env_string (env "SMTP_PORT")) else of_Z 587.

(** [String(port) === '465' || process.env.SMTP_SECURE === 'true'].
    [to_string] is [None] only on numbers printed in exponent form,
    none of which is ['465']. *)
Definition smtp_secure (env : Env) (port : jsnum) : bool :=
  match to_string port with Some s => String.eqb s "465" | None => false end
  || match env "SMTP_SECURE" with Some v => String.eqb v "true" | None => false end.

Definition smtp_auth (env : Env) : option (string * option string) :=
  if truthy_str (env "SMTP_USER") then Some (env_string (env "SMTP_USER"), env "SMTP_PASS")
  else None.

Definition fallback_warning : string :=
  "[emailService] SMTP not configured or validation failed — using jsonTransport (demo/dev mode).".

(** ** The message, lines 47-95 *)

(** A literal of the template with each [^] read as a double quote. *)
Fixpoint dq (s : string) : string :=
  match s with
  | EmptyString => EmptyString
  | String c r => String (if Ascii.eqb c "^"%char then ascii_of_nat 34 else c) (dq r)
  end.

Definition newline : string := String (ascii_of_nat 10) EmptyString.

(** The template literal of lines 53-87, one element per source line:
    it opens with a line break and ends with the indentation before the
    closing backquote. *)
Definition invoice_html (invoiceId licenseKey totalAmount : string) : string :=
  join newline [
  EmptyString;
  dq "      <div style=^font-family: Arial, sans-serif; max-width: 600px; margin: 0 auto;^>";
  dq "        <div style=^background: #FF7A00; color: white; padding: 20px; text-align: center;^>";
  dq "          <h1 style=^margin: 0;^>NK2IT PTY LTD</h1>";
  dq "          <p style=^margin: 5px 0 0 0;^>Professional Software Licensing Solutions</p>";
  dq "        </div>";
  dq "        ";
  dq "        <div style=^padding: 30px; background: #f9f9f9;^>";
  dq "          <h2 style=^color: #333;^>Thank you for your purchase!</h2>";
  dq "          ";
  dq "          <p>Your Symantec Endpoint Protection license has been processed successfully.</p>";
  dq "          ";
  dq "          <div style=^background: white; padding: 20px; border-radius: 8px; margin: 20px 0;^>";
  dq "            <h3 style=^color: #FF7A00; margin-top: 0;^>Order Details</h3>";
  dq "            <p><strong>Invoice ID:</strong> " ++ invoiceId ++ dq "</p>";
  dq "            <p><strong>License Key:</strong> <code style=^background: #f0f0f0; padding: 4px 8px; border-radius: 4px;^>" ++ licenseKey ++ dq "</code></p>";
  dq "            <p><strong>Total Amount:</strong> $" ++ totalAmount ++ dq " AUD (inc. GST)</p>";
  dq "          </div>";
  dq "          ";
  dq "          <p>Your invoice PDF is attached to this email for your records.</p>";
  dq "          ";
  dq "          <div style=^background: #e8f5e8; padding: 15px; border-radius: 8px; border-left: 4px solid #00A65A;^>";
  dq "            <p style=^margin: 0;^><strong>Next Steps:</strong></p>";
  dq "            <p style=^margin: 5px 0 0 0;^>Use the license key above to activate your Symantec Endpoint Protection software. If you need assistance, contact our support team.</p>";
  dq "          </div>";
  dq "        </div>";
  dq "        ";
  dq "        <div style=^background: #00A65A; color: white; padding: 20px; text-align: center;^>";
  dq "          <p style=^margin: 0; font-weight: bold;^>Thank you for your purchase! Powered by NK2IT</p>";
  dq "          <p style=^margin: 10px 0 0 0; font-size: 14px;^>";
  dq "            Email: support@nk2it.com.au | Phone: 1300 NK2 IT | Website: nk2it.com.au";
  dq "          </p>";
  dq "        </div>";
  dq "      </div>";
  "    "].

Definition invoice_subject (invoiceId : string) : string :=
  "NK2IT Invoice " ++ invoiceId ++ " - Symantec License Key".

(** [mailOptions], lines 49-95. *)
Definition mailOptions (env : Env) (data : EmailInvoiceData) (totalAmount : string)
  : InvoiceMailOptions :=
  mkInvoiceMail (env "EMAIL_FROM") (ed_email data) (invoice_subject (ed_invoiceId data))
    (invoice_html (ed_invoiceId data) (ed_licenseKey data) totalAmount)
    [mkAttachment ("NK2IT-Invoice-" ++ ed_invoiceId data ++ ".pdf") (ed_pdfBuffer data)
                  "application/pdf"].

(** Lines 97-113: what follows the send.  A resolved send logs the
    rendered message and the preview URL when present; a rejected one
    is logged and not rethrown. *)
Definition after_send (info : SendInfo) : prog invE (JsError + unit) :=
  match info with
  | Delivered msg preview =>
      ((if truthy_str msg then console_ev LDebug ["[emailService] sendMail info:"; env_string msg]
        else Ret tt) ;;
       (if truthy_str preview then console_ev LInfo ["[emailService] Preview URL:"; env_string preview]
        else Ret tt) ;;
       Ret (inr tt))%nk
  | Rejected err =>
      (console_ev LError ["[emailService] Failed to send invoice email:"; error_to_string err] ;;
       Ret (inr tt))%nk
  end.

Section Mailer.
Variable validateEmailEnvironment : Env -> option JsError.

Definition createEmailTransporter (env : Env) : prog invE Transport :=
  match validateEmailEnvironment env with
  | Some err => (console_ev LWarn [fallback_warning; err_message err] ;; Ret JsonTransport)%nk
  | None =>
      let port := smtp_port env in
      Ret (SmtpTransport (env "SMTP_HOST") port (smtp_secure env port) (smtp_auth env))
  end.

(** [sendInvoiceEmail(data)], lines 42-114: a promise of [undefined]
    that could reject ([inl]). *)
Definition sendInvoiceEmail (env : Env) (data : EmailInvoiceData)
  : option (prog invE (JsError + unit)) :=
  match dollars (ed_amountCents data) with
  | None => None
  | Some totalAmount =>
      Some (transporter <- createEmailTransporter env ;;
            info <- sendmail_ev transporter (mailOptions env data totalAmount) ;;
            after_send info)%nk
  end.

End Mailer.

Definition is_sendmail (o : InvObs) : bool :=
  match o with OSendMail _ _ _ => true | OConsole _ _ => false end.

(** ** The transport *)

Lemma smtp_port_numeric env z :
  0 <= z -> env "SMTP_PORT" = Some (decimal z) -> smtp_port env = of_Z z.
Proof.
  intros Hz E. unfold smtp_port. rewrite E. cbn [truthy_str env_string].
  destruct (String.eqb_spec (decimal z) EmptyString) as [Hd | _].
  - pose proof (length_decimal_pos z). rewrite Hd in H. cbn in H. lia.
  - apply parseInt10_decimal. exact Hz.
Qed.

Lemma smtp_port_default env :
  env "SMTP_PORT" = None \/ env "SMTP_PORT" = Some EmptyString -> smtp_port env = of_Z 587.
Proof. unfold smtp_port. intros [E | E]; rewrite E; reflexivity. Qed.

(** On an exact port number, [secure] is port 465 or [SMTP_SECURE=true]. *)
Lemma smtp_secure_of_Z env z :
  0 <= z < 2 ^ 53 ->
  (smtp_secure env (of_Z z) = true <-> z = 465 \/ env "SMTP_SECURE" = Some "true").
Proof.
  intros Hz. unfold smtp_secure. rewrite to_string_of_Z by exact Hz. rewrite orb_true_iff.
  split.
  - intros [H | H].
    + left. apply String.eqb_eq in H. apply decimal_inj; [lia | lia |]. rewrite H. reflexivity.
    + right. destruct (env "SMTP_SECURE") as [v |]; [| discriminate].
      apply String.eqb_eq in H. congruence.
  - intros [-> | H]; [left; reflexivity | right; rewrite H; reflexivity].
Qed.

(** The order details the template shows. *)
Lemma invoice_html_details invoiceId licenseKey totalAmount :
  let html := invoice_html invoiceId licenseKey totalAmount in
  contains html ("<strong>Total Amount:</strong> $" ++ totalAmount ++ " AUD (inc. GST)") /\
  contains html ("<strong>Invoice ID:</strong> " ++ invoiceId ++ "</p>") /\
  contains html licenseKey.
Proof.
  cbv zeta. unfold invoice_html.
  split; [| split]; (eapply contains_trans; [apply contains_join |]).
  - do 16 right. left. reflexivity.
  - exists "            <p>", "</p>". rewrite !string_app_assoc. reflexivity.
  - do 14 right. left. reflexivity.
  - exists "            <p>", EmptyString. rewrite !string_app_assoc, append_empty_r. reflexivity.
  - do 15 right. left. reflexivity.
  - apply contains_mid.
Qed.

Section MailerProofs.
Variable validate : Env -> option JsError.
Context {St : Type} (h : handler invE St).

(** [createEmailTransporter] on both branches. *)
Lemma createEmailTransporter_inv env s t s' tr :
  runT h (createEmailTransporter validate env) s = (t, s', tr) ->
  match validate env with
  | Some err => t = JsonTransport /\ tr = [OConsole LWarn [fallback_warning; err_message err]]
  | None => t = SmtpTransport (env "SMTP_HOST") (smtp_port env) (smtp_secure env (smtp_port env))
                              (smtp_auth env) /\ s' = s /\ tr = []
  end.
Proof.
  unfold createEmailTransporter. destruct (validate env) as [err |].
  - intros Hr. apply runT_vis_inv in Hr as (x & s1 & tr' & _ & Hk & ->).
    cbn [runT bind] in Hk. injection Hk as <- _ <-. auto.
  - cbn [runT]. intros [= <- <- <-]. auto.
Qed.

(** What follows the send never rejects and sends nothing more. *)
Lemma after_send_inv info s r s' tr :
  runT h (after_send info) s = (r, s', tr) ->
  r = inr tt /\ (forall o, In o tr -> is_sendmail o = false) /\
  (forall err, info = Rejected err ->
     tr = [OConsole LError ["[emailService] Failed to send invoice email:"; error_to_string err]]).
Proof.
  destruct info as [msg preview | err]; cbn [after_send].
  - destruct (truthy_str msg), (truthy_str preview); cbn [bind console_ev trigger runT];
      repeat match goal with |- context [h ?X ?e ?s] => destruct (h X e s) end;
      cbn [runT]; intros [= <- <- <-];
      (split; [reflexivity | split; [intros o Ho; repeat destruct Ho as [<- | Ho]; easy | discriminate]]).
  - cbn [bind console_ev trigger runT]. destruct (h _ _ s). intros [= <- <- <-].
    split; [reflexivity | split; [intros o [<- | []]; reflexivity |]].
    intros e [= <-]. reflexivity.
Qed.

(** A run of [sendInvoiceEmail]: the transporter's run, one send of
    [mailOptions] with the rendered amount, then [after_send]. *)
Lemma sendInvoiceEmail_run env data p s r s' tr :
  sendInvoiceEmail validate env data = Some p -> runT h p s = (r, s', tr) ->
  exists T t s1 pre info s2 post,
    dollars (ed_amountCents data) = Some T /\
    runT h (createEmailTransporter validate env) s = (t, s1, pre) /\
    runT h (after_send info) s2 = (r, s', post) /\
    tr = (pre ++ OSendMail t (mailOptions env data T) info :: post)%list.
Proof.
  unfold sendInvoiceEmail. destruct (dollars (ed_amountCents data)) as [T |]; [| discriminate].
  intros [= <-] Hr. apply runT_bind_inv in Hr as (t & s1 & pre & tr2 & Ht & Hr & ->).
  apply runT_vis_inv in Hr as (info & s2 & post & _ & Ha & ->).
  exists T, t, s1, pre, info, s2, post. auto.
Qed.

(** C11.  [createEmailTransporter] on both branches: when the
    environment check throws, the JSON transport after one warning;
    otherwise SMTP options, silently, whose port is the number
    [SMTP_PORT] spells (587 when unset or empty) and which are secure
    exactly on port 465 or with [SMTP_SECURE=true]. *)
Theorem createEmailTransporter_config env s t s' tr :
  runT h (createEmailTransporter validate env) s = (t, s', tr) ->
  (forall err, validate env = Some err ->
     t = JsonTransport /\ tr = [OConsole LWarn [fallback_warning; err_message err]]) /\
  (validate env = None -> tr = [] /\
     exists port secure, t = SmtpTransport (env "SMTP_HOST") port secure (smtp_auth env) /\
       (forall z, 0 <= z < 2 ^ 53 -> env "SMTP_PORT" = Some (decimal z) ->
          port = of_Z z /\ (secure = true <-> z = 465 \/ env "SMTP_SECURE" = Some "true")) /\
       (env "SMTP_PORT" = None \/ env "SMTP_PORT" = Some EmptyString ->
          port = of_Z 587 /\ (secure = true <-> env "SMTP_SECURE" = Some "true"))).
Proof.
  intros Hr. pose proof (createEmailTransporter_inv env s t s' tr Hr) as Hc.
  split; [intros err Hv; rewrite Hv in Hc; exact Hc | intros Hv; rewrite Hv in Hc].
  destruct Hc as (-> & _ & ->). split; [reflexivity |].
  eexists _, _. split; [reflexivity | split].
  - intros z Hz Hp. rewrite (smtp_port_numeric env z) by (lia || exact Hp).
    split; [reflexivity | apply smtp_secure_of_Z; exact Hz].
  - intros Hp. rewrite (smtp_port_default env Hp). split; [reflexivity |].
    destruct (smtp_secure_of_Z env 587 ltac:(lia)) as [H1 H2].
    split; [intros H; destruct (H1 H) as [E | E]; [lia | exact E] | intros E; apply H2; now right].
Qed.

(** C10.  [sendInvoiceEmail] never rejects: every run resolves, sends
    exactly once through the transport [createEmailTransporter] built,
    and a rejected send is swallowed, the run ending with the error on
    the console. *)
Theorem sendInvoiceEmail_never_rejects env data p s r s' tr :
  sendInvoiceEmail validate env data = Some p -> runT h p s = (r, s', tr) ->
  r = inr tt /\
  exists t s1 pre mo info post,
    runT h (createEmailTransporter validate env) s = (t, s1, pre) /\
    tr = (pre ++ OSendMail t mo info :: post)%list /\
    (forall o, In o (pre ++ post)%list -> is_sendmail o = false) /\
    (forall err, info = Rejected err ->
       post = [OConsole LError ["[emailService] Failed to send invoice email:"; error_to_string err]]).
Proof.
  intros Hp Hr.
  destruct (sendInvoiceEmail_run env data p s r s' tr Hp Hr)
    as (T & t & s1 & pre & info & s2 & post & _ & Ht & Ha & ->).
  destruct (after_send_inv info s2 r s' post Ha) as (-> & Hpost & Herr).
  split; [reflexivity |]. exists t, s1, pre, (mailOptions env data T), info, post.
  split; [exact Ht | split; [reflexivity | split; [| exact Herr]]].
  intros o Ho. apply in_app_or in Ho as [Ho | Ho]; [| exact (Hpost o Ho)].
  pose proof (createEmailTransporter_inv env s t s1 pre Ht) as Hc.
  destruct (validate env); destruct Hc as (_ & Hc); [| destruct Hc as (_ & Hc)];
    subst pre; [destruct Ho as [<- | []]; reflexivity | destruct Ho].
Qed.

(** C9.  The mail carries the amount to the cent: for an integral
    [amountCents] below [2^52] the message [sendInvoiceEmail] sends is
    [mailOptions] with the amount [c / 100] printed with two decimals,
    and its HTML shows that total, the invoice id and the licence key. *)
Theorem sendInvoiceEmail_content env data c :
  ed_amountCents data = of_Z c -> 0 <= c < 2 ^ 52 ->
  exists p, sendInvoiceEmail validate env data = Some p /\
  (forall s r s' tr, runT h p s = (r, s', tr) ->
     exists t info, In (OSendMail t (mailOptions env data (fixed2 c)) info) tr) /\
  let html := im_html (mailOptions env data (fixed2 c)) in
  contains html ("<strong>Total Amount:</strong> $" ++ fixed2 c ++ " AUD (inc. GST)") /\
  contains html ("<strong>Invoice ID:</strong> " ++ ed_invoiceId data ++ "</p>") /\
  contains html (ed_licenseKey data).
Proof.
  intros Hc Hb. unfold sendInvoiceEmail at 1. rewrite Hc, dollars_exact by exact Hb.
  eexists. split; [reflexivity | split; [| apply invoice_html_details]].
  intros s r s' tr Hr.
  assert (Hp : sendInvoiceEmail validate env data = Some
                 (transporter <- createEmailTransporter validate env ;;
                  info <- sendmail_ev transporter (mailOptions env data (fixed2 c)) ;;
                  after_send info)%nk)
    by (unfold sendInvoiceEmail; rewrite Hc, dollars_exact by exact Hb; reflexivity).
  destruct (sendInvoiceEmail_run env data _ s r s' tr Hp Hr)
    as (T & t & s1 & pre & info & s2 & post & HT & _ & _ & ->).
  rewrite Hc, dollars_exact in HT by exact Hb. injection HT as <-.
  exists t, info. apply in_or_app. right. left. reflexivity.
Qed.

End MailerProofs.

(** ** Concrete runs *)

(** A transport that answers every send with [info]; the console is
    ignored. *)
Definition invoice_mail_handler (info : SendInfo) : handler invE unit :=
  fun X e s => match e with
  | inl1 m => match m in transportE Y return Y * unit with SendMailVia _ _ => (info, s) end
  | inr1 c => match c in consoleE Y return Y * unit with Console _ _ => (tt, s) end
  end.

Definition env_validates : Env -> option JsError := fun _ => None.
Definition env_missing : Env -> option JsError :=
  fun env => if truthy_str (env "SMTP_HOST") then None
             else Some (js_error "Missing required email environment variables").

Definition demo_invoice_mail : EmailInvoiceData :=
  mkEmailInvoiceData "buyer@example.com" "INV-1001" "SEP-ABCD-1234" (of_Z 2200) [].

Definition smtp_refused : SendInfo := Rejected (js_error "connect ECONNREFUSED").

Lemma createEmailTransporter_config_witness :
  exists port secure,
    SmtpTransport (Some "smtp.example.com") (of_Z 465) true (Some ("mailer@example.com", None))
    = SmtpTransport (Some "smtp.example.com") port secure (smtp_auth demo_env) /\ secure = true.
Proof.
  assert (E : runT (invoice_mail_handler smtp_refused) (createEmailTransporter env_validates demo_env) tt
              = (SmtpTransport (Some "smtp.example.com") (of_Z 465) true
                               (Some ("mailer@example.com", None)), tt, [])) by (vm_compute; reflexivity).
  destruct (createEmailTransporter_config env_validates (invoice_mail_handler smtp_refused) demo_env
              tt _ tt [] E) as [_ Hs].
  destruct (Hs eq_refl) as (_ & port & secure & Ht & Hz & _). exists port, secure.
  split; [exact Ht |]. apply (proj2 (proj2 (Hz 465 ltac:(lia) eq_refl))). left. reflexivity.
Defined.

(** With the environment check failing and the send refused, the
    mail goes to the JSON transport and the run still resolves. *)
Lemma sendInvoiceEmail_never_rejects_witness :
  exists p, sendInvoiceEmail env_missing (fun _ => None) demo_invoice_mail = Some p /\
    runT (invoice_mail_handler smtp_refused) p tt =
    (inr tt, tt,
     [OConsole LWarn [fallback_warning; "Missing required email environment variables"];
      OSendMail JsonTransport (mailOptions (fun _ => None) demo_invoice_mail "22.00") smtp_refused;
      OConsole LError ["[emailService] Failed to send invoice email:"; "Error: connect ECONNREFUSED"]]) /\
    fst (fst (runT (invoice_mail_handler smtp_refused) p tt)) = inr tt.
Proof.
  assert (Hp : exists p, sendInvoiceEmail env_missing (fun _ => None) demo_invoice_mail = Some p)
    by (eexists; vm_compute; reflexivity).
  destruct Hp as [p Hs].
  exists p. split; [exact Hs |].
  assert (Hr : runT (invoice_mail_handler smtp_refused) p tt =
    (inr tt, tt,
     [OConsole LWarn [fallback_warning; "Missing required email environment variables"];
      OSendMail JsonTransport (mailOptions (fun _ => None) demo_invoice_mail "22.00") smtp_refused;
      OConsole LError ["[emailService] Failed to send invoice email:"; "Error: connect ECONNREFUSED"]]))
    by (revert Hs; vm_compute; intros [= <-]; vm_compute; reflexivity).
  split; [exact Hr |].
  destruct (sendInvoiceEmail_never_rejects env_missing (invoice_mail_handler smtp_refused)
              (fun _ => None) demo_invoice_mail p tt _ _ _ Hs Hr) as [Hok _].
  rewrite Hr. exact Hok.
Defined.

(** The demo invoice of 2200 cents shows $22.00. *)
Lemma sendInvoiceEmail_content_witness :
  fixed2 2200 = "22.00" /\
  contains (im_html (mailOptions demo_env demo_invoice_mail (fixed2 2200)))
           ("<strong>Total Amount:</strong> $" ++ fixed2 2200 ++ " AUD (inc. GST)").
Proof.
  split; [vm_compute; reflexivity |].
  destruct (sendInvoiceEmail_content env_validates (invoice_mail_handler (Delivered None None))
              demo_env demo_invoice_mail 2200 eq_refl ltac:(lia)) as (_ & _ & _ & Hh & _).
  exact Hh.
Defined.

(** A non-numeric [SMTP_PORT] gives port [NaN] here, where
    [emailService.js] falls back to 587 on the same environment. *)
Example smtp_port_not_a_number :
  let env := fun v => if String.eqb v "SMTP_HOST" then Some "smtp.example.com"
                      else if String.eqb v "SMTP_PORT" then Some "smtp" else None in
  smtp_port env = NaN /\ smtp_secure env (smtp_port env) = false /\
  run (test_handler example_resolver (SendOk None)) (createTransporter env) tt
  = (Some (mkSmtp "smtp.example.com" (of_Z 587) false None), tt).
Proof. vm_compute. repeat split. Qed.
