(* ===== verification/ApiWorker.v ===== *)
(** The edge API worker of [src/my-api/src/index.ts], the CORS headers
    of [src/my-api/src/cors.ts] and the Pages function
    [src/functions:api:hello.ts].

    [worker_fetch] is the worker's [fetch] handler: a preflight answer
    for [OPTIONS], then, inside the outer [try], the URL's path chooses
    the health check, the API index, one of four API routes or the
    static assets; whatever is thrown becomes a 500 answer.  The clock
    ([new Date()]), the request body ([req.json()]), the asset store
    ([env.ASSETS.fetch]) and the console are events.  A response body is
    the JSON value [JSON.stringify(data, null, 2)] prints (fields whose
    value is [undefined] are left out), or the asset's body.  [new URL]
    is the platform's URL parser: a section variable returning the
    [pathname] or the [TypeError] it throws. *)

From Stdlib Require Import ZArith List String Ascii Bool Lia.
From S2P Require Import Prelude JsString JsNumber EmailVerifier.
Import ListNotations.
Open Scope string_scope.

(** ** JSON values, headers and responses *)

#[warnings="-register-all"]
Inductive Json :=
| JNull
| JBool (b : bool)
| JNum (n : jsnum)
| JStr (s : string)
| JArr (items : list Json)
| JObj (fields : list (string * Json)).

(** An object literal some of whose fields may be [undefined]. *)
Definition jobj (fields : list (string * option Json)) : Json :=
  JObj (flat_map (fun '(k, v) => match v with Some j => [(k, j)] | None => [] end) fields).

(** An object with string values, in insertion order. *)
Definition Dict := list (string * string).

(** Assigning a key: a present key keeps its place and takes the new
    value, a new key goes last.  This is both a property assignment in
    an object literal and [Headers.prototype.set] on a lower-cased name. *)
Fixpoint assoc_put (k v : string) (o : Dict) : Dict :=
  match o with
  | [] => [(k, v)]
  | (k', v') :: r => if String.eqb k k' then (k, v) :: r else (k', v') :: assoc_put k v r
  end.

(** [{...o, ...a}] *)
Definition obj_spread (o a : Dict) : Dict :=
  fold_left (fun acc '(k, v) => assoc_put k v acc) a o.

(** [Headers.prototype.append]: a second value of a name is joined to
    the first with [", "]. *)
Fixpoint headers_append (k v : string) (h : Dict) : Dict :=
  match h with
  | [] => [(k, v)]
  | (k', v') :: r => if String.eqb k k' then (k', v' ++ ", " ++ v) :: r
                     else (k', v') :: headers_append k v r
  end.

(** [new Headers(init)] from a record: names are lower-cased. *)
Definition headers_of_init (init : Dict) : Dict :=
  fold_left (fun h '(k, v) => headers_append (toLowerCase k) v h) init [].

Definition headers_set (name v : string) (h : Dict) : Dict := assoc_put (toLowerCase name) v h.

(** [Headers.prototype.get] *)
Definition header_get (name : string) (h : Dict) : option string :=
  match find (fun kv => String.eqb (fst kv) (toLowerCase name)) h with
  | Some (_, v) => Some v
  | None => None
  end.

Inductive Body :=
| NoBody
| JsonBody (j : Json)
| AssetBody (b : list Byte.byte).

Record Response := mkResponse { status : Z; headers : Dict; body : Body }.

Record Request := mkRequest {
  method : string;
  url : string;
  req_headers : Dict;   (** the [Headers] object, in iteration order *)
  cf : option Json
}.

(** [new Response(body, { status, headers })] *)
Definition new_response (b : Body) (st : Z) (init : Dict) : Response :=
  mkResponse st (headers_of_init init) b.

(** ** [index.ts] *)

Definition REGION : string := "Tamil Nadu".

(** [corsHeaders], lines 33-38. *)
Definition corsHeaders : Dict :=
  [("Access-Control-Allow-Origin", "*");
   ("Access-Control-Allow-Methods", "GET,HEAD,POST,PUT,DELETE,OPTIONS");
   ("Access-Control-Allow-Headers", "Content-Type,Authorization");
   ("Access-Control-Max-Age", "86400")].

(** [jsonResponse(data, status = 200, extraHeaders = {})], lines 44-53. *)
Definition jsonResponse (data : Json) (st : Z) (extraHeaders : Dict) : Response :=
  new_response (JsonBody data) st
    (obj_spread (obj_spread (obj_spread [] corsHeaders) [("Content-Type", "application/json")])
                extraHeaders).

(** What [new Date()] gives the worker: [toISOString()] and
    [toUTCString()] of one instant. *)
Record Instant := mkInstant { iso : string; utc : string }.

(** What [env.ASSETS.fetch(req)] resolves with, or rejects with. *)
Inductive AssetAnswer :=
| AssetResolved (r : Response)
| AssetRejected (err : JsError).

Inductive workerE : Type -> Type :=
| Now : workerE Instant
| ReadJson : workerE (option Json)          (** [req.json()]: the value, or [None] on rejection *)
| FetchAsset (r : Request) : workerE AssetAnswer
| WorkerLog (level : string) (args : list string) : workerE unit.

Definition now_ev : prog workerE Instant := trigger Now.
Definition read_json_ev : prog workerE (option Json) := trigger ReadJson.
Definition fetch_asset_ev (r : Request) : prog workerE AssetAnswer := trigger (FetchAsset r).
Definition log_ev (level : string) (args : list string) : prog workerE unit :=
  trigger (WorkerLog level args).

Inductive WObs :=
| ONow (t : Instant)
| OReadJson (j : option Json)
| OFetchAsset (r : Request) (a : AssetAnswer)
| OLog (level : string) (args : list string).

#[export] Instance observe_worker : Observe workerE WObs :=
  fun X e => match e in workerE X return X -> WObs with
  | Now => ONow
  | ReadJson => OReadJson
  | FetchAsset r => OFetchAsset r
  | WorkerLog l args => fun _ => OLog l args
  end.

(** The bodies of the answers, lines 68-146. *)
Definition health_body (t : Instant) : Json :=
  JObj [("status", JStr "ok"); ("timestamp", JStr (iso t)); ("region", JStr REGION)].

Definition available_endpoints : list string := ["/api/hello"; "/api/time"; "/api/echo"; "/api/info"].

Definition api_index_body (t : Instant) : Json :=
  JObj [("name", JStr "NK2IT API"); ("version", JStr "1.0.0"); ("timestamp", JStr (iso t));
        ("region", JStr REGION);
        ("endpoints", JObj [("base", JStr "/api"); ("available", JArr (map JStr available_endpoints))])].

Definition hello_body (t : Instant) : Json :=
  JObj [("message", JStr "Hello from NK2IT API!"); ("timestamp", JStr (iso t)); ("region", JStr REGION)].

Definition time_body (t : Instant) : Json :=
  JObj [("iso", JStr (iso t)); ("utc", JStr (utc t)); ("timezone", JStr "Asia/Kolkata");
        ("region", JStr REGION)].

(** [Object.fromEntries(req.headers)] *)
Definition headers_object (h : Dict) : Json := JObj (map (fun '(k, v) => (k, JStr v)) h).

Definition echo_body (received : Json) (h : Dict) (t : Instant) : Json :=
  JObj [("received", received); ("headers", headers_object h); ("timestamp", JStr (iso t));
        ("region", JStr REGION)].

Definition info_body (req : Request) (t : Instant) : Json :=
  JObj [("worker", JObj [("version", JStr "1.0.0"); ("name", JStr "NK2IT API");
                         ("timestamp", JStr (iso t)); ("region", JStr REGION)]);
        ("request", jobj [("cf", cf req); ("url", Some (JStr (url req)));
                          ("method", Some (JStr (method req)));
                          ("headers", Some (headers_object (req_headers req)))])].

(** Lines 152-158. *)
Definition api_not_found (pathname m : string) : Response :=
  jsonResponse (JObj [("error", JStr "API endpoint not found or method not allowed");
                      ("path", JStr pathname); ("method", JStr m); ("availableAt", JStr "/api");
                      ("region", JStr REGION)]) 404 [].

(** Lines 175-180. *)
Definition static_not_found (pathname : string) : Response :=
  jsonResponse (JObj [("error", JStr "Not Found"); ("path", JStr pathname);
                      ("availableAt", JStr "/api"); ("region", JStr REGION)]) 404 [].

(** Lines 182-189. *)
Definition worker_error (err : JsError) : Response :=
  jsonResponse (JObj [("error", JStr "Internal Server Error"); ("message", JStr (err_message err));
                      ("region", JStr REGION)]) 500 [].

(** The [switch] of lines 96-158. *)
Definition api_route (req : Request) (pathname : string) : prog workerE Response :=
  let m := method req in
  if String.eqb pathname "/api/hello" then
    if String.eqb m "GET" then (t <- now_ev ;; Ret (jsonResponse (hello_body t) 200 []))%nk
    else Ret (api_not_found pathname m)
  else if String.eqb pathname "/api/time" then
    if String.eqb m "GET" then (t <- now_ev ;; Ret (jsonResponse (time_body t) 200 []))%nk
    else Ret (api_not_found pathname m)
  else if String.eqb pathname "/api/echo" then
    if String.eqb m "POST" then
      (b <- read_json_ev ;; t <- now_ev ;;
       let received := match b with Some j => j | None => JObj [] end in
       Ret (jsonResponse (echo_body received (req_headers req) t) 200 []))%nk
    else Ret (api_not_found pathname m)
  else if String.eqb pathname "/api/info" then
    if String.eqb m "GET" then (t <- now_ev ;; Ret (jsonResponse (info_body req t) 200 []))%nk
    else Ret (api_not_found pathname m)
  else Ret (api_not_found pathname m).

(** [pathname.replace(/^\//, "") || "index.html"], line 163; the
    worker computes it and does not use it. *)
Definition static_path (pathname : string) : string :=
  let p := match pathname with String "/" r => r | _ => pathname end in
  if String.eqb p EmptyString then "index.html" else p.

(** Lines 162-172: a 200 from the asset store is passed on with a
    cache header; anything else, or a failed fetch, ends in the 404. *)
Definition static_route (req : Request) (pathname : string) : prog workerE Response :=
  (a <- fetch_asset_ev req ;;
   match a with
   | AssetResolved asset =>
       if Z.eqb (status asset) 200 then
         Ret (mkResponse (status asset) (headers_set "Cache-Control" "public, max-age=14400"
                                                     (headers asset)) (body asset))
       else Ret (static_not_found pathname)
   | AssetRejected err =>
       log_ev "debug" ["Static asset error:"; error_to_string err] ;; Ret (static_not_found pathname)
   end)%nk.

(** Lines 66-180: the branches on the path. *)
Definition route (req : Request) (pathname : string) : prog workerE Response :=
  if String.eqb pathname "/health" then
    (t <- now_ev ;; Ret (jsonResponse (health_body t) 200 []))%nk
  else if String.eqb pathname "/api" || String.eqb pathname "/api/" then
    (t <- now_ev ;; Ret (jsonResponse (api_index_body t) 200 []))%nk
  else if startsWith pathname "/api/" then api_route req pathname
  else static_route req pathname.

Section Worker.
(** [new URL(req.url).pathname], or the [TypeError] it throws. *)
Variable url_pathname : string -> JsError + string.

(** [fetch(req, env, ctx)], lines 56-190: a promise of a response that
    could reject ([inl]). *)
Definition worker_fetch (req : Request) : prog workerE (JsError + Response) :=
  if String.eqb (method req) "OPTIONS" then Ret (inr (new_response NoBody 200 corsHeaders))
  else
    match url_pathname (url req) with
    | inl err => (log_ev "error" ["Worker error:"; error_to_string err] ;; Ret (inr (worker_error err)))%nk
    | inr pathname => (r <- route req pathname ;; Ret (inr r))%nk
    end.

End Worker.

(** ** [cors.ts] and the Pages function *)

(** [corsHeaders] of [cors.ts]: the same names, the methods in another order. *)
Definition cors_ts_headers : Dict :=
  [("Access-Control-Allow-Origin", "*");
   ("Access-Control-Allow-Methods", "GET,HEAD,POST,OPTIONS,PUT,DELETE");
   ("Access-Control-Allow-Headers", "Content-Type,Authorization");
   ("Access-Control-Max-Age", "86400")].

(** [onRequestGet] of [functions:api:hello.ts]: the same answer for every request. *)
Definition onRequestGet (req : Request) : Response :=
  new_response (JsonBody (JObj [("ok", JBool true); ("msg", JStr "Hello from Cloudflare Pages Functions!")]))
    200 [("content-type", "application/json")].

(** ** Properties *)

(** A response carries every CORS header with its value. *)
Definition has_cors (r : Response) : Prop :=
  forall k v, In (k, v) corsHeaders -> header_get k (headers r) = Some v.

(** A static asset passed on with the cache header. *)
Definition cached_asset (r : Response) : Prop :=
  status r = 200 /\ header_get "Cache-Control" (headers r) = Some "public, max-age=14400".

(** The endpoints the API serves, method first: the specification of
    the [switch]. *)
Definition api_table : list (string * string) :=
  [("GET", "/api/hello"); ("GET", "/api/time"); ("POST", "/api/echo"); ("GET", "/api/info")].

Lemma jsonResponse_cors d st : has_cors (jsonResponse d st []).
Proof.
  intros k v Hin. unfold jsonResponse, new_response. cbn [headers].
  repeat destruct Hin as [[= <- <-] | Hin]; [..| destruct Hin]; vm_compute; reflexivity.
Qed.

Lemma preflight_cors : has_cors (new_response NoBody 200 corsHeaders).
Proof.
  intros k v Hin. repeat destruct Hin as [[= <- <-] | Hin]; [..| destruct Hin]; vm_compute; reflexivity.
Qed.

Lemma header_get_set name v h : header_get name (headers_set name v h) = Some v.
Proof.
  unfold header_get, headers_set. induction h as [| [k' v'] r IH]; cbn [assoc_put find fst].
  - rewrite String.eqb_refl. reflexivity.
  - destruct (String.eqb_spec (toLowerCase name) k') as [-> | Hne]; cbn [find fst].
    + rewrite String.eqb_refl. reflexivity.
    + destruct (String.eqb_spec k' (toLowerCase name)); [congruence | exact IH].
Qed.

Ltac always_steps :=
  repeat (first [progress cbn [always bind now_ev read_json_ev fetch_asset_ev log_ev trigger]
                | intros ?]).

(** Every answer of [route] is a 200 or a 404, with the CORS headers
    unless it is a static asset passed on. *)
Lemma route_ok req p :
  always (fun r => (status r = 200 \/ status r = 404) /\ (has_cors r \/ cached_asset r)) (route req p).
Proof.
  assert (J : forall d st, st = 200 \/ st = 404 ->
                (status (jsonResponse d st []) = 200 \/ status (jsonResponse d st []) = 404) /\
                (has_cors (jsonResponse d st []) \/ cached_asset (jsonResponse d st [])))
    by (intros d st Hs; split; [exact Hs | left; apply jsonResponse_cors]).
  unfold route, api_route, static_route.
  repeat match goal with |- context [if ?b then _ else _] => destruct b end;
    always_steps; try (apply J; auto).
  match goal with a : AssetAnswer |- _ => destruct a as [asset | err] end; always_steps;
    [| apply J; auto].
  destruct (Z.eqb_spec (status asset) 200) as [Hs | _]; cbn [always]; [| apply J; auto].
  split; [left; exact Hs | right; split; [exact Hs | apply header_get_set]].
Qed.

(** Every branch of [route] settles after at most two awaits: the
    request body and the clock for [/api/echo], the asset store and a
    log line for a failed asset fetch. *)
Lemma route_bounded req p : bounded 2 (route req p).
Proof.
  unfold route, api_route, static_route.
  repeat match goal with |- context [if ?b then _ else _] => destruct b end;
    repeat (first [ exact I
                  | progress cbn [bounded bind now_ev read_json_ev fetch_asset_ev log_ev trigger]
                  | intros [asset | err]
                  | intros ?
                  | match goal with |- context [if ?b then _ else _] => destruct b end ]).
Qed.

(** One leaf of the [switch]: the answer is the 200 of its route, or
    the not-found answer when the method or the path is not the table's. *)
Ltac route_leaf :=
  always_steps; eexists; (split; [reflexivity |]); split; intro; cbn [In api_table] in *;
  first [ reflexivity
        | match goal with
          | Hn : ~ _, Hm : method _ = _ |- _ => exfalso; apply Hn; rewrite Hm; tauto
          end
        | intuition congruence ].

Section WorkerProofs.
Variable url_pathname : string -> JsError + string.

(** C21.  Every response of the worker carries the CORS headers, the
    preflight answer and the errors included, except a static asset
    passed on from the asset store with its cache header. *)
Theorem worker_cors req :
  always (fun r => exists resp, r = inr resp /\ (has_cors resp \/ cached_asset resp))
    (worker_fetch url_pathname req).
Proof.
  unfold worker_fetch. destruct (String.eqb (method req) "OPTIONS").
  - eexists. split; [reflexivity | left; apply preflight_cors].
  - destruct (url_pathname (url req)) as [err | p].
    + always_steps. eexists. split; [reflexivity | left; apply jsonResponse_cors].
    + apply always_bind. refine (always_mono _ _ _ _ (route_ok req p)).
      intros r [_ H]. eexists. split; [reflexivity | exact H].
Qed.

(** C22.  The worker never rejects, and it answers 500 exactly on a
    request other than a preflight whose URL does not parse, with the
    parser's message: every other answer is a 200 or a 404. *)
Theorem worker_errors req :
  always (fun r => exists resp, r = inr resp /\
            ((status resp = 200 \/ status resp = 404) \/
             (exists err, url_pathname (url req) = inl err /\ resp = worker_error err)) /\
            (status resp = 500 -> exists err, url_pathname (url req) = inl err /\ resp = worker_error err) /\
            (forall err, String.eqb (method req) "OPTIONS" = false -> url_pathname (url req) = inl err ->
               resp = worker_error err))
    (worker_fetch url_pathname req).
Proof.
  unfold worker_fetch. destruct (String.eqb (method req) "OPTIONS").
  - eexists. split; [reflexivity | split; [left; left; reflexivity | split; [discriminate | discriminate]]].
  - destruct (url_pathname (url req)) as [err | p] eqn:Hu.
    + always_steps. eexists. split; [reflexivity | split; [right; exists err; auto | split]].
      * intros _. exists err. auto.
      * intros e _ [= ->]. reflexivity.
    + apply always_bind. refine (always_mono _ _ _ _ (route_ok req p)).
      intros r [Hs _]. eexists. split; [reflexivity | split; [left; exact Hs | split; [lia | discriminate]]].
Qed.

(** C31.  The worker settles every request, the preflight, parse
    errors and each route included, after at most two awaited events. *)
Theorem worker_bounded req : bounded 2 (worker_fetch url_pathname req).
Proof.
  unfold worker_fetch. destruct (String.eqb (method req) "OPTIONS"); [exact I |].
  destruct (url_pathname (url req)) as [err | p]; [cbn [bounded bind log_ev trigger]; intros _; exact I |].
  apply (bounded_bind 2 0); [apply route_bounded |].
  refine (always_mono _ _ _ _ (route_ok req p)). intros; exact I.
Qed.

(** C23.  Under [/api/] the worker serves exactly the table: a request
    (not a preflight) for a path of [api_table] with its method is
    answered 200, any other path or method the not-found answer; and
    the API index advertises exactly the table's paths. *)
Theorem api_routes_table req p :
  String.eqb (method req) "OPTIONS" = false -> url_pathname (url req) = inr p ->
  startsWith p "/api/" = true -> p <> "/api/" ->
  always (fun r => exists resp, r = inr resp /\
            (In (method req, p) api_table -> status resp = 200) /\
            (~ In (method req, p) api_table -> resp = api_not_found p (method req)))
    (worker_fetch url_pathname req) /\
  map snd api_table = available_endpoints.
Proof.
  intros Ho Hu Hs Hne. split; [| reflexivity].
  unfold worker_fetch. rewrite Ho, Hu. apply always_bind. unfold route.
  destruct (String.eqb_spec p "/health") as [-> | _]; [discriminate |].
  destruct (String.eqb_spec p "/api") as [-> | _]; [discriminate |].
  destruct (String.eqb_spec p "/api/") as [-> | _]; [congruence |]. rewrite Hs. cbn [orb].
  unfold api_route.
  destruct (String.eqb_spec p "/api/hello") as [-> | H1];
    [destruct (String.eqb_spec (method req) "GET") as [Hm | Hm]; route_leaf |].
  destruct (String.eqb_spec p "/api/time") as [-> | H2];
    [destruct (String.eqb_spec (method req) "GET") as [Hm | Hm]; route_leaf |].
  destruct (String.eqb_spec p "/api/echo") as [-> | H3];
    [destruct (String.eqb_spec (method req) "POST") as [Hm | Hm]; route_leaf |].
  destruct (String.eqb_spec p "/api/info") as [-> | H4];
    [destruct (String.eqb_spec (method req) "GET") as [Hm | Hm]; route_leaf | route_leaf].
Qed.

End WorkerProofs.

(** ** Concrete runs *)

(** A parser for absolute [https:] URLs: the path up to the query or
    the fragment. *)
Fixpoint path_part (s : string) : string :=
  match s with
  | EmptyString => EmptyString
  | String c r => if Ascii.eqb c "?"%char || Ascii.eqb c "#"%char then EmptyString
                  else String c (path_part r)
  end.

Fixpoint drop_host (s : string) : string :=
  match s with
  | EmptyString => "/"
  | String c r => if Ascii.eqb c "/"%char then path_part s else drop_host r
  end.

Definition demo_url_pathname (u : string) : JsError + string :=
  if startsWith u "https://" then inr (drop_host (substring 8 (String.length u - 8) u))
  else inl (mkError "TypeError" "Invalid URL").

Definition demo_instant : Instant :=
  mkInstant "2026-01-01T00:00:00.000Z" "Thu, 01 Jan 2026 00:00:00 GMT".

(** A platform whose clock reads [demo_instant], whose request bodies
    do not parse and whose asset store answers [asset]. *)
Definition demo_worker_handler (asset : AssetAnswer) : handler workerE unit :=
  fun X e s => match e in workerE Y return Y * unit with
  | Now => (demo_instant, s)
  | ReadJson => (None, s)
  | FetchAsset _ => (asset, s)
  | WorkerLog _ _ => (tt, s)
  end.

Definition demo_request (m u : string) : Request :=
  mkRequest m u [("accept", "application/json")] None.

(** An asset store answer for [/index.html], with no CORS header. *)
Definition demo_asset : Response :=
  mkResponse 200 [("content-type", "text/html")] (AssetBody []).

Lemma api_routes_table_witness :
  exists resp,
    fst (fst (runT (demo_worker_handler (AssetResolved demo_asset))
                   (worker_fetch demo_url_pathname (demo_request "GET" "https://api.nk2it.com.au/api/hello?x=1"))
                   tt)) = inr resp /\ status resp = 200.
Proof.
  destruct (api_routes_table demo_url_pathname
              (demo_request "GET" "https://api.nk2it.com.au/api/hello?x=1") "/api/hello"
              eq_refl eq_refl eq_refl ltac:(discriminate)) as [Ha _].
  destruct (runT (demo_worker_handler (AssetResolved demo_asset)) _ tt) as [[r s'] tr] eqn:E.
  destruct (always_runT _ _ _ _ _ _ _ Ha E) as (resp & -> & H200 & _).
  exists resp. split; [reflexivity | apply H200; cbn; auto].
Defined.

(** The header of [index.ts] lists [/api/products] and other routes
    the worker does not have: they are answered 404. *)
Example products_not_found :
  fst (fst (runT (demo_worker_handler (AssetResolved demo_asset))
                 (worker_fetch demo_url_pathname (demo_request "GET" "https://api.nk2it.com.au/api/products"))
                 tt)) = inr (api_not_found "/api/products" "GET").
Proof. vm_compute. reflexivity. Qed.

(** A static asset is passed on without the CORS headers. *)
Example static_asset_without_cors :
  exists resp,
    fst (fst (runT (demo_worker_handler (AssetResolved demo_asset))
                   (worker_fetch demo_url_pathname (demo_request "GET" "https://nk2it.com.au/index.html"))
                   tt)) = inr resp /\
    header_get "Access-Control-Allow-Origin" (headers resp) = None /\ cached_asset resp.
Proof. eexists. split; [vm_compute; reflexivity | split; vm_compute; [reflexivity | split; reflexivity]]. Qed.

(** The Pages function answers without any CORS header. *)
Example hello_function_answer :
  status (onRequestGet (demo_request "GET" "https://nk2it.com.au/api/hello")) = 200 /\
  header_get "Content-Type" (headers (onRequestGet (demo_request "GET" "https://nk2it.com.au/api/hello")))
  = Some "application/json" /\
  header_get "Access-Control-Allow-Origin"
    (headers (onRequestGet (demo_request "GET" "https://nk2it.com.au/api/hello"))) = None.
Proof. vm_compute. auto. Qed.
