(* ===== verification/LegacyPdf.v ===== *)
(** The legacy wrapper [generateInvoicePdf] of [src/server/newpdfinvoice.ts].

    The wrapper first tries the service: when [./services/pdfService]
    loads and exports [generateInvoicePDF], it renders the invoice with
    the defaults of line 10 and the e-mail [no-reply@nk2it.com.au] when
    none is given, writes the buffer to [outPath] when there is one and
    returns the path or the buffer.  Any throw or rejection on that path
    is caught and the inline writer of lines 32-99 runs instead: an A4
    document with 40-point margins, the invoice number cut into chunks
    of [charsPerLine] characters, the date below the number, a few fixed
    lines and the amount, piped to a file stream whose [finish] resolves
    the promise.

    Loading the module, the service's rendering (modelled in
    [InvoiceLayout]), the file system and the logo file are events; the
    inline writer is a PDFKit document ([PdfKit]) with the page geometry
    of A4. *)

From Stdlib Require Import ZArith List String Ascii Bool Lia.
From S2P Require Import Prelude JsString JsNumber Money PdfKit InvoiceLayout EmailVerifier.
Import ListNotations.
Open Scope string_scope.
Local Open Scope nk_scope.

(** ** Parameters and effects *)

(** [params]: [undefined] fields are [None]. *)
Record LegacyParams := mkLegacyParams {
  lp_invoiceNo : string;
  lp_date : string;
  lp_outPath : option string;
  lp_email : option string;
  lp_licenseKey : option string;
  lp_amountCents : option jsnum
}.

(** The destructuring defaults of line 10. *)
Definition lp_licenseKey_or_default (p : LegacyParams) : string :=
  match lp_licenseKey p with Some k => k | None => "NO-LICENSE-KEY" end.

Definition lp_amount_or_default (p : LegacyParams) : jsnum :=
  match lp_amountCents p with Some a => a | None => of_Z 0 end.

(** The argument of the delegated call, lines 16-21. *)
Definition delegated_data (p : LegacyParams) : InvoiceData :=
  mkInvoice (lp_invoiceNo p)
    (match lp_email p with Some e => if String.eqb e EmptyString then "no-reply@nk2it.com.au" else e
                          | None => "no-reply@nk2it.com.au" end)
    (lp_licenseKey_or_default p) (lp_amount_or_default p).

Definition Buffer := list Byte.byte.

(** What the wrapper resolves with: [outPath] or the buffer. *)
Inductive LegacyResult :=
| RPath (path : string)
| RBuffer (buf : Buffer).

Inductive legacyE : Type -> Type :=
| LoadService : legacyE bool                       (** [require] gives a [generateInvoicePDF] function *)
| RenderService (data : InvoiceData) : legacyE (JsError + Buffer)
| WriteFile (path : string) (buf : Buffer) : legacyE (option JsError)   (** [fs.writeFileSync] *)
| LogoReadable (path : string) : legacyE bool
| StreamFinish (path : string) (doc : Doc) : legacyE (option JsError).  (** [finish], or [error] *)

Definition load_ev : prog legacyE bool := trigger LoadService.
Definition render_ev (data : InvoiceData) : prog legacyE (JsError + Buffer) := trigger (RenderService data).
Definition write_ev (path : string) (buf : Buffer) : prog legacyE (option JsError) :=
  trigger (WriteFile path buf).
Definition logo_ev (path : string) : prog legacyE bool := trigger (LogoReadable path).
Definition finish_ev (path : string) (doc : Doc) : prog legacyE (option JsError) :=
  trigger (StreamFinish path doc).

Inductive LObs :=
| OLoad (ok : bool)
| ORender (data : InvoiceData) (answer : JsError + Buffer)
| OWrite (path : string) (buf : Buffer) (answer : option JsError)
| OLogo (path : string) (readable : bool)
| OFinish (path : string) (doc : Doc) (answer : option JsError).

#[export] Instance observe_legacy : Observe legacyE LObs :=
  fun X e => match e in legacyE X return X -> LObs with
  | LoadService => OLoad
  | RenderService d => ORender d
  | WriteFile p b => OWrite p b
  | LogoReadable p => OLogo p
  | StreamFinish p d => OFinish p d
  end.

(** ** The inline writer *)

(** [new PDFDocument({ size: 'A4', margin: 40 })] *)
Definition a4_width : jsnum := round_q 59528 100.
Definition a4_height : jsnum := round_q 84189 100.
Definition legacy_margin : jsnum := of_Z 40.
Definition legacy_maxY : jsnum := sub a4_height legacy_margin.

Definition legacy_new_doc : Doc := mkDoc Helvetica (of_Z 12) "#000000" 0 legacy_margin legacy_margin [].

(** [path.join(__dirname, '..', '..', 'attached_assets', ...)] from
    [src/server]: one directory above the service's. *)
Definition legacy_logoPath : string :=
  "../attached_assets/Nk2IT tag Logo_bg remove (1)_1755672419460.png".

Definition legacy_headerY : jsnum := of_Z 30.
Definition legacy_pageWidth : jsnum := sub (sub a4_width legacy_margin) legacy_margin.
Definition metaX : jsnum := legacy_margin.
Definition legacy_metaY : jsnum := add legacy_headerY (of_Z 6).
Definition metaWidth : jsnum := sub legacy_pageWidth (of_Z 140).
Definition meta_opts : TextOpts := mkOpts (Some metaWidth) AlignRight.
Definition lit_0_2 : jsnum := round_q 2 10.
Definition legacy_idFontSize : jsnum := of_Z 10.

(** Lines 68-69. *)
Definition legacy_approxCharWidth : jsnum := max (of_Z 4) (mul legacy_idFontSize lit_0_6).
Definition legacy_charsPerLine : jsnum :=
  max (of_Z 10) (floor (div metaWidth legacy_approxCharWidth)).

(** Lines 71-74: the same loop as the service's. *)
Definition idParts (invoiceIdRaw : string) : list string :=
  chunks invoiceIdRaw (to_index legacy_charsPerLine).

(** Line 76: [idParts.join('\n') || invoiceIdRaw]. *)
Definition legacy_invoiceIdText (invoiceIdRaw : string) : string :=
  let t := join (String "010"%char EmptyString) (idParts invoiceIdRaw) in
  if String.eqb t EmptyString then invoiceIdRaw else t.

Definition legacy_idY : jsnum := add legacy_metaY (of_Z 14).

Definition quote_mark : string := String (ascii_of_nat 34) EmptyString.

(** What [fs.createWriteStream(undefined)] throws. *)
Definition invalid_path_error : JsError :=
  mkError "TypeError" ("The " ++ quote_mark ++ "path" ++ quote_mark ++
    " argument must be of type string or an instance of Buffer or URL. Received undefined").

Section Writer.
Context `{M : PdfMetrics}.

Definition ltext (s : string) (x y : jsnum) (opts : TextOpts) (d : Doc) : Doc :=
  text_in legacy_maxY legacy_margin s x y opts d.

(** [doc.text(s, opts)]: at the cursor. *)
Definition ltext_here (s : string) (opts : TextOpts) (d : Doc) : Doc :=
  ltext s (doc_x d) (doc_y d) opts d.

(** Lines 42-47. *)
Definition legacy_logo (readable : bool) (d : Doc) : Doc :=
  match image readable legacy_logoPath legacy_margin legacy_headerY (of_Z 120) d with
  | Some d' => d'
  | None => d
  end.

(** Line 81: [doc.y ? doc.y : idY + idParts.length * (idFontSize + 2)]. *)
Definition afterIdY (d : Doc) (parts : list string) : jsnum :=
  if truthy (doc_y d) then doc_y d
  else add legacy_idY (mul (of_Z (Z.of_nat (List.length parts))) (add legacy_idFontSize (of_Z 2))).

(** Line 82. *)
Definition legacy_dateLabelY (after : jsnum) : jsnum :=
  max (add legacy_metaY (of_Z 34)) (add after (of_Z 6)).

(** Lines 40-66: the logo, the title, and the font of the number. *)
Definition legacy_title (readable : bool) (d : Doc) : Doc :=
  d |> legacy_logo readable
    |> font HelveticaBold |> fontSize (of_Z 12)
    |> ltext "INVOICE" metaX legacy_metaY meta_opts
    |> font Helvetica |> fontSize (of_Z 10) |> moveDown lit_0_2
    |> fontSize legacy_idFontSize.

(** Lines 40-78: then the invoice number at the cursor. *)
Definition legacy_head (readable : bool) (invoiceIdRaw : string) (d : Doc) : Doc :=
  d |> legacy_title readable |> ltext_here (legacy_invoiceIdText invoiceIdRaw) meta_opts.

(** Lines 80-92. *)
Definition legacy_tail (date : string) (invoiceIdRaw amount : string) (d : Doc) : Doc :=
  d |> ltext ("Date: " ++ date) metaX (legacy_dateLabelY (afterIdY d (idParts invoiceIdRaw))) meta_opts
    |> moveDown (of_Z 3)
    |> font HelveticaBold |> fontSize (of_Z 12) |> ltext "Item" (of_Z 50) (of_Z 220) no_opts
    |> font Helvetica |> fontSize (of_Z 10)
    |> ltext "1 x Symantec Endpoint Protection License" (of_Z 50) (of_Z 240) no_opts
    |> font HelveticaBold |> ltext "TOTAL:" (of_Z 400) (of_Z 300) no_opts
    |> font Helvetica |> ltext ("$" ++ amount) (of_Z 470) (of_Z 300) no_opts.

(** The document of lines 33-94, the amount printed as [amount]. *)
Definition legacy_doc (readable : bool) (p : LegacyParams) (amount : string) : Doc :=
  legacy_new_doc |> legacy_head readable (lp_invoiceNo p)
                 |> legacy_tail (lp_date p) (lp_invoiceNo p) amount.

(** Lines 12-30: the delegated rendering, [None] when it threw or
    rejected, or the module has no [generateInvoicePDF]. *)
Definition delegate (p : LegacyParams) : prog legacyE (option LegacyResult) :=
  (ok <- load_ev ;;
   if ok then
     r <- render_ev (delegated_data p) ;;
     match r with
     | inl _ => Ret None
     | inr buf =>
         match lp_outPath p with
         | Some path =>
             if String.eqb path EmptyString then Ret (Some (RBuffer buf))
             else (w <- write_ev path buf ;;
                   match w with Some _ => Ret None | None => Ret (Some (RPath path)) end)
         | None => Ret (Some (RBuffer buf))
         end
     end
   else Ret None)%nk.

(** Lines 32-99: [fs.createWriteStream(undefined)] throws at once;
    otherwise the document is drawn and piped, and the promise settles
    on the stream's [finish] or [error]. *)
Definition fallback (p : LegacyParams) (amount : string) : prog legacyE (JsError + LegacyResult) :=
  match lp_outPath p with
  | None => Ret (inl invalid_path_error)
  | Some path =>
      (readable <- logo_ev legacy_logoPath ;;
       r <- finish_ev path (legacy_doc readable p amount) ;;
       Ret (match r with None => inr (RPath path) | Some err => inl err end))%nk
  end.

(** [generateInvoicePdf(params)], lines 9-100; [None] where [toFixed]
    is not modelled. *)
Definition generateInvoicePdf (p : LegacyParams) : option (prog legacyE (JsError + LegacyResult)) :=
  match dollars (lp_amount_or_default p) with
  | None => None
  | Some amount =>
      Some (d <- delegate p ;;
            match d with Some res => Ret (inr res) | None => fallback p amount end)%nk
  end.

End Writer.

(** ** Runs of the wrapper *)

(** One event of a run: its answer, and the rest of the run. *)
Ltac step_vis H x :=
  let s1 := fresh "s" in let tr1 := fresh "tr" in
  apply runT_vis_inv in H as (x & s1 & tr1 & _ & H & ->); cbn [bind] in H.

Section Runs.
Context `{M : PdfMetrics} {St : Type} (h : handler legacyE St).

(** The delegation ends with the service's buffer, returned or written
    to [outPath], or gives up; it never pipes a document. *)
Lemma delegate_inv p s o s1 tr :
  runT h (delegate p) s = (o, s1, tr) ->
  (forall res, o = Some res -> exists buf, In (ORender (delegated_data p) (inr buf)) tr /\
     (res = RBuffer buf \/
      exists path, res = RPath path /\ lp_outPath p = Some path /\ In (OWrite path buf None) tr)) /\
  (forall path doc a, ~ In (OFinish path doc a) tr).
Proof.
  unfold delegate, load_ev, render_ev, write_ev, trigger. cbn [bind]. intros H. step_vis H ok.
  destruct ok; [| cbn [runT] in H; injection H as <- _ <-; split; [discriminate | intros ? ? ? [[=] | []]]].
  step_vis H r. destruct r as [err | buf];
    [cbn [runT] in H; injection H as <- _ <-; split; [discriminate | intros ? ? ? [[=] | [[=] | []]]] |].
  destruct (lp_outPath p) as [path |] eqn:Hp.
  - destruct (String.eqb path EmptyString).
    + cbn [runT] in H. injection H as <- _ <-. split; [| intros ? ? ? [[=] | [[=] | []]]].
      intros res [= <-]. exists buf. split; [right; left; reflexivity | left; reflexivity].
    + step_vis H w. destruct w as [err |]; cbn [runT] in H; injection H as <- _ <-;
        (split; [| intros ? ? ? [[=] | [[=] | [[=] | []]]]]); [discriminate |].
      intros res [= <-]. exists buf. split; [right; left; reflexivity |].
      right. exists path. split; [reflexivity | split; [reflexivity | right; right; left; reflexivity]].
  - cbn [runT] in H. injection H as <- _ <-. split; [| intros ? ? ? [[=] | [[=] | []]]].
    intros res [= <-]. exists buf. split; [right; left; reflexivity | left; reflexivity].
Qed.

(** The fallback rejects at once without [outPath]; otherwise it reads
    the logo, pipes the document and settles as the stream does. *)
Lemma fallback_inv p amount s r s' tr :
  runT h (fallback p amount) s = (r, s', tr) ->
  (lp_outPath p = None /\ r = inl invalid_path_error /\ tr = []) \/
  (exists path rd a, lp_outPath p = Some path /\
     tr = [OLogo legacy_logoPath rd; OFinish path (legacy_doc rd p amount) a] /\
     r = match a with None => inr (RPath path) | Some err => inl err end).
Proof.
  unfold fallback, logo_ev, finish_ev, trigger. destruct (lp_outPath p) as [path |].
  - cbn [bind]. intros H. step_vis H rd. step_vis H a. cbn [runT] in H. injection H as <- _ <-.
    right. exists path, rd, a. auto.
  - cbn [runT]. intros [= <- _ <-]. left. auto.
Qed.

(** A run of the wrapper is the delegation, then the fallback when the
    delegation gave up. *)
Lemma generateInvoicePdf_run p pr s r s' tr :
  generateInvoicePdf p = Some pr -> runT h pr s = (r, s', tr) ->
  exists amount o s1 tr1 tr2,
    dollars (lp_amount_or_default p) = Some amount /\
    runT h (delegate p) s = (o, s1, tr1) /\ tr = (tr1 ++ tr2)%list /\
    match o with
    | Some res => r = inr res /\ tr2 = []
    | None => runT h (fallback p amount) s1 = (r, s', tr2)
    end.
Proof.
  unfold generateInvoicePdf. destruct (dollars (lp_amount_or_default p)) as [amount |]; [| discriminate].
  intros [= <-] H.
  destruct (runT_bind_inv h (delegate p)
              (fun d => match d with Some res => Ret (inr res) | None => fallback p amount end)
              s r s' tr H) as (o & s1 & tr1 & tr2 & H1 & H2 & ->).
  exists amount, o, s1, tr1, tr2. split; [reflexivity | split; [exact H1 | split; [reflexivity |]]].
  destruct o as [res |]; [cbn [runT] in H2; injection H2 as <- _ <-; auto | exact H2].
Qed.

(** What the wrapper settles with, given its trace: the conclusion of
    [legacy_outcome]. *)
Definition outcome_ok (p : LegacyParams) (r : JsError + LegacyResult) (tr : list LObs) : Prop :=
  (forall buf, r = inr (RBuffer buf) -> In (ORender (delegated_data p) (inr buf)) tr) /\
  (forall path, r = inr (RPath path) -> lp_outPath p = Some path /\
     ((exists buf, In (OWrite path buf None) tr) \/ (exists doc, In (OFinish path doc None) tr))) /\
  (forall err, r = inl err ->
     (lp_outPath p = None /\ err = invalid_path_error) \/
     (exists path doc, In (OFinish path doc (Some err)) tr)).

(** The branch where the service answered. *)
Lemma delegate_outcome p s res s1 tr1 :
  runT h (delegate p) s = (Some res, s1, tr1) -> outcome_ok p (inr res) tr1.
Proof.
  intros Hd. destruct (delegate_inv p s (Some res) s1 tr1 Hd) as [Hsome _].
  destruct (Hsome res eq_refl) as (buf & Hin & [-> | (path & -> & Hpath & Hw)]).
  - split; [intros b [= <-]; exact Hin | split; intros ? [=]].
  - split; [intros ? [=] | split; [| intros ? [=]]].
    intros q [= <-]. split; [exact Hpath | left; exists buf; exact Hw].
Qed.

(** The branch where the fallback writer ran. *)
Lemma fallback_outcome p amount s1 r s' tr1 tr2 :
  runT h (fallback p amount) s1 = (r, s', tr2) -> outcome_ok p r (tr1 ++ tr2).
Proof.
  intros Ho. destruct (fallback_inv p amount s1 r s' tr2 Ho)
    as [(Hn & -> & ->) | (path & rd & a & Hpath & -> & ->)].
  - split; [intros ? [=] | split; [intros ? [=] | intros err [= <-]; left; auto]].
  - set (doc := legacy_doc rd p amount).
    assert (Hf : forall a', In (OFinish path doc a') (tr1 ++ [OLogo legacy_logoPath rd; OFinish path doc a'])%list)
      by (intros; apply in_or_app; right; right; left; reflexivity).
    clearbody doc. destruct a as [err |].
    + split; [intros ? [=] | split; [intros ? [=] | intros e [= <-]; right]].
      exists path, doc. apply Hf.
    + split; [intros ? [=] | split; [| intros ? [=]]].
      intros q [= <-]. split; [exact Hpath | right; exists doc; apply Hf].
Qed.

(** C25.  What the wrapper settles with: a buffer is the service's
    rendering of the defaulted data; a path was written, by the service's
    buffer or by the fallback's stream; and it rejects only when the
    fallback runs without [outPath] or its stream fails. *)
Theorem legacy_outcome p pr s r s' tr :
  generateInvoicePdf p = Some pr -> runT h pr s = (r, s', tr) ->
  (forall buf, r = inr (RBuffer buf) -> In (ORender (delegated_data p) (inr buf)) tr) /\
  (forall path, r = inr (RPath path) -> lp_outPath p = Some path /\
     ((exists buf, In (OWrite path buf None) tr) \/ (exists doc, In (OFinish path doc None) tr))) /\
  (forall err, r = inl err ->
     (lp_outPath p = None /\ err = invalid_path_error) \/
     (exists path doc, In (OFinish path doc (Some err)) tr)).
Proof.
  intros Hp Hr.
  destruct (generateInvoicePdf_run p pr s r s' tr Hp Hr) as (amount & o & s1 & tr1 & tr2 & _ & Hd & -> & Ho).
  change (outcome_ok p r (tr1 ++ tr2)). destruct o as [res |].
  - destruct Ho as [-> ->]. rewrite app_nil_r. exact (delegate_outcome p s res s1 tr1 Hd).
  - exact (fallback_outcome p amount s1 r s' tr1 tr2 Ho).
Qed.

End Runs.

(** ** The inline writer's page, with PDFKit's Helvetica *)

(** The last two texts: [TOTAL:] in bold, then the amount at
    [(470, 300)] in Helvetica, at the size the document had. *)
Lemma total_last amount d0 : doc_size d0 = of_Z 10 ->
  exists pg col ops,
    doc_ops (d0 |> font HelveticaBold |> ltext "TOTAL:" (of_Z 400) (of_Z 300) no_opts
                |> font Helvetica |> ltext ("$" ++ amount) (of_Z 470) (of_Z 300) no_opts) =
    (ops ++ [DText pg Helvetica (of_Z 10) col ("$" ++ amount) (of_Z 470) (of_Z 300) no_opts])%list.
Proof.
  intros Hs0. unfold ltext.
  set (D := font Helvetica _).
  assert (Hs : doc_size D = of_Z 10) by (subst D; cbn [doc_size font]; rewrite text_in_size; exact Hs0).
  assert (Hf : doc_font D = Helvetica) by reflexivity.
  rewrite text_in_fits; [| discriminate | vm_compute; reflexivity |].
  - exists (doc_page D), (doc_color D), (doc_ops D). cbn [doc_ops]. rewrite Hs, Hf. reflexivity.
  - unfold currentLineHeight. rewrite Hs, Hf. vm_compute. reflexivity.
Qed.

(** The amount is the writer's last text: at [(470, 300)], in Helvetica
    10, whatever came before. *)
Lemma legacy_tail_total date raw amount d :
  exists pg col ops, doc_ops (legacy_tail date raw amount d) =
    (ops ++ [DText pg Helvetica (of_Z 10) col ("$" ++ amount) (of_Z 470) (of_Z 300) no_opts])%list.
Proof. unfold legacy_tail. apply total_last. unfold ltext. rewrite text_in_size. reflexivity. Qed.

(** C26.  Every document the fallback writes prints the amount
    without GST as the total: the text next to [TOTAL:] is [$] and
    [amountCents / 100] to the cent, for an integral amount below
    [2^52], where the service prints the amount plus its GST. *)
Theorem legacy_total_net {St} (h : handler legacyE St) p pr x s r s' tr path doc a :
  lp_amount_or_default p = of_Z x -> 0 <= x < 2 ^ 52 ->
  generateInvoicePdf p = Some pr -> runT h pr s = (r, s', tr) -> In (OFinish path doc a) tr ->
  exists pg col, In (DText pg Helvetica (of_Z 10) col ("$" ++ fixed2 x) (of_Z 470) (of_Z 300) no_opts)
                    (doc_ops doc).
Proof.
  intros Hx Hb Hp Hr Hin.
  destruct (generateInvoicePdf_run h p pr s r s' tr Hp Hr)
    as (amount & o & s1 & tr1 & tr2 & Ha & Hd & -> & Ho).
  rewrite Hx, dollars_exact in Ha by exact Hb. injection Ha as <-.
  destruct (delegate_inv h p s o s1 tr1 Hd) as [_ Hno].
  apply in_app_or in Hin as [Hin | Hin]; [destruct (Hno _ _ _ Hin) |].
  destruct o as [res |]; [destruct Ho as [_ ->]; destruct Hin |].
  destruct (fallback_inv h p (fixed2 x) s1 r s' tr2 Ho) as [(_ & _ & ->) | (path' & rd & a' & _ & -> & _)];
    [destruct Hin |].
  destruct Hin as [[=] | [[= _ <- _] | []]].
  destruct (legacy_tail_total (lp_date p) (lp_invoiceNo p) (fixed2 x)
              (legacy_head rd (lp_invoiceNo p) legacy_new_doc)) as (pg & col & ops & E).
  exists pg, col. unfold legacy_doc. rewrite E. apply in_or_app. right. left. reflexivity.
Qed.

(** Where the title leaves the document: Helvetica 10, on the first
    page, the cursor at the left margin, about [52.6] points down, with
    room for a line. *)
Lemma legacy_title_facts rd :
  let D := legacy_title rd legacy_new_doc in
  doc_font D = Helvetica /\ doc_size D = legacy_idFontSize /\ doc_x D = metaX /\ doc_page D = 0%nat /\
  pos_val (doc_y D) 52 53 /\ lt legacy_maxY (doc_y D) = false /\
  lt legacy_maxY (add (doc_y D) (currentLineHeight D)) = false.
Proof.
  cbv zeta.
  assert (E : doc_y (legacy_title rd legacy_new_doc) = Num 7401665987583410 (-47))
    by (destruct rd; vm_compute; reflexivity).
  rewrite E. repeat split; try (destruct rd; vm_compute; reflexivity).
  exists 7401665987583410, (-47). split; [reflexivity |]. cbn. lia.
Qed.

(** C27.  The fallback places the date below the invoice number: the
    number is drawn at the cursor under the title, and the "Date:" line
    at [max(metaY + 34, afterIdY + 6)], strictly below the number's
    block in binary64 (for a block below [2^51] points), or at the top
    of a later page when that is past the bottom margin. *)
Theorem legacy_date_below_id rd p amount :
  let T := legacy_invoiceIdText (lp_invoiceNo p) in
  let H := heightOfString Helvetica legacy_idFontSize meta_opts T in
  T <> EmptyString -> pos_val H 0 (2 ^ 51) ->
  exists y pg' col col' y',
    In (DText 0 Helvetica legacy_idFontSize col T metaX y meta_opts) (doc_ops (legacy_doc rd p amount)) /\
    In (DText pg' Helvetica legacy_idFontSize col' ("Date: " ++ lp_date p) metaX y' meta_opts)
       (doc_ops (legacy_doc rd p amount)) /\
    ((y' = legacy_dateLabelY (add y H) /\ lt (add y H) y' = true) \/ (y' = legacy_margin /\ (0 < pg')%nat)).
Proof.
  intros T H HT Hh.
  destruct (legacy_title_facts rd) as (Hf & Hs & Hx & Hp & Hy & H1 & H2).
  set (D0 := legacy_title rd legacy_new_doc) in *.
  assert (ED1 : legacy_head rd (lp_invoiceNo p) legacy_new_doc =
                mkDoc Helvetica legacy_idFontSize (doc_color D0) 0 metaX (add (doc_y D0) H)
                  (doc_ops D0 ++ [DText 0 Helvetica legacy_idFontSize (doc_color D0) T metaX (doc_y D0) meta_opts]))
    by (unfold legacy_head, ltext_here, ltext; fold D0; rewrite Hx;
        rewrite text_in_fits by assumption; rewrite Hf, Hs, Hp; reflexivity).
  assert (Ha : pos_val (add (doc_y D0) H) 51 (53 + 2 ^ 51 + 1))
    by (apply (pos_val_add _ _ 52 53 0 (2 ^ 51)); [lia | lia | lia | exact Hy | exact Hh]).
  assert (Hb : pos_val (add (add (doc_y D0) H) (of_Z 6)) 56 (53 + 2 ^ 51 + 1 + 6 + 1))
    by (apply (pos_val_add _ _ 51 _ 6 6); [lia | lia | lia | exact Ha | apply pos_val_of_Z; lia]).
  set (D1 := legacy_head rd (lp_invoiceNo p) legacy_new_doc) in *.
  assert (Hafter : afterIdY D1 (idParts (lp_invoiceNo p)) = add (doc_y D0) H)
    by (unfold afterIdY; rewrite ED1; cbn [doc_y]; rewrite (pos_val_truthy _ _ _ Ha) by lia; reflexivity).
  set (D2 := ltext ("Date: " ++ lp_date p) metaX (legacy_dateLabelY (add (doc_y D0) H)) meta_opts D1).
  destruct (text_in_op_in legacy_maxY legacy_margin ("Date: " ++ lp_date p) metaX
              (legacy_dateLabelY (add (doc_y D0) H)) meta_opts D1 ltac:(discriminate))
    as (pg' & y' & Hin & Hy').
  assert (Hext : extends D2 (legacy_doc rd p amount))
    by (unfold legacy_doc, legacy_tail; fold D1; rewrite Hafter; fold D2; unfold ltext; extends_chain).
  assert (Hext1 : extends D1 D2) by (unfold D2, ltext; apply extends_text_in).
  rewrite ED1 in Hin, Hy'. cbn [doc_font doc_size doc_page] in Hin, Hy'.
  exists (doc_y D0), pg', (doc_color D0), (doc_color D0), y'. split; [| split].
  - apply (extends_in D1); [exact (extends_trans _ _ _ Hext1 Hext) |].
    rewrite ED1. apply in_or_app. right. left. reflexivity.
  - apply (extends_in D2); [exact Hext |]. unfold D2, ltext. rewrite ED1. exact Hin.
  - destruct Hy' as [-> | [-> Hpg]]; [left | right; split; [reflexivity | lia]].
    split; [reflexivity |].
    assert (Hlt : lt (add (doc_y D0) H) (add (add (doc_y D0) H) (of_Z 6)) = true)
      by (apply (lt_add_pos_val _ _ 51 (53 + 2 ^ 51 + 1) 6 6);
          [lia | lia | lia | lia | exact Ha | apply pos_val_of_Z; lia]).
    destruct Ha as (ma & ea & Ea & _). destruct Hb as (mb & eb & Eb & _).
    assert (Ec : add legacy_metaY (of_Z 34) = Num 4925812092436480 (-46)) by (vm_compute; reflexivity).
    unfold legacy_dateLabelY. rewrite Ec, Eb. rewrite Eb, Ea in Hlt. rewrite Ea. apply lt_max_r. exact Hlt.
Qed.

(** ** Concrete runs *)

Definition demo_legacy : LegacyParams :=
  mkLegacyParams "INV-2026-000123" "09/11/2026" (Some "invoice.pdf") None None (Some (of_Z 1999)).

(** A platform where the service [loads] or not, renders nothing, and
    the file stream settles with [finish]. *)
Definition legacy_handler (loads : bool) (finish : option JsError) : handler legacyE unit :=
  fun X e s => match e in legacyE Y return Y * unit with
  | LoadService => (loads, s)
  | RenderService _ => (inl (mkError "Error" "stream error"), s)
  | WriteFile _ _ => (None, s)
  | LogoReadable _ => (false, s)
  | StreamFinish _ _ => (finish, s)
  end.

Definition demo_legacy_prog : prog legacyE (JsError + LegacyResult) :=
  match generateInvoicePdf demo_legacy with Some pr => pr | None => Ret (inl invalid_path_error) end.

(** Without the service, the file written is the fallback's. *)
Lemma legacy_outcome_witness :
  generateInvoicePdf demo_legacy = Some demo_legacy_prog /\
  fst (fst (runT (legacy_handler false None) demo_legacy_prog tt)) = inr (RPath "invoice.pdf") /\
  lp_outPath demo_legacy = Some "invoice.pdf".
Proof.
  assert (Hp : generateInvoicePdf demo_legacy = Some demo_legacy_prog) by (vm_compute; reflexivity).
  assert (Hr : fst (fst (runT (legacy_handler false None) demo_legacy_prog tt)) = inr (RPath "invoice.pdf"))
    by (vm_compute; reflexivity).
  split; [exact Hp | split; [exact Hr |]].
  destruct (runT (legacy_handler false None) demo_legacy_prog tt) as [[r s'] tr] eqn:E.
  cbn in Hr. subst r.
  destruct (legacy_outcome (legacy_handler false None) demo_legacy _ tt _ s' tr Hp E) as (_ & Hpath & _).
  exact (proj1 (Hpath _ eq_refl)).
Defined.

(** The fallback's file for 1999 cents shows [$19.99] as the total. *)
Lemma legacy_total_net_witness :
  exists doc a, In (OFinish "invoice.pdf" doc a)
                  (snd (runT (legacy_handler false None) demo_legacy_prog tt)) /\
    exists pg col, In (DText pg Helvetica (of_Z 10) col ("$" ++ fixed2 1999) (of_Z 470) (of_Z 300) no_opts)
                      (doc_ops doc).
Proof.
  assert (Hp : generateInvoicePdf demo_legacy = Some demo_legacy_prog) by (vm_compute; reflexivity).
  destruct (runT (legacy_handler false None) demo_legacy_prog tt) as [[r s'] tr] eqn:E.
  assert (Hin : exists doc a, In (OFinish "invoice.pdf" doc a) tr).
  { pose proof E as E'. vm_compute in E'. injection E' as _ _ <-.
    do 2 eexists. right. right. left. reflexivity. }
  destruct Hin as (doc & a & Hin). exists doc, a. split; [exact Hin |].
  exact (legacy_total_net (legacy_handler false None) demo_legacy _ 1999 tt r s' tr _ doc a
           eq_refl ltac:(lia) Hp E Hin).
Defined.

(** The date of the demo invoice is drawn below its number. *)
Lemma legacy_date_below_id_witness :
  exists pg' col' y',
    In (DText pg' Helvetica legacy_idFontSize col' ("Date: " ++ "09/11/2026") metaX y' meta_opts)
       (doc_ops (legacy_doc true demo_legacy "19.99")).
Proof.
  destruct (legacy_date_below_id true demo_legacy "19.99") as (y & pg' & col & col' & y' & _ & Hd & _).
  - vm_compute. discriminate.
  - exists 6507701461550366, (-49). split; [vm_compute; reflexivity |]. cbn. lia.
  - exists pg', col', y'. exact Hd.
Defined.
