(* ===== verification/DevServer.v ===== *)
(** The development server of [src/server.js].

    The server reads its configuration from the environment (port, demo
    mode, development mode) and answers each request in turn: in demo
    mode a small router answers [/api/health], [/api/products],
    [/api/checkout] and every other [/api/] path with JSON; what it does
    not answer goes to the backend proxy when the URL starts with
    [/api], and to Next.js otherwise.  The proxy branch calls
    [http.request], but the module only binds [createServer] from
    [http]: the name [http] is unbound and the call throws a
    [ReferenceError] inside the request listener.

    The clock ([Date.now()]), the request body and the console are
    events; [new URL] and [JSON.parse] are the platform's, section
    variables.  An answer is the JSON value [JSON.stringify] prints. *)

From Stdlib Require Import ZArith List String Ascii Bool Lia.
From S2P Require Import Prelude JsString JsNumber EmailVerifier EmailService ApiWorker.
Import ListNotations.
Open Scope string_scope.

(** ** Configuration, lines 5-7 *)

(** [parseInt(process.env.PORT, 10) || 3000] *)
Definition server_port (env : Env) : jsnum :=
  let p := parseInt10 (env_string (env "PORT")) in
  if truthy p then p else of_Z 3000.

Definition env_is (env : Env) (k v : string) : bool :=
  match env k with Some x => String.eqb x v | None => false end.

(** [process.env.DEMO === 'true' || process.env.NODE_ENV === 'demo'] *)
Definition demo_mode (env : Env) : bool := env_is env "DEMO" "true" || env_is env "NODE_ENV" "demo".

(** [!demo && process.env.NODE_ENV !== 'production'] *)
Definition dev_mode (env : Env) : bool := negb (demo_mode env) && negb (env_is env "NODE_ENV" "production").

(** The line logged once [listen(port)] is up, lines 88-90; [None]
    where [ToString] of the port is not modelled. *)
Definition ready_message (env : Env) : option string :=
  match to_string (server_port env) with
  | Some p => Some ("> Ready on http://localhost:" ++ p ++ " " ++
                    (if demo_mode env then "(DEMO MODE)" else EmptyString))
  | None => None
  end.

(** [src/next.config.js], the configuration [next()] reads from [dir:
    '.']: a static export ([output: 'export']) with image optimisation
    off. *)
Record NextConfig := mkNextConfig {
  cfg_output : string;
  cfg_images_unoptimized : bool
}.

Definition nextConfig : NextConfig := mkNextConfig "export" true.

(** ** Requests and answers *)

Record IncomingRequest := mkIncoming {
  in_method : string;
  in_url : string;             (** [req.url]: the path and query *)
  in_host : option string      (** [req.headers.host] *)
}.

Inductive ServerOutcome :=
| SentJson (status : Z) (headers : Dict) (body : Json)  (** [res.writeHead] and [res.end] *)
| ToNext                                                (** [handle(req, res)] *)
| Crashed (err : JsError).                              (** thrown out of the listener *)

(** [sendJson(res, obj, status = 200)], lines 17-20. *)
Definition sendJson (obj : Json) (st : Z) : ServerOutcome :=
  SentJson st [("Content-Type", "application/json")] obj.

(** [sampleProducts], lines 12-15. *)
Definition sampleProducts : Json :=
  JArr [JObj [("id", JNum (of_Z 1)); ("name", JStr "Demo Product"); ("price", JNum (round_q 999 100))];
        JObj [("id", JNum (of_Z 2)); ("name", JStr "Demo Subscription"); ("price", JNum (round_q 499 100))]].

Inductive serverE : Type -> Type :=
| Clock : serverE jsnum                  (** [Date.now()] *)
| ReadBody : serverE string              (** the chunks of the body, joined at ['end'] *)
| ServerLog (args : list string) : serverE unit.

Definition clock_ev : prog serverE jsnum := trigger Clock.
Definition read_body_ev : prog serverE string := trigger ReadBody.
Definition server_log_ev (args : list string) : prog serverE unit := trigger (ServerLog args).

(** What evaluating [http.request] throws: the module never binds [http]. *)
Definition http_not_defined : JsError := mkError "ReferenceError" "http is not defined".

Section Server.
(** [new URL(fullUrl).pathname], or the [TypeError] it throws. *)
Variable url_pathname : string -> JsError + string.
(** [JSON.parse(text)], or [None] when it throws. *)
Variable json_parse : string -> option Json.

(** [req.headers.host || 'localhost'] *)
Definition request_host (req : IncomingRequest) : string :=
  match in_host req with Some h => if String.eqb h EmptyString then "localhost" else h | None => "localhost" end.

(** Lines 43-49: the body, parsed when not empty, [null] when it does
    not parse. *)
Definition checkout_body (b : string) : Json :=
  if String.eqb b EmptyString then JNull
  else match json_parse b with Some j => j | None => JNull end.

(** Lines 24-62: the demo router; [None] falls through. *)
Definition demo_route (req : IncomingRequest) : prog serverE (option ServerOutcome) :=
  let fullUrl := "http://" ++ request_host req ++ in_url req in
  match url_pathname fullUrl with
  | inl err => (server_log_ev ["Demo handler error"; error_to_string err] ;; Ret None)%nk
  | inr pathname =>
      let m := in_method req in
      if String.eqb pathname "/api/health" && String.eqb m "GET" then
        (t <- clock_ev ;;
         Ret (Some (sendJson (JObj [("ok", JBool true); ("demo", JBool true); ("time", JNum t)]) 200)))%nk
      else if String.eqb pathname "/api/products" && String.eqb m "GET" then
        Ret (Some (sendJson sampleProducts 200))
      else if String.eqb pathname "/api/checkout" && String.eqb m "POST" then
        (b <- read_body_ev ;;
         Ret (Some (sendJson (JObj [("ok", JBool true); ("demo", JBool true);
                                     ("orderId", JStr "demo-ORDER-1234");
                                     ("request", checkout_body b)]) 200)))%nk
      else if startsWith pathname "/api/" then
        Ret (Some (sendJson (JObj [("ok", JBool false); ("demo", JBool true);
                                    ("message", JStr "Demo mode: endpoint not implemented");
                                    ("path", JStr pathname)]) 200))
      else Ret None
  end.

(** The request listener, lines 23-88. *)
Definition server_handler (demo : bool) (req : IncomingRequest) : prog serverE ServerOutcome :=
  (r <- (if demo then demo_route req else Ret None) ;;
   match r with
   | Some o => Ret o
   | None => if startsWith (in_url req) "/api" then Ret (Crashed http_not_defined) else Ret ToNext
   end)%nk.

End Server.

(** ** Properties *)

(** A field of a JSON object. *)
Definition json_field (k : string) (j : Json) : option Json :=
  match j with
  | JObj fs => match find (fun kv => String.eqb (fst kv) k) fs with Some (_, v) => Some v | None => None end
  | _ => None
  end.

(** The endpoints the demo router implements, method first. *)
Definition demo_table : list (string * string) :=
  [("GET", "/api/health"); ("GET", "/api/products"); ("POST", "/api/checkout")].

Ltac server_steps :=
  repeat (first [progress cbn [always bounded bind clock_ev read_body_ev server_log_ev trigger]
                | intros ?]).

(** C29.  [PORT] gives the server an integral port other than [0]:
    [parseInt] yields [NaN] or an integer, and [|| 3000] replaces both
    [NaN] and [0]; a negative or too large integer is kept. *)
Theorem server_port_integral env : exists z, server_port env = of_Z z /\ z <> 0.
Proof.
  unfold server_port. destruct (parseInt10_cases (env_string (env "PORT"))) as [-> | (z & ->)].
  - exists 3000. split; [reflexivity | lia].
  - destruct (truthy (of_Z z)) eqn:Ht; [exists z; split; [reflexivity | exact (truthy_of_Z z Ht)] |].
    exists 3000. split; [reflexivity | lia].
Qed.

Section ServerProofs.
Variable url_pathname : string -> JsError + string.
Variable json_parse : string -> option Json.

(** C30.  Every request is settled after at most one event (the clock,
    the request body or a console line): the listener always answers,
    hands the request to Next.js, or throws. *)
Theorem server_bounded demo req : bounded 1 (server_handler url_pathname json_parse demo req).
Proof.
  unfold server_handler. apply (bounded_bind 1 0); [| destruct demo].
  - destruct demo; [| exact I]. unfold demo_route.
    destruct (url_pathname _); [server_steps; exact I |].
    repeat match goal with |- context [if ?b then _ else _] => destruct b end; server_steps; exact I.
  - unfold demo_route. destruct (url_pathname _); [server_steps; destruct (startsWith _ _); exact I |].
    repeat match goal with |- context [if ?b then _ else _] => destruct b end; server_steps; exact I.
  - cbn [always]. destruct (startsWith _ _); exact I.
Qed.

(** C28.  Outside demo mode every request whose URL starts with
    [/api] throws [ReferenceError: http is not defined] in the listener
    and every other one goes to Next.js; in demo mode a request whose
    path is under [/api/] is answered 200 with JSON and never reaches
    the proxy: [ok: false] ("not implemented") exactly when its method
    and path are not in [demo_table]. *)
Theorem server_api_routes req :
  server_handler url_pathname json_parse false req =
    Ret (if startsWith (in_url req) "/api" then Crashed http_not_defined else ToNext) /\
  forall p, url_pathname ("http://" ++ request_host req ++ in_url req) = inr p ->
    startsWith p "/api/" = true ->
    always (fun o => exists body, o = sendJson body 200 /\
              (json_field "ok" body = Some (JBool false) <-> ~ In (in_method req, p) demo_table))
      (server_handler url_pathname json_parse true req).
Proof.
  split; [unfold server_handler; cbn [bind]; destruct (startsWith _ _); reflexivity |].
  intros p Hu Hs.
  unfold server_handler. apply always_bind. unfold demo_route. rewrite Hu.
  destruct (String.eqb_spec p "/api/health") as [-> | H1];
    [destruct (String.eqb_spec (in_method req) "GET") as [Hm | Hm] |];
  [ | | destruct (String.eqb_spec p "/api/products") as [-> | H2];
        [destruct (String.eqb_spec (in_method req) "GET") as [Hm | Hm] |];
      [ | | destruct (String.eqb_spec p "/api/checkout") as [-> | H3];
            [destruct (String.eqb_spec (in_method req) "POST") as [Hm | Hm] |] ] ];
  cbn [andb]; try rewrite Hs; server_steps; eexists; (split; [reflexivity |]);
    cbn [json_field find fst String.eqb]; cbn [In demo_table];
    (split; [intros H | intros H]); try discriminate; try (exfalso; apply H; rewrite Hm; tauto);
    first [reflexivity | intuition congruence].
Qed.

End ServerProofs.

(** ** Concrete runs *)

(** [new URL] for the requests below: the path of a [http://host/...] URL. *)
Definition demo_pathname (u : string) : JsError + string :=
  if String.prefix "http://localhost" u then inr (substring 16 (String.length u - 16) u)
  else inl (mkError "TypeError" "Invalid URL").

Definition demo_server_request : IncomingRequest := mkIncoming "GET" "/api/orders" None.

Lemma server_api_routes_witness :
  always (fun o => exists body, o = sendJson body 200 /\
            (json_field "ok" body = Some (JBool false) <-> ~ In ("GET", "/api/orders") demo_table))
    (server_handler demo_pathname (fun _ => None) true demo_server_request).
Proof.
  exact (proj2 (server_api_routes demo_pathname (fun _ => None) demo_server_request) "/api/orders"
           eq_refl eq_refl).
Defined.

(** Outside demo mode the listed endpoint throws: [http] is unbound. *)
Example products_crash :
  server_handler demo_pathname (fun _ => None) false demo_server_request = Ret (Crashed http_not_defined).
Proof. reflexivity. Qed.

(** A negative [PORT] is passed on to [listen]. *)
Example negative_port : server_port (fun k => if String.eqb k "PORT" then Some "-1" else None) = of_Z (-1).
Proof. vm_compute. reflexivity. Qed.

(** An environment for the server's events: the clock reads [0], the
    body is [{}], the console accepts every line. *)
Definition demo_io : handler serverE unit := fun X e s =>
  match e in serverE X return X * unit with
  | Clock => (of_Z 0, s)
  | ReadBody => ("{}", s)
  | ServerLog _ => (tt, s)
  end.

(** The demo checkout echoes the parsed body it reads. *)
Example checkout_echo :
  fst (run demo_io (server_handler demo_pathname (fun _ => Some (JObj [])) true
                      (mkIncoming "POST" "/api/checkout" None)) tt)
  = sendJson (JObj [("ok", JBool true); ("demo", JBool true);
                    ("orderId", JStr "demo-ORDER-1234"); ("request", JObj [])]) 200.
Proof. reflexivity. Qed.

(** Demo mode without [PORT] listens on 3000; outside demo mode the
    line ends with a space. *)
Example ready_demo :
  ready_message (fun k => if String.eqb k "DEMO" then Some "true" else None) =
    Some "> Ready on http://localhost:3000 (DEMO MODE)" /\
  ready_message (fun _ => None) = Some "> Ready on http://localhost:3000 ".
Proof. split; vm_compute; reflexivity. Qed.
