(* ===== verification/InvoiceRecord.v ===== *)
(** The invoice record of [src/server/services/pdfService.ts],
    [saveInvoiceRecord] (lines 246-262).

    The function reads the clock ([new Date()]) while it builds the row,
    then hands the row to [prisma.invoice.create] and resolves or
    rejects as the database does.  Both are events of [recordE], so
    the theorem holds whatever the clock and the database answer: the
    Prisma client and its schema are not part of the repository. *)

From Stdlib Require Import ZArith List String Bool.
From S2P Require Import Prelude JsString JsNumber Money PdfKit InvoiceLayout EmailVerifier.
Import ListNotations.
Open Scope string_scope.
Local Open Scope nk_scope.

(** The [data] object of lines 251-259; [createdAt] as the time value
    of the [Date]. *)
Record InvoiceRow := mkRow {
  row_id : string;
  row_userEmail : string;
  row_amountCents : jsnum;
  row_gstCents : jsnum;
  row_licenseKey : string;
  row_pdfFileName : string;
  row_createdAt : jsnum
}.

Inductive recordE : Type -> Type :=
| NewDate : recordE jsnum                                           (** [new Date()] *)
| InvoiceCreate (row : InvoiceRow) : recordE (JsError + InvoiceRow). (** [prisma.invoice.create] *)

Inductive RObs :=
| ODate (t : jsnum)
| OCreate (row : InvoiceRow) (answer : JsError + InvoiceRow).

#[export] Instance observe_record : Observe recordE RObs :=
  fun X e => match e in recordE X return X -> RObs with
  | NewDate => ODate
  | InvoiceCreate row => OCreate row
  end.

(** The row built from the arguments, at time [t]. *)
Definition record_row (data : InvoiceData) (gstCents : jsnum) (pdfFileName : string) (t : jsnum)
  : InvoiceRow :=
  mkRow (inv_id data) (inv_email data) (inv_amountCents data) gstCents (inv_licenseKey data)
    pdfFileName t.

(** [saveInvoiceRecord(data, gstCents, pdfFileName)], lines 246-262. *)
Definition saveInvoiceRecord (data : InvoiceData) (gstCents : jsnum) (pdfFileName : string)
  : prog recordE (JsError + InvoiceRow) :=
  (t <- trigger NewDate ;; trigger (InvoiceCreate (record_row data gstCents pdfFileName t)))%nk.

(** ** Properties *)

(** C32.  Whatever the clock and the database answer, [saveInvoiceRecord]
    reads the clock once and then calls [create] once, and settles
    exactly as [create] does.  The row it sends is, field by field, the
    invoice's id as [id], its e-mail as [userEmail], its amount as
    [amountCents], the given [gstCents] and [pdfFileName], and the time
    it read as [createdAt]. *)
Theorem saveInvoiceRecord_row {St} (h : handler recordE St) data gst file s :
  exists t answer s',
    runT h (saveInvoiceRecord data gst file) s =
      (answer, s', [ODate t; OCreate {| row_id := inv_id data; row_userEmail := inv_email data;
                                        row_amountCents := inv_amountCents data; row_gstCents := gst;
                                        row_licenseKey := inv_licenseKey data; row_pdfFileName := file;
                                        row_createdAt := t |} answer]).
Proof.
  cbn [saveInvoiceRecord bind trigger runT]. destruct (h _ NewDate s) as [t s1].
  destruct (h _ (InvoiceCreate (record_row data gst file t)) s1) as [a s2].
  exists t, a, s2. reflexivity.
Qed.

(** ** Concrete runs *)

Definition demo_record_data : InvoiceData :=
  mkInvoice "INV-2026-000123" "buyer@example.com" "LIC-1" (of_Z 1999).

(** The row keeps whatever [gstCents] the caller passes: nothing ties it
    to the amount. *)
Example record_gst_unchecked :
  row_gstCents (record_row demo_record_data (of_Z 0) "a.pdf" (of_Z 0)) <> gstCents (of_Z 1999).
Proof. vm_compute. discriminate. Qed.
