(* ===== verification/DesignRef.v ===== *)
(** The invoice header mock-up under [src/.local/.../pdfinvoice.ts] and
    the header the PDF service draws.

    The file is an HTML fragment, not TypeScript.  It is the design
    reference of the invoice header: the logo and the issuer block on
    the left, then a right-aligned column with the title, the invoice
    number and the date.  It is modelled as its element tree ([Html]):
    every element with its tag, attributes and children, and the text
    nodes as a browser renders them (runs of white space collapsed,
    leading and trailing white space of a block dropped).  The
    placeholder [NK2IT-1756…] ends with U+2026; the model keeps the
    three UTF-8 bytes the file stores for that character.

    [texts] lists the text nodes of a tree in document order.  The
    theorems compare them with the texts the PDF service draws:
    [texts_of] lists the strings of the drawn text operations of a
    PdfKit document, in drawing order. *)

From Stdlib Require Import ZArith List String Ascii Bool Lia.
From S2P Require Import Prelude JsString JsNumber Money PdfKit InvoiceLayout.
Import ListNotations.
Open Scope string_scope.
Open Scope list_scope.
Local Open Scope nk_scope.

(** ** HTML element trees *)

#[warnings="-register-all"]
Inductive Html :=
| Elem (tag : string) (attrs : list (string * string)) (children : list Html)
| Txt (s : string).

(** [class="..."] *)
Definition cls (c : string) : string * string := ("class", c).

(** The text nodes of a tree, in document order. *)
Fixpoint texts (h : Html) : list string :=
  match h with
  | Txt s => [s]
  | Elem _ _ cs => (fix go (l : list Html) : list string :=
                      match l with [] => [] | c :: l' => texts c ++ go l' end) cs
  end.

(** The element reached by following child indices from the root. *)
Fixpoint child_path (p : list nat) (h : Html) : option Html :=
  match p, h with
  | [], _ => Some h
  | i :: p', Elem _ _ cs => match nth_error cs i with Some c => child_path p' c | None => None end
  | _ :: _, Txt _ => None
  end.

(** U+2026 as the file stores it, in UTF-8. *)
Definition ellipsis_utf8 : string :=
  String (ascii_of_nat 226) (String (ascii_of_nat 128) (String (ascii_of_nat 166) EmptyString)).

(** Lines 1-19. *)
Definition design_reference : Html :=
  Elem "div" [cls "flex justify-between items-start mb-6"]
    [Elem "div" [cls "flex items-start space-x-4"]
       [Elem "img" [("src", "/assets/nk2it-logo.png"); ("alt", "NK2IT"); cls "h-16 w-auto object-contain"] [];
        Elem "div" []
          [Elem "h1" [cls "text-2xl font-bold text-nk-orange"] [Txt "NK2IT PTY LTD"];
           Elem "p" [cls "text-sm text-gray-700 mt-1"]
             [Txt "222, 20B Lexington Drive"; Elem "br" [] [];
              Txt "Norwest Business Park"; Elem "br" [] [];
              Txt "Baulkham Hills NSW 2153"]]];
     Elem "div" [cls "text-right"]
       [Elem "div" [cls "text-sm text-gray-600 mb-1"] [Elem "span" [cls "font-semibold"] [Txt "INVOICE"]];
        Elem "div" [cls "text-sm"]
          [Elem "span" [cls "font-bold"] [Txt "Invoice No:"]; Txt " ";
           Elem "span" [("id", "invoice-no")] [Txt ("NK2IT-1756" ++ ellipsis_utf8)%string]];
        Elem "div" [cls "text-sm"]
          [Elem "span" [cls "font-bold"] [Txt "Date:"]; Txt " ";
           Elem "span" [("id", "invoice-date")] [Txt "25/08/2025"]]]].

(** The issuer block: the column beside the logo, lines 4-11. *)
Definition issuer_block : option Html := child_path [0; 1]%nat design_reference.

(** The invoice-metadata column, lines 14-18. *)
Definition meta_column : option Html := child_path [1]%nat design_reference.

(** ** The texts a document draws *)

Definition op_texts (o : DrawOp) : list string :=
  match o with DText _ _ _ _ s _ _ _ => [s] | _ => [] end.

Definition texts_of (ops : list DrawOp) : list string := flat_map op_texts ops.

(** ** Texts of a chain of drawing calls *)

Lemma texts_of_app l1 l2 : texts_of (l1 ++ l2) = texts_of l1 ++ texts_of l2.
Proof. apply flat_map_app. Qed.

Section Texts.
Context `{M : PdfMetrics}.

(** A text call draws its string, unless the string is empty. *)
Lemma text_in_texts maxY top s x y opts d :
  texts_of (doc_ops (text_in maxY top s x y opts d)) =
  texts_of (doc_ops d) ++ (if String.eqb s EmptyString then [] else [s]).
Proof.
  unfold text_in. destruct (String.eqb s EmptyString); [symmetry; apply app_nil_r |].
  cbn [doc_ops]. rewrite texts_of_app. reflexivity.
Qed.

Lemma text_texts s x y opts d :
  texts_of (doc_ops (text s x y opts d)) =
  texts_of (doc_ops d) ++ (if String.eqb s EmptyString then [] else [s]).
Proof. unfold text. exact (text_in_texts page_maxY margin s x y opts d). Qed.

(** The shrinking loop only changes the font size. *)
Lemma shrink_loop_ops n id z d : doc_ops (snd (shrink_loop n id z d)) = doc_ops d.
Proof.
  revert z d; induction n as [| n IH]; intros z d; [reflexivity |].
  cbn [shrink_loop]. destruct (_ && _); [rewrite IH |]; reflexivity.
Qed.

(** Style calls draw nothing. *)
Lemma font_ops f d : doc_ops (font f d) = doc_ops d.
Proof. reflexivity. Qed.

Lemma fontSize_ops z d : doc_ops (fontSize z d) = doc_ops d.
Proof. reflexivity. Qed.

Lemma fillColor_ops c d : doc_ops (fillColor c d) = doc_ops d.
Proof. reflexivity. Qed.

(** What a document draws after a prefix of its calls extends the
    prefix's texts. *)
Lemma extends_texts d d' : extends d d' -> exists l, texts_of (doc_ops d') = texts_of (doc_ops d) ++ l.
Proof. intros [l E]. exists (texts_of l). rewrite E. apply texts_of_app. Qed.

End Texts.

Create Rewrite HintDb pdf_texts.
#[export] Hint Rewrite @text_texts @text_in_texts @shrink_loop_ops @font_ops @fontSize_ops @fillColor_ops
  : pdf_texts.

(** Evaluate the texts of a chain of style and text calls.  Rewriting
    only, so that the kernel never compares a document with its
    unfolded form (which would evaluate the coordinates). *)
Ltac texts_chain := autorewrite with pdf_texts; cbn [String.eqb Ascii.eqb Bool.eqb].

(** ** The issuer block *)

Section Header.
Context `{M : PdfMetrics}.

(** The header's texts: the title, then the four issuer lines, then the
    label of the invoice number, whatever follows. *)
Lemma header_texts date id d :
  exists rest, texts_of (doc_ops (header_text date id d)) =
    texts_of (doc_ops d) ++ ["INVOICE"; "NK2IT PTY LTD"; "222, 20B Lexington Drive";
                             "Norwest Business Park"; "Baulkham Hills NSW 2153"; "INVOICE NUMBER:"] ++ rest.
Proof.
  unfold header_text. cbv zeta.
  set (D1 := text "INVOICE NUMBER:" _ _ _ _).
  match goal with |- context [date_block ?a ?b ?c] =>
    destruct (extends_texts D1 (date_block a b c)) as [rest Hr]; [unfold date_block; extends_chain |]
  end.
  exists rest. rewrite Hr. subst D1. texts_chain. rewrite <- !app_assoc. reflexivity.
Qed.

(** C33.  Every invoice the service generates draws the issuer block
    of the design reference, line for line and in its order: the texts
    of the mock-up's column beside the logo (its [h1] and the lines of
    its [p]) follow the title and precede the invoice-number label. *)
Theorem invoice_issuer_block logo_readable currentDate data doc :
  generateInvoicePDF logo_readable currentDate data = Some doc ->
  exists b pre post, issuer_block = Some b /\
    texts_of (doc_ops doc) = pre ++ "INVOICE" :: texts b ++ "INVOICE NUMBER:" :: post.
Proof.
  unfold generateInvoicePDF. cbv zeta.
  destruct (currency (inv_amountCents data)) as [a |]; [| discriminate].
  destruct (currency (gstCents (inv_amountCents data))) as [g |]; [| discriminate].
  destruct (currency (totalCents (inv_amountCents data))) as [t |]; [| discriminate].
  intros [= <-].
  unfold header. set (H0 := draw_logo logo_readable new_doc).
  destruct (header_texts currentDate (inv_id data) H0) as [rest Hr].
  destruct (extends_texts (header_text currentDate (inv_id data) H0)
              (footer (body data a g t (header_text currentDate (inv_id data) H0)))) as [l Hl];
    [eapply extends_trans; [apply body_extends | apply footer_extends] |].
  eexists. exists (texts_of (doc_ops H0)), (rest ++ l). split; [reflexivity |].
  rewrite Hl, Hr. rewrite <- !app_assoc. reflexivity.
Qed.

End Header.

(** ** Concrete runs *)

(** The demo invoice with PDFKit's Helvetica metrics. *)
Lemma invoice_issuer_block_witness :
  exists doc, generateInvoicePDF true "09/11/2026" demo_invoice = Some doc /\
    exists b pre post, issuer_block = Some b /\
      texts_of (doc_ops doc) = pre ++ "INVOICE" :: texts b ++ "INVOICE NUMBER:" :: post.
Proof.
  destruct (generateInvoicePDF true "09/11/2026" demo_invoice) as [doc |] eqn:E;
    [| vm_compute in E; discriminate].
  exists doc. split; [reflexivity |].
  exact (invoice_issuer_block true "09/11/2026" demo_invoice doc E).
Defined.

(** The mock-up labels the number "Invoice No:" and puts the title in
    the metadata column; the PDF labels it "INVOICE NUMBER:" and draws
    the title centred under the logo. *)
Example design_meta_labels :
  exists b, meta_column = Some b /\
    texts b = ["INVOICE"; "Invoice No:"; " "; ("NK2IT-1756" ++ ellipsis_utf8)%string; "Date:"; " "; "25/08/2025"] /\
    ~ In "INVOICE NUMBER:" (texts b).
Proof. eexists. split; [reflexivity |]. split; [reflexivity |]. cbn. intuition discriminate. Qed.
